(** * Telemedicine backend: request handlers over the remote store

    A shallow embedding of the controllers of the telemedicine booking
    backend (slotController, consultationController, prescriptionController,
    authController).  Every handler is a flat sequence of guard checks and
    calls to the hosted relational store; the embedding keeps that shape:
    a handler is a computation in a small state-and-exception monad over
    the tables of the store, each [await supabase...] is one primitive that
    may come back with an error, and [throw new AppError(msg, code)] is the
    exception of the monad. *)

From Stdlib Require Import String Ascii List Bool ZArith Arith Lia Permutation.
Import ListNotations.

Local Open Scope string_scope.
Local Open Scope list_scope.

(* ================================================================== *)
(** ** src/types/index.ts *)
(* ================================================================== *)

(** [type UserRole = 'user' | 'doctor' | 'admin'] *)
Inductive UserRole : Type := role_user | role_doctor | role_admin.

(** [type ConsultationStatus] *)
Inductive ConsultationStatus : Type :=
  scheduled | ongoing | completed | cancelled | no_show.

(** [type PaymentStatus] *)
Inductive PaymentStatus : Type :=
  pending | payment_completed | payment_failed | refunded.

(** [type AvailabilityStatus] *)
Inductive AvailabilityStatus : Type := available | booked | blocked.

Definition UserRole_eqb (a b : UserRole) : bool :=
  match a, b with
  | role_user, role_user | role_doctor, role_doctor | role_admin, role_admin => true
  | _, _ => false
  end.

Definition ConsultationStatus_eqb (a b : ConsultationStatus) : bool :=
  match a, b with
  | scheduled, scheduled | ongoing, ongoing | completed, completed
  | cancelled, cancelled | no_show, no_show => true
  | _, _ => false
  end.

Definition AvailabilityStatus_eqb (a b : AvailabilityStatus) : bool :=
  match a, b with
  | available, available | booked, booked | blocked, blocked => true
  | _, _ => false
  end.

(** The string each status is on the wire and in template literals. *)
Definition ConsultationStatus_to_string (s : ConsultationStatus) : string :=
  match s with
  | scheduled => "scheduled" | ongoing => "ongoing" | completed => "completed"
  | cancelled => "cancelled" | no_show => "no_show"
  end.

Definition ConsultationStatus_of_string (s : string) : option ConsultationStatus :=
  if s =? "scheduled" then Some scheduled
  else if s =? "ongoing" then Some ongoing
  else if s =? "completed" then Some completed
  else if s =? "cancelled" then Some cancelled
  else if s =? "no_show" then Some no_show
  else None.

Definition AvailabilityStatus_to_string (s : AvailabilityStatus) : string :=
  match s with
  | available => "available" | booked => "booked" | blocked => "blocked"
  end.

Definition AvailabilityStatus_of_string (s : string) : option AvailabilityStatus :=
  if s =? "available" then Some available
  else if s =? "booked" then Some booked
  else if s =? "blocked" then Some blocked
  else None.

(** Rows of the store.  Columns the server fills in and no handler reads
    ([created_at], [updated_at], the ids of profiles, payments and
    prescription items, the verification flags) are left out. *)

Record User : Type := mkUser {
  user_id : string;
  user_email : string;
  user_phone : option string;
  user_password_hash : string;
  user_role : UserRole;
  user_is_active : bool;
  user_last_login : option string
}.

Record Profile : Type := mkProfile {
  profile_user_id : string;
  profile_first_name : string;
  profile_last_name : string;
  profile_date_of_birth : option string;
  profile_gender : option string
}.

(** The fee is a number the handlers copy into the payment and never
    compute with; it stands here as an integer, without the rounding a
    JavaScript number has above 2^53. *)
Record Doctor : Type := mkDoctor {
  doctor_id : string;
  doctor_user_id : string;
  doctor_consultation_fee : Z
}.

Record AvailabilitySlot : Type := mkSlot {
  slot_id : string;
  slot_doctor_id : string;
  slot_date : string;
  slot_start_time : string;
  slot_end_time : string;
  slot_status : AvailabilityStatus;
  slot_created_by : option string
}.

Record Medicine : Type := mkMedicine {
  medicine_id : string;
  medicine_name : string;
  medicine_in_stock : bool
}.

Record Consultation : Type := mkConsultation {
  consultation_id : string;
  consultation_patient_id : string;
  consultation_doctor_id : string;
  consultation_slot_id : option string;
  consultation_date : string;
  consultation_start_time : string;
  consultation_end_time : string;
  consultation_status : ConsultationStatus;
  consultation_chief_complaint : option string;
  consultation_diagnosis : option string;
  consultation_notes : option string;
  consultation_meeting_link : option string
}.

Record Prescription : Type := mkPrescription {
  prescription_id : string;
  prescription_consultation_id : string;
  prescription_doctor_id : string;
  prescription_patient_id : string;
  prescription_notes : option string
}.

Record PrescriptionItem : Type := mkPrescriptionItem {
  item_prescription_id : string;
  item_medicine_id : string;
  item_dosage : string;
  item_frequency : string;
  item_duration_days : Z;
  item_instructions : option string
}.

Record Payment : Type := mkPayment {
  payment_consultation_id : string;
  payment_patient_id : string;
  payment_amount : Z;
  payment_status : PaymentStatus
}.

(** [AuthRequest.user] *)
Record AuthUser : Type := mkAuthUser {
  auth_id : string;
  auth_email : string;
  auth_role : UserRole
}.

(* ================================================================== *)
(** ** The store and the handler monad *)
(* ================================================================== *)

(** The tables of the remote store, under the names the code passes to
    [supabase.from], and the lines written with [console.error]. *)
Record World : Type := mkWorld {
  ausers : list User;
  aprofiles : list Profile;
  adoctors : list Doctor;
  aavailability_slots : list AvailabilitySlot;
  aconsultations : list Consultation;
  apayments : list Payment;
  aprescriptions : list Prescription;
  aprescription_items : list PrescriptionItem;
  amedicines : list Medicine;
  console : list string
}.

Definition set_ausers (l : list User) (w : World) : World :=
  mkWorld l (aprofiles w) (adoctors w) (aavailability_slots w) (aconsultations w)
          (apayments w) (aprescriptions w) (aprescription_items w) (amedicines w)
          (console w).

Definition set_aprofiles (l : list Profile) (w : World) : World :=
  mkWorld (ausers w) l (adoctors w) (aavailability_slots w) (aconsultations w)
          (apayments w) (aprescriptions w) (aprescription_items w) (amedicines w)
          (console w).

Definition set_adoctors (l : list Doctor) (w : World) : World :=
  mkWorld (ausers w) (aprofiles w) l (aavailability_slots w) (aconsultations w)
          (apayments w) (aprescriptions w) (aprescription_items w) (amedicines w)
          (console w).

Definition set_aavailability_slots (l : list AvailabilitySlot) (w : World) : World :=
  mkWorld (ausers w) (aprofiles w) (adoctors w) l (aconsultations w)
          (apayments w) (aprescriptions w) (aprescription_items w) (amedicines w)
          (console w).

Definition set_aconsultations (l : list Consultation) (w : World) : World :=
  mkWorld (ausers w) (aprofiles w) (adoctors w) (aavailability_slots w) l
          (apayments w) (aprescriptions w) (aprescription_items w) (amedicines w)
          (console w).

Definition set_apayments (l : list Payment) (w : World) : World :=
  mkWorld (ausers w) (aprofiles w) (adoctors w) (aavailability_slots w) (aconsultations w)
          l (aprescriptions w) (aprescription_items w) (amedicines w)
          (console w).

Definition set_aprescriptions (l : list Prescription) (w : World) : World :=
  mkWorld (ausers w) (aprofiles w) (adoctors w) (aavailability_slots w) (aconsultations w)
          (apayments w) l (aprescription_items w) (amedicines w)
          (console w).

Definition set_aprescription_items (l : list PrescriptionItem) (w : World) : World :=
  mkWorld (ausers w) (aprofiles w) (adoctors w) (aavailability_slots w) (aconsultations w)
          (apayments w) (aprescriptions w) l (amedicines w)
          (console w).

Definition set_amedicines (l : list Medicine) (w : World) : World :=
  mkWorld (ausers w) (aprofiles w) (adoctors w) (aavailability_slots w) (aconsultations w)
          (apayments w) (aprescriptions w) (aprescription_items w) l
          (console w).

Definition set_console (l : list string) (w : World) : World :=
  mkWorld (ausers w) (aprofiles w) (adoctors w) (aavailability_slots w) (aconsultations w)
          (apayments w) (aprescriptions w) (aprescription_items w) (amedicines w)
          l.

(** What a handler can throw: [AppError] of errorHandler.ts with its
    message and status code, the [ZodError] of a failed [schema.parse],
    and the [TypeError] of a property read on [null]. *)
Inductive Exn : Type :=
| AppError (message : string) (statusCode : nat)
| ZodError
| TypeError.

Inductive Completion (A : Type) : Type :=
| Returned (a : A)
| Thrown (e : Exn).
Arguments Returned {A} a.
Arguments Thrown {A} e.

(** A handler runs on the store and leaves a store behind, whether it
    returns or throws: nothing is undone by an exception. *)
Definition Handler (A : Type) : Type := World -> Completion A * World.

Definition ret {A} (a : A) : Handler A := fun w => (Returned a, w).

Definition bind {A B} (c : Handler A) (k : A -> Handler B) : Handler B :=
  fun w =>
    match c w with
    | (Returned a, w') => k a w'
    | (Thrown e, w') => (Thrown e, w')
    end.

Definition throw {A} (e : Exn) : Handler A := fun w => (Thrown e, w).

Definition console_error (line : string) : Handler unit :=
  fun w => (Returned tt, set_console (console w ++ [line]) w).

Declare Scope handler_scope.
Delimit Scope handler_scope with handler.
Notation "x <- c ;; k" := (bind c (fun x => k))
  (at level 61, c at next level, right associativity) : handler_scope.
Notation "c ;; k" := (bind c (fun _ => k))
  (at level 61, right associativity) : handler_scope.
Local Open Scope handler_scope.

(** [res.status(code).json({ success: true, message, data })];
    [res.json] alone answers 200. *)
Record Response (A : Type) : Type := mkResponse {
  res_status : nat;
  res_message : option string;
  res_data : A
}.
Arguments mkResponse {A} _ _ _.
Arguments res_status {A} _.
Arguments res_message {A} _.
Arguments res_data {A} _.

(** *** The store client

    Every call resolves to [{ data, error }].  [fault] is what the
    environment does to this one call: [Some msg] makes it fail with that
    message and leave the store as it was. *)
Inductive PgResult (A : Type) : Type :=
| PgData (data : A)
| PgError (message : string).
Arguments PgData {A} data.
Arguments PgError {A} message.

Definition data {A} (r : PgResult A) : option A :=
  match r with PgData d => Some d | PgError _ => None end.

Definition error {A} (r : PgResult A) : option string :=
  match r with PgData _ => None | PgError m => Some m end.

(** [supabase.from(name)]: a table is read and written as a whole. *)
Record Table (R : Type) : Type := mkTable {
  rows : World -> list R;
  put : list R -> World -> World
}.
Arguments rows {R} _ _.
Arguments put {R} _ _ _.

Definition from_ausers := mkTable User ausers set_ausers.
Definition from_aprofiles := mkTable Profile aprofiles set_aprofiles.
Definition from_adoctors := mkTable Doctor adoctors set_adoctors.
Definition from_aavailability_slots :=
  mkTable AvailabilitySlot aavailability_slots set_aavailability_slots.
Definition from_aconsultations := mkTable Consultation aconsultations set_aconsultations.
Definition from_apayments := mkTable Payment apayments set_apayments.
Definition from_aprescriptions := mkTable Prescription aprescriptions set_aprescriptions.
Definition from_aprescription_items :=
  mkTable PrescriptionItem aprescription_items set_aprescription_items.
Definition from_amedicines := mkTable Medicine amedicines set_amedicines.

(** [.single()]: exactly one row, else an error and [data: null]. *)
Definition single {R} (l : list R) : PgResult R :=
  match l with
  | [r] => PgData r
  | _ => PgError "JSON object requested, multiple (or no) rows returned"
  end.

(** [.select(...).filters] *)
Definition select {R} (t : Table R) (fault : option string) (p : R -> bool)
  : Handler (PgResult (list R)) :=
  fun w =>
    match fault with
    | Some m => (Returned (PgError m), w)
    | None => (Returned (PgData (filter p (rows t w))), w)
    end.

(** [.select(...).filters.single()] *)
Definition select_single {R} (t : Table R) (fault : option string) (p : R -> bool)
  : Handler (PgResult R) :=
  fun w =>
    match fault with
    | Some m => (Returned (PgError m), w)
    | None => (Returned (single (filter p (rows t w))), w)
    end.

(** [.insert(row).select().single()] into a table with a primary key:
    the row arrives with the key the server chose for it, and a key
    already in the table is refused. *)
Definition insert_keyed {R} (t : Table R) (key : R -> string)
    (fault : option string) (row : R) : Handler (PgResult R) :=
  fun w =>
    match fault with
    | Some m => (Returned (PgError m), w)
    | None =>
        if existsb (fun r => key r =? key row) (rows t w)
        then (Returned (PgError "duplicate key value violates unique constraint"), w)
        else (Returned (PgData row), put t (rows t w ++ [row]) w)
    end.

(** [.insert(rows)]: one statement, all rows or none. *)
Definition insert {R} (t : Table R) (fault : option string) (new : list R)
  : Handler (PgResult unit) :=
  fun w =>
    match fault with
    | Some m => (Returned (PgError m), w)
    | None => (Returned (PgData tt), put t (rows t w ++ new) w)
    end.

(** What a table makes of the object handed to [.update]: every key has
    to be one of its columns, and the assignments are done in order. *)
Fixpoint patch_of {R} (set_column : string -> string -> PgResult (R -> R))
    (values : list (string * string)) : PgResult (R -> R) :=
  match values with
  | [] => PgData (fun r => r)
  | (k, v) :: rest =>
      match set_column k v, patch_of set_column rest with
      | PgData f, PgData g => PgData (fun r => g (f r))
      | PgError m, _ => PgError m
      | _, PgError m => PgError m
      end
  end.

(** [.update(values).filters]: [values] reaches the store as the object
    it is, under its own keys.  A key that is no column of the table is
    an error; an object without keys updates nothing and matches no row.
    The rows that were updated come back (for [.select()]). *)
Definition update {R} (t : Table R) (fault : option string)
    (set_column : string -> string -> PgResult (R -> R))
    (values : list (string * string)) (p : R -> bool)
  : Handler (PgResult (list R)) :=
  fun w =>
    match fault with
    | Some m => (Returned (PgError m), w)
    | None =>
        match values with
        | [] => (Returned (PgData []), w)
        | _ =>
            match patch_of set_column values with
            | PgError m => (Returned (PgError m), w)
            | PgData f =>
                (Returned (PgData (map f (filter p (rows t w)))),
                 put t (map (fun r => if p r then f r else r) (rows t w)) w)
            end
        end
    end.

(** [.delete().filters] *)
Definition delete {R} (t : Table R) (fault : option string) (p : R -> bool)
  : Handler (PgResult unit) :=
  fun w =>
    match fault with
    | Some m => (Returned (PgError m), w)
    | None => (Returned (PgData tt), put t (filter (fun r => negb (p r)) (rows t w)) w)
    end.

(** [.single()] after a call that returned rows. *)
Definition and_single {R} (r : PgResult (list R)) : PgResult R :=
  match r with
  | PgData l => single l
  | PgError m => PgError m
  end.

(** The object handed to [.update]: its own keys, in order, each with
    the string it carries. *)
Definition JsObject : Type := list (string * string).

Definition field (key : string) (v : option string) : JsObject :=
  match v with Some s => [(key, s)] | None => [] end.

(** JavaScript truthiness of an optional string: [null], [undefined] and
    the empty string are falsy. *)
Definition truthy (v : option string) : bool :=
  match v with
  | Some s => negb (s =? "")
  | None => false
  end.

Definition option_string_eqb (a : option string) (b : string) : bool :=
  match a with Some s => s =? b | None => false end.

(** *** Columns of the tables that are updated

    The columns are the ones the code itself names when it inserts into
    or filters on the table ([slot_date], [start_time], [meeting_link],
    ...).  The store refuses any other key. *)

Definition unknown_column {R} (col : string) : PgResult (R -> R) :=
  PgError ("Could not find the '" ++ col ++ "' column in the schema cache").

Definition invalid_value {R} (v : string) : PgResult (R -> R) :=
  PgError ("invalid input value: " ++ v).

Definition set_slot_date (v : string) (r : AvailabilitySlot) : AvailabilitySlot :=
  mkSlot (slot_id r) (slot_doctor_id r) v (slot_start_time r) (slot_end_time r)
         (slot_status r) (slot_created_by r).

Definition set_slot_start_time (v : string) (r : AvailabilitySlot) : AvailabilitySlot :=
  mkSlot (slot_id r) (slot_doctor_id r) (slot_date r) v (slot_end_time r)
         (slot_status r) (slot_created_by r).

Definition set_slot_end_time (v : string) (r : AvailabilitySlot) : AvailabilitySlot :=
  mkSlot (slot_id r) (slot_doctor_id r) (slot_date r) (slot_start_time r) v
         (slot_status r) (slot_created_by r).

Definition set_slot_status (st : AvailabilityStatus) (r : AvailabilitySlot)
  : AvailabilitySlot :=
  mkSlot (slot_id r) (slot_doctor_id r) (slot_date r) (slot_start_time r) (slot_end_time r)
         st (slot_created_by r).

Definition aavailability_slots_set (col v : string)
  : PgResult (AvailabilitySlot -> AvailabilitySlot) :=
  if col =? "slot_date" then PgData (set_slot_date v)
  else if col =? "start_time" then PgData (set_slot_start_time v)
  else if col =? "end_time" then PgData (set_slot_end_time v)
  else if col =? "status" then
    match AvailabilityStatus_of_string v with
    | Some st => PgData (set_slot_status st)
    | None => invalid_value v
    end
  else unknown_column col.

Definition set_consultation_status (st : ConsultationStatus) (r : Consultation)
  : Consultation :=
  mkConsultation (consultation_id r) (consultation_patient_id r)
    (consultation_doctor_id r) (consultation_slot_id r) (consultation_date r)
    (consultation_start_time r) (consultation_end_time r) st
    (consultation_chief_complaint r) (consultation_diagnosis r)
    (consultation_notes r) (consultation_meeting_link r).

Definition set_consultation_diagnosis (v : string) (r : Consultation) : Consultation :=
  mkConsultation (consultation_id r) (consultation_patient_id r)
    (consultation_doctor_id r) (consultation_slot_id r) (consultation_date r)
    (consultation_start_time r) (consultation_end_time r) (consultation_status r)
    (consultation_chief_complaint r) (Some v)
    (consultation_notes r) (consultation_meeting_link r).

Definition set_consultation_notes (v : string) (r : Consultation) : Consultation :=
  mkConsultation (consultation_id r) (consultation_patient_id r)
    (consultation_doctor_id r) (consultation_slot_id r) (consultation_date r)
    (consultation_start_time r) (consultation_end_time r) (consultation_status r)
    (consultation_chief_complaint r) (consultation_diagnosis r)
    (Some v) (consultation_meeting_link r).

Definition set_consultation_meeting_link (v : string) (r : Consultation) : Consultation :=
  mkConsultation (consultation_id r) (consultation_patient_id r)
    (consultation_doctor_id r) (consultation_slot_id r) (consultation_date r)
    (consultation_start_time r) (consultation_end_time r) (consultation_status r)
    (consultation_chief_complaint r) (consultation_diagnosis r)
    (consultation_notes r) (Some v).

Definition aconsultations_set (col v : string)
  : PgResult (Consultation -> Consultation) :=
  if col =? "status" then
    match ConsultationStatus_of_string v with
    | Some st => PgData (set_consultation_status st)
    | None => invalid_value v
    end
  else if col =? "diagnosis" then PgData (set_consultation_diagnosis v)
  else if col =? "notes" then PgData (set_consultation_notes v)
  else if col =? "meeting_link" then PgData (set_consultation_meeting_link v)
  else unknown_column col.

Definition set_user_last_login (v : string) (r : User) : User :=
  mkUser (user_id r) (user_email r) (user_phone r) (user_password_hash r)
         (user_role r) (user_is_active r) (Some v).

Definition ausers_set (col v : string) : PgResult (User -> User) :=
  if col =? "last_login" then PgData (set_user_last_login v)
  else unknown_column col.

(** The related row of a to-one embed such as [adoctors(user_id)]:
    the doctor the foreign key points at, [null] when there is none. *)
Definition embed_adoctors (doctor : string) : Handler (option Doctor) :=
  fun w => (Returned (find (fun d => doctor_id d =? doctor) (adoctors w)), w).

(* ================================================================== *)
(** ** src/validation/schemas.ts (the slot schemas) *)
(* ================================================================== *)

Definition is_digit (c : ascii) : bool := (("0" <=? c) && (c <=? "9"))%char.

(** [/^\d{4}-\d{2}-\d{2}$/] *)
Definition is_YYYY_MM_DD (s : string) : bool :=
  match list_ascii_of_string s with
  | [y1; y2; y3; y4; d1; m1; m2; d2; a1; a2] =>
      is_digit y1 && is_digit y2 && is_digit y3 && is_digit y4 && (d1 =? "-")%char
      && is_digit m1 && is_digit m2 && (d2 =? "-")%char && is_digit a1 && is_digit a2
  | _ => false
  end.

(** [/^\d{2}:\d{2}:\d{2}$/] *)
Definition is_HH_MM_SS (s : string) : bool :=
  match list_ascii_of_string s with
  | [h1; h2; c1; m1; m2; c2; s1; s2] =>
      is_digit h1 && is_digit h2 && (c1 =? ":")%char
      && is_digit m1 && is_digit m2 && (c2 =? ":")%char && is_digit s1 && is_digit s2
  | _ => false
  end.

Record CreateSlotData : Type := mkCreateSlotData {
  slotDate : string;
  startTime : string;
  endTime : string
}.

(** [createSlotSchema.parse]: the three formats, then
    [.refine(data => data.endTime > data.startTime)], a comparison of
    strings.  [None] is the thrown [ZodError]. *)
Definition createSlotSchema_parse (body : CreateSlotData) : option CreateSlotData :=
  if is_YYYY_MM_DD (slotDate body) && is_HH_MM_SS (startTime body)
     && is_HH_MM_SS (endTime body) && (startTime body <? endTime body)
  then Some body else None.

Record UpdateSlotData : Type := mkUpdateSlotData {
  upd_slotDate : option string;
  upd_startTime : option string;
  upd_endTime : option string;
  upd_status : option AvailabilityStatus
}.

Definition optional (check : string -> bool) (v : option string) : bool :=
  match v with Some s => check s | None => true end.

(** [updateSlotSchema.parse]: every key optional, [status] one of the
    three values of the enum. *)
Definition updateSlotSchema_parse (body : UpdateSlotData) : option UpdateSlotData :=
  if optional is_YYYY_MM_DD (upd_slotDate body) && optional is_HH_MM_SS (upd_startTime body)
     && optional is_HH_MM_SS (upd_endTime body)
  then Some body else None.

(** The parsed object as [.update(validatedData)] receives it: the keys
    of the schema, the ones that were given. *)
Definition UpdateSlotData_object (d : UpdateSlotData) : JsObject :=
  field "slotDate" (upd_slotDate d) ++ field "startTime" (upd_startTime d)
  ++ field "endTime" (upd_endTime d)
  ++ field "status" (option_map AvailabilityStatus_to_string (upd_status d)).

(* ================================================================== *)
(** ** src/controllers/slotController.ts *)
(* ================================================================== *)

Module slotController.

(** What the environment contributes to one run of [createSlot]: the
    outcome of each store call and the id of the new row. *)
Record CreateSlotEnv : Type := mkCreateSlotEnv {
  cs_doctor_fault : option string;
  cs_overlap_fault : option string;
  cs_insert_fault : option string;
  cs_new_id : string
}.

(** The filter of the overlap query:
    [.eq('doctor_id', ..).eq('slot_date', ..)
     .or(`and(start_time.lte.${endTime},end_time.gte.${startTime})`)].
    Times are [HH:MM:SS] strings of one width, which the order on
    strings orders as times. *)
Definition overlap_filter (doctor : string) (d : CreateSlotData)
    (r : AvailabilitySlot) : bool :=
  (slot_doctor_id r =? doctor) && (slot_date r =? slotDate d)
  && ((slot_start_time r <=? endTime d) && (startTime d <=? slot_end_time r)).

Definition createSlot (env : CreateSlotEnv) (user : option AuthUser)
    (body : CreateSlotData) : Handler (Response AvailabilitySlot) :=
  match createSlotSchema_parse body with
  | None => throw ZodError
  | Some validatedData =>
  match user with
  | None => throw (AppError "Unauthorized" 401)
  | Some u =>
      doctor <- select_single from_adoctors (cs_doctor_fault env)
                  (fun d => doctor_user_id d =? auth_id u) ;;
      match data doctor with
      | None => throw (AppError "Doctor profile not found" 404)
      | Some doctor =>
          existingSlots <- select from_aavailability_slots (cs_overlap_fault env)
                             (overlap_filter (doctor_id doctor) validatedData) ;;
          match data existingSlots with
          | Some (_ :: _) =>
              throw (AppError "This time slot overlaps with an existing slot" 409)
          | _ =>
              slot <- insert_keyed from_aavailability_slots slot_id (cs_insert_fault env)
                        (mkSlot (cs_new_id env) (doctor_id doctor)
                                (slotDate validatedData) (startTime validatedData)
                                (endTime validatedData) available (Some (auth_id u))) ;;
              match data slot with
              | None => throw (AppError "Failed to create slot" 500)
              | Some slot =>
                  ret (mkResponse 201 (Some "Availability slot created successfully") slot)
              end
          end
      end
  end
  end.

Record UpdateSlotEnv : Type := mkUpdateSlotEnv {
  us_select_fault : option string;
  us_update_fault : option string
}.

Definition updateSlot (env : UpdateSlotEnv) (user : option AuthUser)
    (slotId : string) (body : UpdateSlotData) : Handler (Response AvailabilitySlot) :=
  match updateSlotSchema_parse body with
  | None => throw ZodError
  | Some validatedData =>
  match user with
  | None => throw (AppError "Unauthorized" 401)
  | Some u =>
      slot <- select_single from_aavailability_slots (us_select_fault env)
                (fun r => slot_id r =? slotId) ;;
      match data slot with
      | None => throw (AppError "Slot not found" 404)
      | Some slot =>
          adoctors <- embed_adoctors (slot_doctor_id slot) ;;
          let doctorUserId := option_map doctor_user_id adoctors in
          if UserRole_eqb (auth_role u) role_doctor
             && negb (option_string_eqb doctorUserId (auth_id u))
          then throw (AppError "You can only update your own slots" 403)
          else
            updated <- update from_aavailability_slots (us_update_fault env)
                         aavailability_slots_set (UpdateSlotData_object validatedData)
                         (fun r => slot_id r =? slotId) ;;
            match data (and_single updated) with
            | None => throw (AppError "Failed to update slot" 500)
            | Some updatedSlot =>
                ret (mkResponse 200 (Some "Slot updated successfully") updatedSlot)
            end
      end
  end
  end.

End slotController.

(* ================================================================== *)
(** ** src/controllers/consultationController.ts *)
(* ================================================================== *)

Module consultationController.

Record BookConsultationData : Type := mkBookConsultationData {
  doctorId : string;
  slotId : string;
  chiefComplaint : string
}.

Record BookEnv : Type := mkBookEnv {
  bk_slot_fault : option string;
  bk_insert_fault : option string;
  bk_new_id : string;
  bk_slot_update_fault : option string;
  bk_rollback_fault : option string;
  bk_payment_fault : option string;
  bk_now : Z
}.

Record UpdateConsultationData : Type := mkUpdateConsultationData {
  upd_status : option ConsultationStatus;
  upd_diagnosis : option string;
  upd_notes : option string;
  upd_meetingLink : option string
}.

(** The parsed object as [.update(validatedData)] receives it. *)
Definition UpdateConsultationData_object (d : UpdateConsultationData) : JsObject :=
  field "status" (option_map ConsultationStatus_to_string (upd_status d))
  ++ field "diagnosis" (upd_diagnosis d) ++ field "notes" (upd_notes d)
  ++ field "meetingLink" (upd_meetingLink d).

Record UpdateConsultationEnv : Type := mkUpdateConsultationEnv {
  uc_select_fault : option string;
  uc_update_fault : option string;
  uc_slot_update_fault : option string
}.

Record CancelEnv : Type := mkCancelEnv {
  cc_select_fault : option string;
  cc_update_fault : option string;
  cc_slot_update_fault : option string
}.

Section Clock.

(** [new Date(text)] as the number it compares by; [None] is the
    Invalid Date, whose comparisons are all false. *)
Variable Date_parse : string -> option Z.

(** [slotDateTime < new Date()] *)
Definition in_the_past (slot : AvailabilitySlot) (now : Z) : bool :=
  match Date_parse (slot_date slot ++ "T" ++ slot_start_time slot) with
  | Some t => (t <? now)%Z
  | None => false
  end.

(** The body of [bookConsultation] after [bookConsultationSchema.parse]. *)
Definition bookConsultation (env : BookEnv) (user : option AuthUser)
    (validatedData : BookConsultationData) : Handler (Response Consultation) :=
  match user with
  | None => throw (AppError "Unauthorized" 401)
  | Some u =>
      slot <- select_single from_aavailability_slots (bk_slot_fault env)
                (fun r => slot_id r =? slotId validatedData) ;;
      match data slot with
      | None => throw (AppError "Slot not found" 404)
      | Some slot =>
          adoctors <- embed_adoctors (slot_doctor_id slot) ;;
          if negb (AvailabilityStatus_eqb (slot_status slot) available) then
            throw (AppError "This slot is not available for booking" 400)
          else if negb (slot_doctor_id slot =? doctorId validatedData) then
            throw (AppError "Slot does not belong to the specified doctor" 400)
          else if in_the_past slot (bk_now env) then
            throw (AppError "Cannot book a slot in the past" 400)
          else
            consultation <- insert_keyed from_aconsultations consultation_id
                              (bk_insert_fault env)
                              (mkConsultation (bk_new_id env) (auth_id u)
                                 (doctorId validatedData) (Some (slotId validatedData))
                                 (slot_date slot) (slot_start_time slot) (slot_end_time slot)
                                 scheduled (Some (chiefComplaint validatedData))
                                 None None None) ;;
            match data consultation with
            | None => throw (AppError "Failed to book consultation" 500)
            | Some consultation =>
                updateSlot <- update from_aavailability_slots (bk_slot_update_fault env)
                                aavailability_slots_set [("status", "booked")]
                                (fun r => slot_id r =? slotId validatedData) ;;
                match error updateSlot with
                | Some _ =>
                    delete from_aconsultations (bk_rollback_fault env)
                      (fun c => consultation_id c =? consultation_id consultation) ;;
                    throw (AppError "Failed to book slot" 500)
                | None =>
                    match adoctors with
                    | None => throw TypeError
                    | Some doctorInfo =>
                        payment <- insert from_apayments (bk_payment_fault env)
                                     [mkPayment (consultation_id consultation) (auth_id u)
                                        (doctor_consultation_fee doctorInfo) pending] ;;
                        match error payment with
                        | Some m => console_error ("Failed to create payment record: " ++ m)
                        | None => ret tt
                        end ;;
                        ret (mkResponse 201 (Some "Consultation booked successfully")
                                        consultation)
                    end
                end
            end
      end
  end.

End Clock.

(** The body of [updateConsultation] after
    [updateConsultationSchema.parse]. *)
Definition updateConsultation (env : UpdateConsultationEnv) (user : option AuthUser)
    (consultationId : string) (validatedData : UpdateConsultationData)
  : Handler (Response Consultation) :=
  match user with
  | None => throw (AppError "Unauthorized" 401)
  | Some u =>
      consultation <- select_single from_aconsultations (uc_select_fault env)
                        (fun c => consultation_id c =? consultationId) ;;
      match data consultation with
      | None => throw (AppError "Consultation not found" 404)
      | Some consultation =>
          adoctors <- embed_adoctors (consultation_doctor_id consultation) ;;
          let doctorUserId := option_map doctor_user_id adoctors in
          if UserRole_eqb (auth_role u) role_doctor
             && negb (option_string_eqb doctorUserId (auth_id u))
          then throw (AppError "You can only update your own consultations" 403)
          else
            updated <- update from_aconsultations (uc_update_fault env)
                         aconsultations_set (UpdateConsultationData_object validatedData)
                         (fun c => consultation_id c =? consultationId) ;;
            match data (and_single updated) with
            | None => throw (AppError "Failed to update consultation" 500)
            | Some updatedConsultation =>
                match upd_status validatedData, consultation_slot_id consultation with
                | Some cancelled, Some slot =>
                    if truthy (Some slot) then
                      update from_aavailability_slots (uc_slot_update_fault env)
                        aavailability_slots_set [("status", "available")]
                        (fun r => slot_id r =? slot) ;;
                      ret tt
                    else ret tt
                | _, _ => ret tt
                end ;;
                ret (mkResponse 200 (Some "Consultation updated successfully")
                                updatedConsultation)
            end
      end
  end.

Definition is_terminal (s : ConsultationStatus) : bool :=
  ConsultationStatus_eqb s completed || ConsultationStatus_eqb s cancelled.

Definition cancelConsultation (env : CancelEnv) (user : option AuthUser)
    (consultationId : string) : Handler (Response unit) :=
  match user with
  | None => throw (AppError "Unauthorized" 401)
  | Some u =>
      consultation <- select_single from_aconsultations (cc_select_fault env)
                        (fun c => consultation_id c =? consultationId) ;;
      match data consultation with
      | None => throw (AppError "Consultation not found" 404)
      | Some consultation =>
          if UserRole_eqb (auth_role u) role_user
             && negb (consultation_patient_id consultation =? auth_id u)
          then throw (AppError "You can only cancel your own consultations" 403)
          else if is_terminal (consultation_status consultation) then
            throw (AppError ("Cannot cancel a "
                             ++ ConsultationStatus_to_string (consultation_status consultation)
                             ++ " consultation") 400)
          else
            updated <- update from_aconsultations (cc_update_fault env)
                         aconsultations_set [("status", "cancelled")]
                         (fun c => consultation_id c =? consultationId) ;;
            match error updated with
            | Some _ => throw (AppError "Failed to cancel consultation" 500)
            | None =>
                match consultation_slot_id consultation with
                | Some slot =>
                    if truthy (Some slot) then
                      update from_aavailability_slots (cc_slot_update_fault env)
                        aavailability_slots_set [("status", "available")]
                        (fun r => slot_id r =? slot) ;;
                      ret tt
                    else ret tt
                | None => ret tt
                end ;;
                ret (mkResponse 200 (Some "Consultation cancelled successfully") tt)
            end
      end
  end.

End consultationController.

(* ================================================================== *)
(** ** src/controllers/prescriptionController.ts *)
(* ================================================================== *)

Module prescriptionController.

Record PrescriptionItemData : Type := mkPrescriptionItemData {
  medicineId : string;
  dosage : string;
  frequency : string;
  durationDays : Z;
  instructions : option string
}.

Record CreatePrescriptionData : Type := mkCreatePrescriptionData {
  consultationId : string;
  notes : option string;
  items : list PrescriptionItemData
}.

Record CreatePrescriptionEnv : Type := mkCreatePrescriptionEnv {
  cp_doctor_fault : option string;
  cp_consultation_fault : option string;
  cp_existing_fault : option string;
  cp_medicines_fault : option string;
  cp_insert_fault : option string;
  cp_new_id : string;
  cp_items_fault : option string;
  cp_rollback_fault : option string;
  cp_fetch_fault : option string
}.

(** The prescription as the last query returns it, with its items and
    the medicine of each. *)
Definition CompletePrescription : Type :=
  (Prescription * list (PrescriptionItem * option Medicine))%type.

(** The embedded [aprescription_items ( ..., amedicines ( ... ) )] of a
    prescription.  The query names no order for them; here they come
    as the table has them, and the statements about them are of their
    number and content, not of their order. *)
Definition embed_aprescription_items (p : Prescription)
  : Handler (list (PrescriptionItem * option Medicine)) :=
  fun w =>
    (Returned
       (map (fun i => (i, find (fun m => medicine_id m =? item_medicine_id i) (amedicines w)))
            (filter (fun i => item_prescription_id i =? prescription_id p)
                    (aprescription_items w))),
     w).

(** [.in('id', medicineIds)] *)
Definition id_in (medicineIds : list string) (m : Medicine) : bool :=
  existsb (fun i => medicine_id m =? i) medicineIds.

Definition out_of_stock_message (outOfStockMedicines : list Medicine) : string :=
  "Following medicines are out of stock: "
  ++ String.concat ", " (map medicine_name outOfStockMedicines).

(** The body of [createPrescription] after
    [createPrescriptionSchema.parse]. *)
Definition createPrescription (env : CreatePrescriptionEnv) (user : option AuthUser)
    (validatedData : CreatePrescriptionData)
  : Handler (Response (option CompletePrescription)) :=
  match user with
  | None => throw (AppError "Unauthorized" 401)
  | Some u =>
      doctor <- select_single from_adoctors (cp_doctor_fault env)
                  (fun d => doctor_user_id d =? auth_id u) ;;
      match data doctor with
      | None => throw (AppError "Doctor profile not found" 404)
      | Some doctor =>
      consultation <- select_single from_aconsultations (cp_consultation_fault env)
                        (fun c => consultation_id c =? consultationId validatedData) ;;
      match data consultation with
      | None => throw (AppError "Consultation not found" 404)
      | Some consultation =>
      if negb (consultation_doctor_id consultation =? doctor_id doctor) then
        throw (AppError "You can only prescribe for your own consultations" 403)
      else if negb (ConsultationStatus_eqb (consultation_status consultation) completed)
              && negb (ConsultationStatus_eqb (consultation_status consultation) ongoing) then
        throw (AppError "Can only prescribe for ongoing or completed consultations" 400)
      else
      existingPrescription <- select_single from_aprescriptions (cp_existing_fault env)
                                (fun p => prescription_consultation_id p
                                          =? consultationId validatedData) ;;
      match data existingPrescription with
      | Some _ => throw (AppError "Prescription already exists for this consultation" 409)
      | None =>
      let medicineIds := map medicineId (items validatedData) in
      medicines <- select from_amedicines (cp_medicines_fault env) (id_in medicineIds) ;;
      match data medicines with
      | None => throw (AppError "One or more medicines not found" 404)
      | Some medicines =>
      if negb (length medicines =? length medicineIds)%nat then
        throw (AppError "One or more medicines not found" 404)
      else
      let outOfStockMedicines := filter (fun m => negb (medicine_in_stock m)) medicines in
      if (0 <? length outOfStockMedicines)%nat then
        throw (AppError (out_of_stock_message outOfStockMedicines) 400)
      else
      prescription <- insert_keyed from_aprescriptions prescription_id (cp_insert_fault env)
                        (mkPrescription (cp_new_id env) (consultationId validatedData)
                           (doctor_id doctor) (consultation_patient_id consultation)
                           (notes validatedData)) ;;
      match data prescription with
      | None => throw (AppError "Failed to create prescription" 500)
      | Some prescription =>
      let prescriptionItems :=
        map (fun item => mkPrescriptionItem (prescription_id prescription) (medicineId item)
                           (dosage item) (frequency item) (durationDays item)
                           (instructions item))
            (items validatedData) in
      inserted <- insert from_aprescription_items (cp_items_fault env) prescriptionItems ;;
      match error inserted with
      | Some _ =>
          delete from_aprescriptions (cp_rollback_fault env)
            (fun p => prescription_id p =? prescription_id prescription) ;;
          throw (AppError "Failed to create prescription items" 500)
      | None =>
          complete <- select_single from_aprescriptions (cp_fetch_fault env)
                        (fun p => prescription_id p =? prescription_id prescription) ;;
          match data complete with
          | None => ret (mkResponse 201 (Some "Prescription created successfully") None)
          | Some p =>
              its <- embed_aprescription_items p ;;
              ret (mkResponse 201 (Some "Prescription created successfully") (Some (p, its)))
          end
      end
      end
      end
      end
      end
      end
  end.

End prescriptionController.

(* ================================================================== *)
(** ** src/controllers/authController.ts *)
(* ================================================================== *)

Module authController.

Record RegisterData : Type := mkRegisterData {
  reg_email : string;
  reg_password : string;
  reg_phone : option string;
  reg_role : UserRole;
  reg_firstName : string;
  reg_lastName : string;
  reg_dateOfBirth : option string;
  reg_gender : option string
}.

Record LoginData : Type := mkLoginData {
  login_email : string;
  login_password : string
}.

(** [data: { user: { id, email, role }, token }] *)
Record AuthData : Type := mkAuthData {
  data_user : AuthUser;
  data_token : string
}.

(** [rg_new_id] and [rg_is_active] are the columns the store fills in
    for the new user row. *)
Record RegisterEnv : Type := mkRegisterEnv {
  rg_existing_fault : option string;
  rg_user_fault : option string;
  rg_new_id : string;
  rg_is_active : bool;
  rg_profile_fault : option string;
  rg_rollback_fault : option string
}.

Record LoginEnv : Type := mkLoginEnv {
  lg_select_fault : option string;
  lg_update_fault : option string;
  lg_now : string
}.

(** [value || null] *)
Definition or_null (v : option string) : option string :=
  if truthy v then v else None.

Section Crypto.

(** The two libraries the controller calls, and its environment. *)
Variable bcrypt_hash : string -> nat -> string.
Variable bcrypt_compare : string -> string -> bool.
Variable jwt_sign : AuthUser -> string -> string -> string.
Variable JWT_SECRET : string.
Variable env_JWT_EXPIRES_IN : option string.

Definition JWT_EXPIRES_IN : string :=
  match env_JWT_EXPIRES_IN with
  | Some s => if truthy (Some s) then s else "7d"
  | None => "7d"
  end.

Definition generateToken (userId email : string) (role : UserRole) : string :=
  jwt_sign (mkAuthUser userId email role) JWT_SECRET JWT_EXPIRES_IN.

(** The body of [register] after [registerSchema.parse]. *)
Definition register (env : RegisterEnv) (validatedData : RegisterData)
  : Handler (Response AuthData) :=
  existingUser <- select_single from_ausers (rg_existing_fault env)
                    (fun r => user_email r =? reg_email validatedData) ;;
  match data existingUser with
  | Some _ => throw (AppError "User with this email already exists" 409)
  | None =>
      let passwordHash := bcrypt_hash (reg_password validatedData) 10 in
      user <- insert_keyed from_ausers user_id (rg_user_fault env)
                (mkUser (rg_new_id env) (reg_email validatedData) (reg_phone validatedData)
                        passwordHash (reg_role validatedData) (rg_is_active env) None) ;;
      match user with
      | PgError m =>
          console_error ("SUPABASE USER ERROR: " ++ m) ;;
          throw (AppError (if truthy (Some m) then m else "Failed to create user") 500)
      | PgData user =>
          profile <- insert from_aprofiles (rg_profile_fault env)
                       [mkProfile (user_id user) (reg_firstName validatedData)
                                  (reg_lastName validatedData)
                                  (or_null (reg_dateOfBirth validatedData))
                                  (or_null (reg_gender validatedData))] ;;
          match error profile with
          | Some _ =>
              delete from_ausers (rg_rollback_fault env)
                (fun r => user_id r =? user_id user) ;;
              throw (AppError "Failed to create user profile" 500)
          | None =>
              let token := generateToken (user_id user) (user_email user) (user_role user) in
              ret (mkResponse 201 (Some "User registered successfully")
                     (mkAuthData (mkAuthUser (user_id user) (user_email user) (user_role user))
                                 token))
          end
      end
  end.

(** The body of [login] after [loginSchema.parse]. *)
Definition login (env : LoginEnv) (validatedData : LoginData)
  : Handler (Response AuthData) :=
  user <- select_single from_ausers (lg_select_fault env)
            (fun r => user_email r =? login_email validatedData) ;;
  match data user with
  | None => throw (AppError "Invalid email or password" 401)
  | Some user =>
      if negb (user_is_active user) then
        throw (AppError "Account is deactivated" 403)
      else
        let isPasswordValid :=
          bcrypt_compare (login_password validatedData) (user_password_hash user) in
        if negb isPasswordValid then
          throw (AppError "Invalid email or password" 401)
        else
          update from_ausers (lg_update_fault env) ausers_set
            [("last_login", lg_now env)] (fun r => user_id r =? user_id user) ;;
          let token := generateToken (user_id user) (user_email user) (user_role user) in
          ret (mkResponse 200 (Some "Login successful")
                 (mkAuthData (mkAuthUser (user_id user) (user_email user) (user_role user))
                             token))
  end.

End Crypto.

End authController.

(* ================================================================== *)
(** ** Concrete stores and requests *)
(* ================================================================== *)

(** The scenario of the specification: doctor X and the slot 09:00-09:30. *)
Module Scenario.
Import slotController.

Definition doctorX : Doctor := mkDoctor "doc-X" "user-X" 500.
Definition userX : AuthUser := mkAuthUser "user-X" "x@clinic.example" role_doctor.

Definition w0 : World := mkWorld [] [] [doctorX] [] [] [] [] [] [] [].

Definition no_faults (id : string) : CreateSlotEnv := mkCreateSlotEnv None None None id.

Definition slot_0900 : AvailabilitySlot :=
  mkSlot "slot-1" "doc-X" "2025-03-01" "09:00:00" "09:30:00" available (Some "user-X").

Definition w1 : World := mkWorld [] [] [doctorX] [slot_0900] [] [] [] [] [] [].

(** A clock for the scenario: the one date-time it parses, in
    milliseconds since the epoch, and a present before it. *)
Definition Date_parse (text : string) : option Z :=
  if text =? "2025-03-01T09:00:00" then Some 1740819600000%Z else None.

Definition now : Z := 1740000000000%Z.

Definition patientP : AuthUser := mkAuthUser "user-P" "p@mail.example" role_user.

Definition book_env (slot_update payment : option string) : consultationController.BookEnv :=
  consultationController.mkBookEnv None None "cons-1" slot_update None payment now.

Definition book_request : consultationController.BookConsultationData :=
  consultationController.mkBookConsultationData "doc-X" "slot-1" "headache".

Definition cancel_env : consultationController.CancelEnv :=
  consultationController.mkCancelEnv None None None.

Definition update_env : consultationController.UpdateConsultationEnv :=
  consultationController.mkUpdateConsultationEnv None None None.

(** Consultation cons-1 on slot-1, as booked and then completed. *)
Definition cons_1 (st : ConsultationStatus) : Consultation :=
  mkConsultation "cons-1" "user-P" "doc-X" (Some "slot-1") "2025-03-01"
    "09:00:00" "09:30:00" st (Some "headache") None None None.

Definition w_consultation (st : ConsultationStatus) (slot : AvailabilityStatus) : World :=
  mkWorld [] [] [doctorX] [set_slot_status slot slot_0900] [cons_1 st] [] [] [] [] [].

Definition cancel_request : consultationController.UpdateConsultationData :=
  consultationController.mkUpdateConsultationData (Some cancelled) None None None.

(** Prescribing for cons-1, ongoing: Paracetamol is in stock,
    Ibuprofen is not. *)
Definition med_A : Medicine := mkMedicine "med-A" "Paracetamol" true.
Definition med_B : Medicine := mkMedicine "med-B" "Ibuprofen" false.

Definition w_ongoing : World :=
  mkWorld [] [] [doctorX] [set_slot_status booked slot_0900] [cons_1 ongoing]
          [] [] [] [med_A; med_B] [].

Definition prescribe_env (items_fault : option string)
  : prescriptionController.CreatePrescriptionEnv :=
  prescriptionController.mkCreatePrescriptionEnv None None None None None "presc-1"
    items_fault None None.

Definition item (medicine : string) : prescriptionController.PrescriptionItemData :=
  prescriptionController.mkPrescriptionItemData medicine "500 mg" "twice a day" 5 None.

Definition prescribe (medicines : list string)
  : prescriptionController.CreatePrescriptionData :=
  prescriptionController.mkCreatePrescriptionData "cons-1" None (map item medicines).

Definition presc_1 : Prescription := mkPrescription "presc-1" "cons-1" "doc-X" "user-P" None.

(** Accounts: a concrete stand-in for the two libraries, an active and
    a deactivated account with the password "correct-horse". *)
Definition bcrypt_hash (password : string) (rounds : nat) : string :=
  "bcrypt:" ++ password.

Definition bcrypt_compare (password hash : string) : bool :=
  hash =? "bcrypt:" ++ password.

Definition jwt_sign (payload : AuthUser) (secret expiresIn : string) : string :=
  "jwt:" ++ auth_id payload ++ ":" ++ expiresIn.

Definition account (id email : string) (active : bool) : User :=
  mkUser id email None "bcrypt:correct-horse" role_user active None.

Definition w_accounts : World :=
  mkWorld [account "user-A" "a@mail.example" true; account "user-D" "d@mail.example" false]
          [] [] [] [] [] [] [] [] [].

Definition login_env : authController.LoginEnv :=
  authController.mkLoginEnv None None "2025-03-01T08:00:00.000Z".

Definition register_env (profile_fault : option string) : authController.RegisterEnv :=
  authController.mkRegisterEnv None None "user-N" true profile_fault None.

Definition register_request (email : string) : authController.RegisterData :=
  authController.mkRegisterData email "correct-horse" None role_user "Nora" "Novak"
    None None.

End Scenario.


(* ================================================================== *)
(** ** Vocabulary of the statements about booking *)
(* ================================================================== *)

Section BookingVocabulary.
Import consultationController.

(** What the slot query of [bookConsultation] hands to the guards. *)
Definition slot_lookup (env : BookEnv) (d : BookConsultationData) (w : World)
  : option AvailabilitySlot :=
  match bk_slot_fault env with
  | Some _ => None
  | None => data (single (filter (fun r => slot_id r =? slotId d) (aavailability_slots w)))
  end.

(** The row [bookConsultation] inserts. *)
Definition new_consultation (env : BookEnv) (u : AuthUser) (d : BookConsultationData)
    (slot : AvailabilitySlot) : Consultation :=
  mkConsultation (bk_new_id env) (auth_id u) (doctorId d) (Some (slotId d))
    (slot_date slot) (slot_start_time slot) (slot_end_time slot)
    scheduled (Some (chiefComplaint d)) None None None.

(** The slot table after [.update({ status }).eq('id', id)]. *)
Definition mark_slot (st : AvailabilityStatus) (id : string)
    (l : list AvailabilitySlot) : list AvailabilitySlot :=
  map (fun r => if slot_id r =? id then set_slot_status st r else r) l.

(** The consultation table after [.update({ status }).eq('id', id)]. *)
Definition mark_consultation (st : ConsultationStatus) (id : string)
    (l : list Consultation) : list Consultation :=
  map (fun c => if consultation_id c =? id then set_consultation_status st c else c) l.

(** All four guards of [bookConsultation] let the request through. *)
Definition guards_pass (Date_parse : string -> option Z) (env : BookEnv)
    (d : BookConsultationData) (w : World) (slot : AvailabilitySlot) : Prop :=
  slot_lookup env d w = Some slot
  /\ slot_status slot = available
  /\ slot_doctor_id slot = doctorId d
  /\ in_the_past Date_parse slot (bk_now env) = false.

(** The store calls of a booking that the handler checks all succeed. *)
Definition store_accepts_booking (env : BookEnv) (w : World) : Prop :=
  bk_insert_fault env = None
  /\ existsb (fun c => consultation_id c =? bk_new_id env) (aconsultations w) = false
  /\ bk_slot_update_fault env = None.

(** The payment step: a [pending] row, or a line on the console. *)
Definition after_payment (env : BookEnv) (u : AuthUser) (doctorInfo : Doctor)
    (w : World) : World :=
  match bk_payment_fault env with
  | None =>
      set_apayments (apayments w ++ [mkPayment (bk_new_id env) (auth_id u)
                                       (doctor_consultation_fee doctorInfo) pending]) w
  | Some m => set_console (console w ++ [("Failed to create payment record: " ++ m)%string]) w
  end.

(** The store a successful booking leaves behind. *)
Definition after_booking (env : BookEnv) (u : AuthUser) (d : BookConsultationData)
    (slot : AvailabilitySlot) (doctorInfo : Doctor) (w : World) : World :=
  after_payment env u doctorInfo
    (set_aavailability_slots (mark_slot booked (slotId d) (aavailability_slots w))
       (set_aconsultations (aconsultations w ++ [new_consultation env u d slot]) w)).

(** The actor may cancel the consultation: a patient only their own. *)
Definition may_cancel (actor : AuthUser) (c : Consultation) : Prop :=
  auth_role actor = role_user -> consultation_patient_id c = auth_id actor.

Definition no_cancel_faults (env : CancelEnv) : Prop :=
  cc_select_fault env = None /\ cc_update_fault env = None
  /\ cc_slot_update_fault env = None.

(** The store a successful cancellation of [c] leaves behind. *)
Definition after_cancel (c : Consultation) (w : World) : World :=
  let w1 := set_aconsultations
              (mark_consultation cancelled (consultation_id c) (aconsultations w)) w in
  match consultation_slot_id c with
  | Some s =>
      if truthy (Some s)
      then set_aavailability_slots (mark_slot available s (aavailability_slots w1)) w1
      else w1
  | None => w1
  end.

(** The actor passes the ownership check of [updateConsultation]. *)
Definition may_update (actor : AuthUser) (c : Consultation) (w : World) : Prop :=
  UserRole_eqb (auth_role actor) role_doctor
  && negb (option_string_eqb
             (option_map doctor_user_id
                (find (fun x => doctor_id x =? consultation_doctor_id c) (adoctors w)))
             (auth_id actor)) = false.

End BookingVocabulary.

(* ================================================================== *)
(** ** Vocabulary of the statements about prescribing *)
(* ================================================================== *)

Section PrescribingVocabulary.
Import prescriptionController.

(** The checks of [createPrescription] before the prescription query
    pass: the caller's doctor row and the consultation are found, the
    consultation is the doctor's and is ongoing or completed. *)
Definition may_prescribe (env : CreatePrescriptionEnv) (u : AuthUser)
    (d : CreatePrescriptionData) (w : World) (doctor : Doctor) (c : Consultation) : Prop :=
  cp_doctor_fault env = None
  /\ filter (fun x => doctor_user_id x =? auth_id u) (adoctors w) = [doctor]
  /\ cp_consultation_fault env = None
  /\ filter (fun x => consultation_id x =? consultationId d) (aconsultations w) = [c]
  /\ consultation_doctor_id c = doctor_id doctor
  /\ (consultation_status c = completed \/ consultation_status c = ongoing).

(** What the prescription query hands to the conflict check. *)
Definition existing_prescription (env : CreatePrescriptionEnv)
    (d : CreatePrescriptionData) (w : World) : option Prescription :=
  match cp_existing_fault env with
  | Some _ => None
  | None =>
      data (single (filter (fun p => prescription_consultation_id p =? consultationId d)
                           (aprescriptions w)))
  end.

(** The rows the medicine query returns when it is answered. *)
Definition referenced_medicines (d : CreatePrescriptionData) (w : World) : list Medicine :=
  filter (id_in (map medicineId (items d))) (amedicines w).

(** The primary key of [amedicines]. *)
Definition medicine_ids_unique (w : World) : Prop :=
  NoDup (map medicine_id (amedicines w)).

End PrescribingVocabulary.

(* ================================================================== *)
(** ** Vocabulary of the statements about accounts *)
(* ================================================================== *)

Section AccountVocabulary.
Import authController.

(** What the user query of [register] hands to the conflict check. *)
Definition existing_user (env : RegisterEnv) (d : RegisterData) (w : World) : option User :=
  match rg_existing_fault env with
  | Some _ => None
  | None => data (single (filter (fun r => user_email r =? reg_email d) (ausers w)))
  end.

(** What the user query of [login] hands to the checks. *)
Definition login_lookup (env : LoginEnv) (d : LoginData) (w : World) : option User :=
  match lg_select_fault env with
  | Some _ => None
  | None => data (single (filter (fun r => user_email r =? login_email d) (ausers w)))
  end.

(** The user table after the last-login update of [login]. *)
Definition after_login (env : LoginEnv) (user : User) (w : World) : World :=
  match lg_update_fault env with
  | Some _ => w
  | None =>
      set_ausers (map (fun r => if user_id r =? user_id user
                                then set_user_last_login (lg_now env) r else r)
                      (ausers w)) w
  end.

(** Every profile row has its user row. *)
Definition no_orphan_profile (w : World) : Prop :=
  forall p, In p (aprofiles w) ->
            exists usr, In usr (ausers w) /\ user_id usr = profile_user_id p.

End AccountVocabulary.

(* ================================================================== *)
(** ** Vocabulary of the statements about slot updates *)
(* ================================================================== *)

Section SlotUpdateVocabulary.
Import slotController.

(** The actor passes the ownership check of [updateSlot]: an admin, or
    the doctor whose slot it is. *)
Definition may_update_slot (actor : AuthUser) (slot : AvailabilitySlot) (w : World) : Prop :=
  auth_role actor = role_admin
  \/ (auth_role actor = role_doctor
      /\ exists doc, find (fun x => doctor_id x =? slot_doctor_id slot) (adoctors w) = Some doc
                     /\ doctor_user_id doc = auth_id actor).

(** A request body that sets the status and nothing else. *)
Definition status_only (st : AvailabilityStatus) : UpdateSlotData :=
  mkUpdateSlotData None None None (Some st).

End SlotUpdateVocabulary.

(* ================================================================== *)
(** ** More of the store client *)
(* ================================================================== *)

(** [.order(column, { ascending: true })], once or chained: the rows
    come back in the order [leb] gives; rows it does not tell apart
    keep the order of the table. *)
Fixpoint insert_by {R} (leb : R -> R -> bool) (x : R) (l : list R) : list R :=
  match l with
  | [] => [x]
  | y :: l' => if leb x y then x :: l else y :: insert_by leb x l'
  end.

Definition order {R} (leb : R -> R -> bool) (l : list R) : list R :=
  fold_right (insert_by leb) [] l.

(** [.order('slot_date', ..).order('start_time', ..)] *)
Definition by_date_then_start (a b : AvailabilitySlot) : bool :=
  (slot_date a <? slot_date b)
  || ((slot_date a =? slot_date b) && (slot_start_time a <=? slot_start_time b)).

(** A boolean as the store receives it in the object of an update. *)
Definition JSON_boolean (b : bool) : string := if b then "true" else "false".

(** Columns of [amedicines]: [name] and [in_stock], and the columns
    [createMedicine] names that no handler reads afterwards. *)
Definition set_medicine_name (v : string) (r : Medicine) : Medicine :=
  mkMedicine (medicine_id r) v (medicine_in_stock r).

Definition set_medicine_in_stock (b : bool) (r : Medicine) : Medicine :=
  mkMedicine (medicine_id r) (medicine_name r) b.

Definition amedicines_set (col v : string) : PgResult (Medicine -> Medicine) :=
  if col =? "name" then PgData (set_medicine_name v)
  else if col =? "in_stock" then
    if v =? "true" then PgData (set_medicine_in_stock true)
    else if v =? "false" then PgData (set_medicine_in_stock false)
    else invalid_value v
  else if (col =? "generic_name") || (col =? "manufacturer") || (col =? "description")
          || (col =? "dosage_form") || (col =? "strength") || (col =? "price")
  then PgData (fun r => r)
  else unknown_column col.

(* ================================================================== *)
(** ** src/controllers/slotController.ts, the other handlers *)
(* ================================================================== *)

Module slotController_rest.

Record DeleteSlotEnv : Type := mkDeleteSlotEnv {
  dl_select_fault : option string;
  dl_delete_fault : option string
}.

Definition deleteSlot (env : DeleteSlotEnv) (user : option AuthUser) (slotId : string)
  : Handler (Response unit) :=
  match user with
  | None => throw (AppError "Unauthorized" 401)
  | Some u =>
      slot <- select_single from_aavailability_slots (dl_select_fault env)
                (fun r => slot_id r =? slotId) ;;
      match data slot with
      | None => throw (AppError "Slot not found" 404)
      | Some slot =>
          adoctors <- embed_adoctors (slot_doctor_id slot) ;;
          if AvailabilityStatus_eqb (slot_status slot) booked then
            throw (AppError "Cannot delete a booked slot" 400)
          else
            let doctorUserId := option_map doctor_user_id adoctors in
            if UserRole_eqb (auth_role u) role_doctor
               && negb (option_string_eqb doctorUserId (auth_id u))
            then throw (AppError "You can only delete your own slots" 403)
            else
              deleted <- delete from_aavailability_slots (dl_delete_fault env)
                           (fun r => slot_id r =? slotId) ;;
              match error deleted with
              | Some _ => throw (AppError "Failed to delete slot" 500)
              | None => ret (mkResponse 200 (Some "Slot deleted successfully") tt)
              end
      end
  end.

(** [av_today] is [new Date().toISOString().split('T')[0]]. *)
Record AvailableSlotsEnv : Type := mkAvailableSlotsEnv {
  av_fault : option string;
  av_today : string
}.

(** The filters of [getAvailableSlots]:
    [.eq('doctor_id', ..).eq('status', 'available')
     .gte('slot_date', startDate || today)], and [.lte('slot_date',
    endDate)] when an end date is given.  Dates are [YYYY-MM-DD]
    strings, ordered as strings; the two dates of the query reach the
    filter as they were sent, and one that is not of that form (an
    unpadded [2025-3-1]) is compared as a string here all the same. *)
Definition available_filter (today doctorId : string) (startDate endDate : option string)
    (r : AvailabilitySlot) : bool :=
  (slot_doctor_id r =? doctorId)
  && AvailabilityStatus_eqb (slot_status r) available
  && (match startDate with
      | Some s => if truthy (Some s) then s else today
      | None => today
      end <=? slot_date r)
  && (match endDate with
      | Some e => if truthy (Some e) then slot_date r <=? e else true
      | None => true
      end).

Definition getAvailableSlots (env : AvailableSlotsEnv) (doctorId : string)
    (startDate endDate : option string) : Handler (Response (list AvailabilitySlot)) :=
  slots <- select from_aavailability_slots (av_fault env)
             (available_filter (av_today env) doctorId startDate endDate) ;;
  match slots with
  | PgError _ => throw (AppError "Failed to fetch available slots" 500)
  | PgData slots => ret (mkResponse 200 None (order by_date_then_start slots))
  end.

End slotController_rest.

(* ================================================================== *)
(** ** doctorController.ts: getMyDoctorStats *)
(* ================================================================== *)

Module doctorController.

Record Stats : Type := mkStats {
  totalConsultations : nat;
  stats_completed : nat;
  stats_scheduled : nat;
  stats_ongoing : nat;
  stats_cancelled : nat
}.

Record DoctorStats : Type := mkDoctorStats {
  stats : Stats;
  todayConsultations : list Consultation
}.

Record StatsEnv : Type := mkStatsEnv {
  st_doctor_fault : option string;
  st_consultations_fault : option string;
  st_today_fault : option string;
  st_today : string
}.

(** [consultations?.filter(c => c.status === st).length || 0] *)
Definition count_status (consultations : option (list Consultation))
    (st : ConsultationStatus) : nat :=
  match consultations with
  | Some l => length (filter (fun c => ConsultationStatus_eqb (consultation_status c) st) l)
  | None => 0
  end.

Definition getMyDoctorStats (env : StatsEnv) (user : option AuthUser)
  : Handler (Response DoctorStats) :=
  match user with
  | None => throw (AppError "Unauthorized" 401)
  | Some u =>
      doctor <- select_single from_adoctors (st_doctor_fault env)
                  (fun d => doctor_user_id d =? auth_id u) ;;
      match data doctor with
      | None => throw (AppError "Doctor profile not found" 404)
      | Some doctor =>
          consultations <- select from_aconsultations (st_consultations_fault env)
                             (fun c => consultation_doctor_id c =? doctor_id doctor) ;;
          let stats :=
            mkStats (match data consultations with Some l => length l | None => 0 end)
                    (count_status (data consultations) completed)
                    (count_status (data consultations) scheduled)
                    (count_status (data consultations) ongoing)
                    (count_status (data consultations) cancelled) in
          todayConsultations <- select from_aconsultations (st_today_fault env)
                                  (fun c => (consultation_doctor_id c =? doctor_id doctor)
                                            && (consultation_date c =? st_today env)) ;;
          ret (mkResponse 200 None
                 (mkDoctorStats stats
                    (match data todayConsultations with Some l => l | None => [] end)))
      end
  end.

End doctorController.

(* ================================================================== *)
(** ** consultationController.ts: getConsultationById *)
(* ================================================================== *)

Module consultationController_rest.

(** The consultation with what the query embeds: its doctor, its
    patient and its prescriptions with their items. *)
Record ConsultationDetails : Type := mkConsultationDetails {
  cd_consultation : Consultation;
  cd_adoctors : option Doctor;
  cd_patient : option User;
  cd_aprescriptions : list prescriptionController.CompletePrescription
}.

Record GetConsultationEnv : Type := mkGetConsultationEnv {
  gc_select_fault : option string;
  gc_doctor_fault : option string
}.

Definition embed_details (c : Consultation) : Handler ConsultationDetails :=
  fun w =>
    (Returned
       (mkConsultationDetails c
          (find (fun d => doctor_id d =? consultation_doctor_id c) (adoctors w))
          (find (fun r => user_id r =? consultation_patient_id c) (ausers w))
          (map (fun p =>
                  (p, match prescriptionController.embed_aprescription_items p w with
                      | (Returned its, _) => its
                      | (Thrown _, _) => []
                      end))
               (filter (fun p => prescription_consultation_id p =? consultation_id c)
                       (aprescriptions w)))),
     w).

Definition getConsultationById (env : GetConsultationEnv) (user : option AuthUser)
    (consultationId : string) : Handler (Response ConsultationDetails) :=
  match user with
  | None => throw (AppError "Unauthorized" 401)
  | Some u =>
      consultation <- select_single from_aconsultations (gc_select_fault env)
                        (fun c => consultation_id c =? consultationId) ;;
      match data consultation with
      | None => throw (AppError "Consultation not found" 404)
      | Some row =>
          consultation <- embed_details row ;;
          if UserRole_eqb (auth_role u) role_user
             && negb (consultation_patient_id row =? auth_id u)
          then throw (AppError "You can only view your own consultations" 403)
          else
            (if UserRole_eqb (auth_role u) role_doctor then
               doctor <- select_single from_adoctors (gc_doctor_fault env)
                           (fun d => doctor_user_id d =? auth_id u) ;;
               match data doctor with
               | None => throw (AppError "You can only view your own consultations" 403)
               | Some doctor =>
                   if negb (consultation_doctor_id row =? doctor_id doctor)
                   then throw (AppError "You can only view your own consultations" 403)
                   else ret tt
               end
             else ret tt) ;;
            ret (mkResponse 200 None consultation)
      end
  end.

End consultationController_rest.

(* ================================================================== *)
(** ** prescriptionController.ts: getPrescriptionByConsultation *)
(* ================================================================== *)

Module prescriptionController_rest.

(** The prescription with what the query embeds: its consultation, its
    items with their medicines, its doctor and its patient. *)
Record PrescriptionDetails : Type := mkPrescriptionDetails {
  pd_prescription : Prescription;
  pd_aconsultations : option Consultation;
  pd_aprescription_items : list (PrescriptionItem * option Medicine);
  pd_doctor : option Doctor;
  pd_patient : option User
}.

Record GetPrescriptionEnv : Type := mkGetPrescriptionEnv {
  gp_select_fault : option string;
  gp_doctor_fault : option string
}.

Definition embed_details (p : Prescription) : Handler PrescriptionDetails :=
  fun w =>
    (Returned
       (mkPrescriptionDetails p
          (find (fun c => consultation_id c =? prescription_consultation_id p)
                (aconsultations w))
          (match prescriptionController.embed_aprescription_items p w with
           | (Returned its, _) => its
           | (Thrown _, _) => []
           end)
          (find (fun d => doctor_id d =? prescription_doctor_id p) (adoctors w))
          (find (fun r => user_id r =? prescription_patient_id p) (ausers w))),
     w).

Definition getPrescriptionByConsultation (env : GetPrescriptionEnv)
    (user : option AuthUser) (consultationId : string)
  : Handler (Response PrescriptionDetails) :=
  match user with
  | None => throw (AppError "Unauthorized" 401)
  | Some u =>
      prescription <- select_single from_aprescriptions (gp_select_fault env)
                        (fun p => prescription_consultation_id p =? consultationId) ;;
      match data prescription with
      | None => throw (AppError "Prescription not found" 404)
      | Some row =>
          prescription <- embed_details row ;;
          let consultation := pd_aconsultations prescription in
          (if UserRole_eqb (auth_role u) role_user then
             match consultation with
             | None => throw TypeError
             | Some consultation =>
                 if negb (consultation_patient_id consultation =? auth_id u)
                 then throw (AppError "You can only view your own prescriptions" 403)
                 else ret tt
             end
           else ret tt) ;;
          (if UserRole_eqb (auth_role u) role_doctor then
             doctor <- select_single from_adoctors (gp_doctor_fault env)
                         (fun d => doctor_user_id d =? auth_id u) ;;
             match data doctor with
             | None =>
                 throw (AppError "You can only view prescriptions for your consultations" 403)
             | Some doctor =>
                 match consultation with
                 | None => throw TypeError
                 | Some consultation =>
                     if negb (consultation_doctor_id consultation =? doctor_id doctor)
                     then throw (AppError
                                   "You can only view prescriptions for your consultations" 403)
                     else ret tt
                 end
             end
           else ret tt) ;;
          ret (mkResponse 200 None prescription)
      end
  end.

End prescriptionController_rest.

(* ================================================================== *)
(** ** src/controllers/medicineController.ts *)
(* ================================================================== *)

Module medicineController.

(** The parsed body of [createMedicine], the fields that reach a column
    a handler reads. *)
Record CreateMedicineData : Type := mkCreateMedicineData {
  name : string;
  inStock : bool
}.

Record CreateMedicineEnv : Type := mkCreateMedicineEnv {
  cm_existing_fault : option string;
  cm_insert_fault : option string;
  cm_new_id : string
}.

(** The body of [createMedicine] after [createMedicineSchema.parse]. *)
Definition createMedicine (env : CreateMedicineEnv) (user : option AuthUser)
    (validatedData : CreateMedicineData) : Handler (Response Medicine) :=
  match user with
  | None => throw (AppError "Unauthorized" 401)
  | Some u =>
      existingMedicine <- select_single from_amedicines (cm_existing_fault env)
                            (fun m => medicine_name m =? name validatedData) ;;
      match data existingMedicine with
      | Some _ => throw (AppError "Medicine with this name already exists" 409)
      | None =>
          medicine <- insert_keyed from_amedicines medicine_id (cm_insert_fault env)
                        (mkMedicine (cm_new_id env) (name validatedData)
                                    (inStock validatedData)) ;;
          match data medicine with
          | None => throw (AppError "Failed to create medicine" 500)
          | Some medicine =>
              ret (mkResponse 201 (Some "Medicine added successfully") medicine)
          end
      end
  end.

Record StockEnv : Type := mkStockEnv {
  sk_update_fault : option string
}.

(** [inStock] is [Some b] when [typeof inStock === 'boolean']. *)
Definition updateMedicineStock (env : StockEnv) (user : option AuthUser)
    (medicineId : string) (inStock : option bool) : Handler (Response Medicine) :=
  match user with
  | None => throw (AppError "Unauthorized" 401)
  | Some u =>
      match inStock with
      | None => throw (AppError "Invalid stock status" 400)
      | Some inStock =>
          updated <- update from_amedicines (sk_update_fault env) amedicines_set
                       [("in_stock", JSON_boolean inStock)]
                       (fun m => medicine_id m =? medicineId) ;;
          match data (and_single updated) with
          | None => throw (AppError "Medicine not found or failed to update" 404)
          | Some medicine =>
              ret (mkResponse 200
                     (Some ("Medicine marked as "
                            ++ (if inStock then "in stock" else "out of stock"))%string)
                     medicine)
          end
      end
  end.

Record DeleteMedicineEnv : Type := mkDeleteMedicineEnv {
  dm_items_fault : option string;
  dm_delete_fault : option string
}.

Definition deleteMedicine (env : DeleteMedicineEnv) (user : option AuthUser)
    (medicineId : string) : Handler (Response unit) :=
  match user with
  | None => throw (AppError "Unauthorized" 401)
  | Some u =>
      prescriptionItems <- select from_aprescription_items (dm_items_fault env)
                             (fun i => item_medicine_id i =? medicineId) ;;
      match option_map (firstn 1) (data prescriptionItems) with
      | Some (_ :: _) =>
          throw (AppError "Cannot delete medicine that is used in prescriptions" 400)
      | _ =>
          deleted <- delete from_amedicines (dm_delete_fault env)
                       (fun m => medicine_id m =? medicineId) ;;
          match error deleted with
          | Some _ => throw (AppError "Failed to delete medicine" 500)
          | None => ret (mkResponse 200 (Some "Medicine deleted successfully") tt)
          end
      end
  end.

End medicineController.

(* ================================================================== *)
(** ** src/middleware/auth.ts *)
(* ================================================================== *)

Module auth.

(** [s.split(sep)] for a separator of one character. *)
Fixpoint split (sep : ascii) (s : string) : list string :=
  match s with
  | EmptyString => [""]
  | String c s' =>
      if (c =? sep)%char then "" :: split sep s'
      else match split sep s' with
           | piece :: pieces => String c piece :: pieces
           | [] => [String c ""]
           end
  end.

(** What a middleware does: it answers the request itself, or it calls
    [next()] with the user it left on the request. *)
Inductive Passed : Type :=
| next (user : option AuthUser)
| answered (status : nat) (error : string).

Record AuthenticateEnv : Type := mkAuthenticateEnv {
  an_select_fault : option string
}.

Section Jwt.

(** [jwt.verify(token, secret)]: the decoded payload, or what it
    throws, of which the code asks only whether it is a
    [JsonWebTokenError] and whether it is a [TokenExpiredError]. *)
Variable Thrown_by_verify : Type.
Variable jwt_verify : string -> string -> AuthUser + Thrown_by_verify.
Variable instanceof_JsonWebTokenError : Thrown_by_verify -> bool.
Variable instanceof_TokenExpiredError : Thrown_by_verify -> bool.
Variable JWT_SECRET : string.

Definition authenticate (env : AuthenticateEnv) (authorization : option string)
  : Handler Passed :=
  match authorization with
  | None =>
      ret (answered 401 "No token provided. Please provide a valid authorization token.")
  | Some authHeader =>
      if negb (truthy (Some authHeader)) || negb (String.prefix "Bearer " authHeader) then
        ret (answered 401 "No token provided. Please provide a valid authorization token.")
      else
        let token := nth_error (split " " authHeader) 1 in
        match token with
        | None => ret (answered 401 "Invalid token format")
        | Some token =>
            if negb (truthy (Some token)) then ret (answered 401 "Invalid token format")
            else
              match jwt_verify token JWT_SECRET with
              | inr thrown =>
                  if instanceof_JsonWebTokenError thrown then
                    ret (answered 401 "Invalid token")
                  else if instanceof_TokenExpiredError thrown then
                    ret (answered 401 "Token expired")
                  else ret (answered 500 "Authentication failed")
              | inl decoded =>
                  user <- select_single from_ausers (an_select_fault env)
                            (fun r => user_id r =? auth_id decoded) ;;
                  match data user with
                  | None => ret (answered 401 "User not found or token invalid")
                  | Some user =>
                      if negb (user_is_active user) then
                        ret (answered 403 "Account is deactivated")
                      else
                        ret (next (Some (mkAuthUser (user_id user) (user_email user)
                                                    (user_role user))))
                  end
              end
        end
  end.

End Jwt.

(** [authorize(...allowedRoles)] *)
Definition authorize (allowedRoles : list UserRole) (user : option AuthUser) : Passed :=
  match user with
  | None => answered 401 "Authentication required"
  | Some u =>
      if negb (existsb (UserRole_eqb (auth_role u)) allowedRoles) then
        answered 403 "Insufficient permissions to access this resource"
      else next user
  end.

End auth.

(* ================================================================== *)
(** ** Routes: slotRoutes.ts, consultationRoutes.ts, prescriptionRoutes.ts *)
(* ================================================================== *)

Module routes.

(** What a route leaves: the answer of a middleware, or the run of its
    handler. *)
Inductive Outcome (A : Type) : Type :=
| refused (status : nat) (error : string)
| handled (r : Response A).
Arguments refused {A} status error.
Arguments handled {A} r.

Section Jwt.

Variable Thrown_by_verify : Type.
Variable jwt_verify : string -> string -> AuthUser + Thrown_by_verify.
Variable instanceof_JsonWebTokenError : Thrown_by_verify -> bool.
Variable instanceof_TokenExpiredError : Thrown_by_verify -> bool.
Variable JWT_SECRET : string.

(** [router.verb(path, authenticate, authorize(...roles),
    asyncHandler(handler))]; [roles = None] is a route without
    [authorize]. *)
Definition route {A} (roles : option (list UserRole))
    (handler : option AuthUser -> Handler (Response A))
    (env : auth.AuthenticateEnv) (authorization : option string) : Handler (Outcome A) :=
  passed <- auth.authenticate Thrown_by_verify jwt_verify instanceof_JsonWebTokenError
              instanceof_TokenExpiredError JWT_SECRET env authorization ;;
  match passed with
  | auth.answered status error => ret (refused status error)
  | auth.next user =>
      match match roles with
            | Some allowedRoles => auth.authorize allowedRoles user
            | None => auth.next user
            end with
      | auth.answered status error => ret (refused status error)
      | auth.next user => r <- handler user ;; ret (handled r)
      end
  end.

(** [PUT /api/slots/:slotId] *)
Definition put_slot (aenv : auth.AuthenticateEnv) (env : slotController.UpdateSlotEnv)
    (authorization : option string) (slotId : string) (body : UpdateSlotData)
  : Handler (Outcome AvailabilitySlot) :=
  route (Some [role_doctor; role_admin])
        (fun user => slotController.updateSlot env user slotId body) aenv authorization.

(** [DELETE /api/slots/:slotId] *)
Definition delete_slot (aenv : auth.AuthenticateEnv)
    (env : slotController_rest.DeleteSlotEnv) (authorization : option string)
    (slotId : string) : Handler (Outcome unit) :=
  route (Some [role_doctor; role_admin])
        (fun user => slotController_rest.deleteSlot env user slotId) aenv authorization.

(** [POST /api/prescriptions] *)
Definition post_prescription (aenv : auth.AuthenticateEnv)
    (env : prescriptionController.CreatePrescriptionEnv) (authorization : option string)
    (body : prescriptionController.CreatePrescriptionData)
  : Handler (Outcome (option prescriptionController.CompletePrescription)) :=
  route (Some [role_doctor])
        (fun user => prescriptionController.createPrescription env user body)
        aenv authorization.

End Jwt.

Section JwtAndClock.

Variable Thrown_by_verify : Type.
Variable jwt_verify : string -> string -> AuthUser + Thrown_by_verify.
Variable instanceof_JsonWebTokenError : Thrown_by_verify -> bool.
Variable instanceof_TokenExpiredError : Thrown_by_verify -> bool.
Variable JWT_SECRET : string.
Variable Date_parse : string -> option Z.

(** [POST /api/consultations/book] *)
Definition post_book (aenv : auth.AuthenticateEnv) (env : consultationController.BookEnv)
    (authorization : option string) (body : consultationController.BookConsultationData)
  : Handler (Outcome Consultation) :=
  route Thrown_by_verify jwt_verify instanceof_JsonWebTokenError
        instanceof_TokenExpiredError JWT_SECRET (Some [role_user])
        (fun user => consultationController.bookConsultation Date_parse env user body)
        aenv authorization.

End JwtAndClock.

End routes.

(* ================================================================== *)
(** ** Vocabulary of the further statements *)
(* ================================================================== *)

(** Two slots of one doctor on one date whose intervals overlap or
    touch at an end. *)
Definition slots_touch (a b : AvailabilitySlot) : bool :=
  (slot_doctor_id a =? slot_doctor_id b) && (slot_date a =? slot_date b)
  && ((slot_start_time a <=? slot_end_time b) && (slot_start_time b <=? slot_end_time a)).

(** No two rows of the slot table overlap or touch. *)
Definition no_two_touch (l : list AvailabilitySlot) : Prop :=
  ForallOrdPairs (fun a b => slots_touch a b = false) l.

(** The token [authenticate] reads off a request:
    [authHeader.split(' ')[1]] of an [Authorization] header that starts
    with "Bearer ", when it is not the empty string. *)
Definition header_token (authorization : option string) (token : string) : Prop :=
  exists header,
    authorization = Some header
    /\ String.prefix "Bearer " header = true
    /\ nth_error (auth.split " " header) 1 = Some token
    /\ token <> "".

Section Callers.

Variable Thrown_by_verify : Type.
Variable jwt_verify : string -> string -> AuthUser + Thrown_by_verify.
Variable JWT_SECRET : string.

(** The user [authenticate] leaves on the request for a token is read
    from the store: the id, email and role of the one row with the id
    the token decodes to, which is active. *)
Definition from_store (w : World) (token : string) (user : AuthUser) : Prop :=
  exists decoded row,
    jwt_verify token JWT_SECRET = inl decoded
    /\ filter (fun r => user_id r =? auth_id decoded) (ausers w) = [row]
    /\ user_is_active row = true
    /\ user = mkAuthUser (user_id row) (user_email row) (user_role row).

(** The caller of a request that reached its handler: the user read
    from the store for the token of the request's own [Authorization]
    header, with a role the route allows. *)
Definition caller (authorization : option string) (w : World)
    (roles : option (list UserRole)) (u : AuthUser) : Prop :=
  exists token,
    header_token authorization token
    /\ from_store w token u
    /\ match roles with
       | Some allowedRoles => In (auth_role u) allowedRoles
       | None => True
       end.

End Callers.

Arguments from_store {Thrown_by_verify} jwt_verify JWT_SECRET w token user.
Arguments caller {Thrown_by_verify} jwt_verify JWT_SECRET authorization w roles u.

(* ================================================================== *)
(** ** Further concrete stores and requests *)
(* ================================================================== *)

Module Clinic.

(** A stand-in for the token library.  It accepts two tokens; the
    first carries the role admin for an account whose role in the store
    is user. *)
Definition jwt_verify (token secret : string) : AuthUser + string :=
  if token =? "tok-P" then inl (mkAuthUser "user-P" "p@mail.example" role_admin)
  else if token =? "tok-X" then inl Scenario.userX
  else inr "JsonWebTokenError".

Definition instanceof_JsonWebTokenError (thrown : string) : bool := true.

Definition instanceof_TokenExpiredError (thrown : string) : bool :=
  thrown =? "TokenExpiredError".

Definition row_P : User :=
  mkUser "user-P" "p@mail.example" None "bcrypt:correct-horse" role_user true None.

Definition row_X : User :=
  mkUser "user-X" "x@clinic.example" None "bcrypt:correct-horse" role_doctor true None.

(** The store [w] with the accounts of the patient and of doctor X. *)
Definition with_users (w : World) : World := set_ausers [row_P; row_X] w.

Definition adminA : AuthUser := mkAuthUser "user-A" "a@mail.example" role_admin.

Definition auth_env : auth.AuthenticateEnv := auth.mkAuthenticateEnv None.

Definition delete_env : slotController_rest.DeleteSlotEnv :=
  slotController_rest.mkDeleteSlotEnv None None.

Definition available_env : slotController_rest.AvailableSlotsEnv :=
  slotController_rest.mkAvailableSlotsEnv None "2025-02-20".

Definition slot_request (startTime endTime : string) : CreateSlotData :=
  mkCreateSlotData "2025-03-01" startTime endTime.

(** Doctor X with the slot 09:00-09:30 and a second one, 10:00-10:30,
    and the two accounts. *)
Definition slot_1000 : AvailabilitySlot :=
  mkSlot "slot-2" "doc-X" "2025-03-01" "10:00:00" "10:30:00" available (Some "user-X").

Definition w_two_slots : World :=
  mkWorld [row_P; row_X] [] [Scenario.doctorX] [Scenario.slot_0900; slot_1000]
          [] [] [] [] [] [].

(** cons-1 completed and prescribed: one item, of Paracetamol. *)
Definition item_1 : PrescriptionItem :=
  mkPrescriptionItem "presc-1" "med-A" "500 mg" "twice a day" 5 None.

Definition w_prescribed : World :=
  mkWorld [row_P; row_X] [] [Scenario.doctorX] [set_slot_status booked Scenario.slot_0900]
          [Scenario.cons_1 completed] [] [Scenario.presc_1] [item_1]
          [Scenario.med_A; Scenario.med_B] [].

End Clinic.
(* ================================================================== *)
(** ** Basic facts about the store primitives *)
(* ================================================================== *)

Lemma world_eta (w : World) :
  mkWorld (ausers w) (aprofiles w) (adoctors w) (aavailability_slots w)
          (aconsultations w) (apayments w) (aprescriptions w)
          (aprescription_items w) (amedicines w) (console w) = w.
Proof. destruct w; reflexivity. Qed.

Lemma string_ltb_leb (a b : string) : (a <? b) = true -> (a <=? b) = true.
Proof.
  unfold String.ltb, String.leb.
  destruct (String.compare a b); intro H; try reflexivity; discriminate H.
Qed.

Lemma string_leb_refl (a : string) : (a <=? a) = true.
Proof.
  unfold String.leb.
  destruct (String.compare a a) eqn:E; try reflexivity.
  pose proof (String.compare_antisym a a) as H.
  rewrite E in H. discriminate H.
Qed.

Lemma filter_nonempty {A} (p : A -> bool) (l : list A) (x : A) :
  In x l -> p x = true -> exists y ys, filter p l = y :: ys.
Proof.
  intros Hin Hp.
  destruct (filter p l) as [|y ys] eqn:E.
  - assert (In x (filter p l)) as H by (apply filter_In; split; assumption).
    rewrite E in H. destruct H.
  - exists y, ys. reflexivity.
Qed.

(** Deleting by key what was just appended under a fresh key gives the
    table back. *)
Lemma filter_out_fresh {A} (key : A -> string) (l : list A) (x : A) :
  existsb (fun r => key r =? key x) l = false ->
  filter (fun r => negb (key r =? key x)) (l ++ [x]) = l.
Proof.
  intro Hfresh.
  rewrite filter_app. simpl. rewrite String.eqb_refl. simpl. rewrite app_nil_r.
  induction l as [|a l IH]; simpl in *; [reflexivity|].
  apply orb_false_elim in Hfresh. destruct Hfresh as [Ha Hl].
  rewrite Ha. simpl. f_equal. apply IH. exact Hl.
Qed.

(** Selecting by key after appending under a fresh key finds the new row
    alone. *)
Lemma filter_key_fresh {A} (key : A -> string) (l : list A) (x : A) :
  existsb (fun r => key r =? key x) l = false ->
  filter (fun r => key r =? key x) (l ++ [x]) = [x].
Proof.
  intro Hfresh.
  rewrite filter_app. simpl. rewrite String.eqb_refl.
  replace (filter (fun r => key r =? key x) l) with (@nil A); [reflexivity|].
  induction l as [|a l IH]; simpl in *; [reflexivity|].
  apply orb_false_elim in Hfresh. destruct Hfresh as [Ha Hl].
  rewrite Ha. apply IH. exact Hl.
Qed.

(** A row that is the only one under its key: updating by that key
    touches it and nothing else. *)
Lemma filter_map_update {A} (p : A -> bool) (f : A -> A) (l : list A) (x : A) :
  (forall r, p (f r) = p r) ->
  filter p l = [x] ->
  filter p (map (fun r => if p r then f r else r) l) = [f x].
Proof.
  intros Hp. revert x.
  induction l as [|a l IH]; intros x H; simpl in *; [discriminate H|].
  destruct (p a) eqn:Ea.
  - rewrite Hp, Ea. injection H as -> Hl.
    f_equal.
    clear IH. induction l as [|b l IH]; simpl in *; [reflexivity|].
    destruct (p b) eqn:Eb; [discriminate Hl|].
    rewrite Eb. apply IH. exact Hl.
  - rewrite Ea. apply IH. exact H.
Qed.

Lemma map_update_id {A} (p : A -> bool) (f : A -> A) (l : list A) :
  (forall r, In r l -> p r = true -> f r = r) ->
  map (fun r => if p r then f r else r) l = l.
Proof.
  intro H. induction l as [|a l IH]; simpl; [reflexivity|].
  f_equal.
  - destruct (p a) eqn:E; [apply H; [left; reflexivity | exact E] | reflexivity].
  - apply IH. intros r Hr. apply H. right. exact Hr.
Qed.

Lemma map_update_twice {A} (p : A -> bool) (f g : A -> A) (l : list A) :
  (forall r, p (f r) = p r) ->
  map (fun r => if p r then g r else r) (map (fun r => if p r then f r else r) l)
  = map (fun r => if p r then g (f r) else r) l.
Proof.
  intro Hp. rewrite map_map. apply map_ext. intro a.
  destruct (p a) eqn:E; [rewrite Hp, E | rewrite E]; reflexivity.
Qed.

Lemma filter_singleton_In {A} (p : A -> bool) (l : list A) (x r : A) :
  filter p l = [x] -> In r l -> p r = true -> r = x.
Proof.
  intros H Hin Hp.
  assert (In r (filter p l)) as Hr by (apply filter_In; split; assumption).
  rewrite H in Hr. destruct Hr as [Hr|[]]. symmetry. exact Hr.
Qed.

(* ================================================================== *)
(** ** createSlot: the overlap check *)
(* ================================================================== *)

Section CreateSlot.
Import slotController.

Lemma createSlotSchema_parse_id (body d : CreateSlotData) :
  createSlotSchema_parse body = Some d -> d = body.
Proof.
  unfold createSlotSchema_parse.
  destruct (_ && _); intro H; [injection H as <-; reflexivity | discriminate H].
Qed.

(** Whenever a slot of the doctor on that date begins no later than the
    new end and ends no sooner than the new start, the request is
    refused and nothing is written. *)
Lemma createSlot_conflict (env : CreateSlotEnv) (u : AuthUser) (body : CreateSlotData)
    (w : World) (doctor : Doctor) (r : AvailabilitySlot) :
  createSlotSchema_parse body = Some body ->
  cs_doctor_fault env = None ->
  cs_overlap_fault env = None ->
  filter (fun d => doctor_user_id d =? auth_id u) (adoctors w) = [doctor] ->
  In r (aavailability_slots w) ->
  slot_doctor_id r = doctor_id doctor ->
  slot_date r = slotDate body ->
  (slot_start_time r <=? endTime body) = true ->
  (startTime body <=? slot_end_time r) = true ->
  createSlot env (Some u) body w
  = (Thrown (AppError "This time slot overlaps with an existing slot" 409), w).
Proof.
  intros Hparse Hdf Hof Hdoc Hin Hd Hdate Hs He.
  unfold createSlot. rewrite Hparse.
  unfold bind, select_single, select. rewrite Hdf, Hof. simpl.
  rewrite Hdoc. simpl.
  destruct (filter_nonempty (overlap_filter (doctor_id doctor) body)
              (aavailability_slots w) r Hin) as (y & ys & E).
  - unfold overlap_filter. rewrite Hd, Hdate, Hs, He, !String.eqb_refl. reflexivity.
  - rewrite E. reflexivity.
Qed.

(** The half of the rule that the code keeps: intervals that overlap as
    half-open intervals are refused with 409. *)
Lemma createSlot_overlap_conflict (env : CreateSlotEnv) (u : AuthUser)
    (body : CreateSlotData) (w : World) (doctor : Doctor) (r : AvailabilitySlot) :
  createSlotSchema_parse body = Some body ->
  cs_doctor_fault env = None ->
  cs_overlap_fault env = None ->
  filter (fun d => doctor_user_id d =? auth_id u) (adoctors w) = [doctor] ->
  In r (aavailability_slots w) ->
  slot_doctor_id r = doctor_id doctor ->
  slot_date r = slotDate body ->
  (slot_start_time r <? endTime body) = true ->
  (startTime body <? slot_end_time r) = true ->
  createSlot env (Some u) body w
  = (Thrown (AppError "This time slot overlaps with an existing slot" 409), w).
Proof.
  intros. eapply createSlot_conflict; eauto using string_ltb_leb.
Qed.

(** A new slot that starts exactly where a slot of the doctor ends is
    refused as well: the filter compares with [lte] and [gte]. *)
Lemma createSlot_adjacent_conflict (env : CreateSlotEnv) (u : AuthUser)
    (body : CreateSlotData) (w : World) (doctor : Doctor) (r : AvailabilitySlot) :
  createSlotSchema_parse body = Some body ->
  cs_doctor_fault env = None ->
  cs_overlap_fault env = None ->
  filter (fun d => doctor_user_id d =? auth_id u) (adoctors w) = [doctor] ->
  In r (aavailability_slots w) ->
  slot_doctor_id r = doctor_id doctor ->
  slot_date r = slotDate body ->
  (slot_start_time r <=? endTime body) = true ->
  slot_end_time r = startTime body ->
  createSlot env (Some u) body w
  = (Thrown (AppError "This time slot overlaps with an existing slot" 409), w).
Proof.
  intros Hparse Hdf Hof Hdoc Hin Hd Hdate Hs He.
  eapply createSlot_conflict; eauto.
  rewrite He. apply string_leb_refl.
Qed.

End CreateSlot.

(** C1 (first two steps of the scenario): 09:00-09:30 is created with
    status available, and 09:15-09:45 is then refused with 409. *)
Lemma createSlot_scenario_first_steps :
  slotController.createSlot (Scenario.no_faults "slot-1") (Some Scenario.userX)
     (mkCreateSlotData "2025-03-01" "09:00:00" "09:30:00") Scenario.w0
  = (Returned (mkResponse 201 (Some "Availability slot created successfully")
                 Scenario.slot_0900), Scenario.w1)
  /\ slotController.createSlot (Scenario.no_faults "slot-2") (Some Scenario.userX)
       (mkCreateSlotData "2025-03-01" "09:15:00" "09:45:00") Scenario.w1
     = (Thrown (AppError "This time slot overlaps with an existing slot" 409), Scenario.w1).
Proof. split; vm_compute; reflexivity. Qed.

(** C1 (the step where the code leaves the claim): with 09:00-09:30 in
    the table, the boundary-adjacent request 09:30-10:00 of the same
    doctor on the same date passes validation and is refused with 409;
    no slot is inserted. *)
Theorem createSlot_boundary_adjacent_refused :
  createSlotSchema_parse (mkCreateSlotData "2025-03-01" "09:30:00" "10:00:00")
  = Some (mkCreateSlotData "2025-03-01" "09:30:00" "10:00:00")
  /\ slotController.createSlot (Scenario.no_faults "slot-2") (Some Scenario.userX)
       (mkCreateSlotData "2025-03-01" "09:30:00" "10:00:00") Scenario.w1
     = (Thrown (AppError "This time slot overlaps with an existing slot" 409), Scenario.w1)
  /\ slotController.createSlot (Scenario.no_faults "slot-2") (Some Scenario.userX)
       (mkCreateSlotData "2025-03-01" "08:30:00" "09:00:00") Scenario.w1
     = (Thrown (AppError "This time slot overlaps with an existing slot" 409), Scenario.w1).
Proof. repeat split; vm_compute; reflexivity. Qed.

(* ================================================================== *)
(** ** bookConsultation, cancelConsultation, updateConsultation *)
(* ================================================================== *)

Lemma patch_slot_status (st : AvailabilityStatus) :
  patch_of aavailability_slots_set [("status", AvailabilityStatus_to_string st)]
  = PgData (fun r => set_slot_status st r).
Proof. destruct st; reflexivity. Qed.

Lemma patch_consultation_status (st : ConsultationStatus) :
  patch_of aconsultations_set [("status", ConsultationStatus_to_string st)]
  = PgData (fun r => set_consultation_status st r).
Proof. destruct st; reflexivity. Qed.

Lemma AvailabilityStatus_eqb_eq (a b : AvailabilityStatus) :
  AvailabilityStatus_eqb a b = true <-> a = b.
Proof. destruct a, b; simpl; split; intro H; try reflexivity; discriminate H. Qed.

Lemma ConsultationStatus_eqb_eq (a b : ConsultationStatus) :
  ConsultationStatus_eqb a b = true <-> a = b.
Proof. destruct a, b; simpl; split; intro H; try reflexivity; discriminate H. Qed.

Section Booking.
Import consultationController.

Variable Date_parse : string -> option Z.

Lemma slot_lookup_run (env : BookEnv) (d : BookConsultationData) (w : World) :
  select_single from_aavailability_slots (bk_slot_fault env)
    (fun r => slot_id r =? slotId d) w
  = (Returned (match bk_slot_fault env with
               | Some m => PgError m
               | None => single (filter (fun r => slot_id r =? slotId d)
                                        (aavailability_slots w))
               end), w).
Proof. unfold select_single. destruct (bk_slot_fault env); reflexivity. Qed.

Lemma bookConsultation_past_guards (env : BookEnv) (u : AuthUser)
    (d : BookConsultationData) (w : World) (slot : AvailabilitySlot) :
  guards_pass Date_parse env d w slot ->
  bookConsultation Date_parse env (Some u) d w
  = (consultation <- insert_keyed from_aconsultations consultation_id
                       (bk_insert_fault env) (new_consultation env u d slot) ;;
     match data consultation with
     | None => throw (AppError "Failed to book consultation" 500)
     | Some consultation =>
         updateSlot <- update from_aavailability_slots (bk_slot_update_fault env)
                         aavailability_slots_set [("status", "booked")]
                         (fun r => slot_id r =? slotId d) ;;
         match error updateSlot with
         | Some _ =>
             delete from_aconsultations (bk_rollback_fault env)
               (fun c => consultation_id c =? consultation_id consultation) ;;
             throw (AppError "Failed to book slot" 500)
         | None =>
             match find (fun x => doctor_id x =? slot_doctor_id slot) (adoctors w) with
             | None => throw TypeError
             | Some doctorInfo =>
                 payment <- insert from_apayments (bk_payment_fault env)
                              [mkPayment (consultation_id consultation) (auth_id u)
                                 (doctor_consultation_fee doctorInfo) pending] ;;
                 match error payment with
                 | Some m => console_error ("Failed to create payment record: " ++ m)
                 | None => ret tt
                 end ;;
                 ret (mkResponse 201 (Some "Consultation booked successfully") consultation)
             end
         end
     end) w.
Proof.
  intros (Hl & Hav & Hdoc & Hpast).
  unfold bookConsultation, slot_lookup in *.
  unfold bind at 1. rewrite slot_lookup_run.
  destruct (bk_slot_fault env); [discriminate Hl|].
  destruct (single _) as [s|m]; simpl in Hl; [|discriminate Hl].
  injection Hl as ->. simpl.
  unfold bind at 1, embed_adoctors at 1.
  rewrite Hav, Hdoc, String.eqb_refl, Hpast. simpl.
  reflexivity.
Qed.

End Booking.

Lemma single_data_inv {A} (l : list A) (x : A) : data (single l) = Some x -> l = [x].
Proof.
  destruct l as [|a [|b l]]; simpl; intro H; try discriminate H.
  injection H as ->. reflexivity.
Qed.

Lemma existsb_false_forall {A} (p : A -> bool) (l : list A) :
  existsb p l = false -> forall r, In r l -> p r = false.
Proof.
  intros H r Hr.
  destruct (p r) eqn:E; [|reflexivity].
  assert (existsb p l = true) as Ht by (apply existsb_exists; exists r; split; assumption).
  rewrite H in Ht. discriminate Ht.
Qed.

Lemma map_update_fresh {A} (p : A -> bool) (f : A -> A) (l : list A) :
  existsb p l = false ->
  map (fun r => if p r then f r else r) l = l.
Proof.
  intro H. apply map_update_id. intros r Hr Hp.
  rewrite (existsb_false_forall p l H r Hr) in Hp. discriminate Hp.
Qed.

Section BookingRuns.
Import consultationController.

Variable Date_parse : string -> option Z.

Lemma slot_lookup_rows (env : BookEnv) (d : BookConsultationData) (w : World)
    (slot : AvailabilitySlot) :
  slot_lookup env d w = Some slot ->
  bk_slot_fault env = None
  /\ filter (fun r => slot_id r =? slotId d) (aavailability_slots w) = [slot].
Proof.
  unfold slot_lookup. destruct (bk_slot_fault env); intro H; [discriminate H|].
  split; [reflexivity | apply single_data_inv; exact H].
Qed.

(** With the guards passed and the store accepting the two checked
    writes, the booking answers 201 with the new row. *)
Lemma bookConsultation_success (env : BookEnv) (u : AuthUser)
    (d : BookConsultationData) (w : World) (slot : AvailabilitySlot) (doctorInfo : Doctor) :
  guards_pass Date_parse env d w slot ->
  store_accepts_booking env w ->
  find (fun x => doctor_id x =? slot_doctor_id slot) (adoctors w) = Some doctorInfo ->
  bookConsultation Date_parse env (Some u) d w
  = (Returned (mkResponse 201 (Some "Consultation booked successfully")
                 (new_consultation env u d slot)),
     after_booking env u d slot doctorInfo w).
Proof.
  intros Hg (Hif & Hfresh & Huf) Hfk.
  rewrite (bookConsultation_past_guards Date_parse env u d w slot Hg).
  unfold bind at 1, insert_keyed. rewrite Hif. simpl rows.
  unfold new_consultation at 1. simpl consultation_id. rewrite Hfresh.
  simpl data. cbv iota.
  unfold bind at 1, update. rewrite Huf.
  change "booked" with (AvailabilityStatus_to_string booked).
  cbv iota. rewrite (patch_slot_status booked). simpl error. cbv iota.
  rewrite Hfk.
  unfold after_booking, after_payment, bind, insert, console_error, ret.
  destruct (bk_payment_fault env); reflexivity.
Qed.

End BookingRuns.

Section Cancelling.
Import consultationController.

Lemma may_cancel_check (actor : AuthUser) (c : Consultation) :
  may_cancel actor c ->
  UserRole_eqb (auth_role actor) role_user
  && negb (consultation_patient_id c =? auth_id actor) = false.
Proof.
  unfold may_cancel. intro H.
  destruct (auth_role actor); simpl; try reflexivity.
  rewrite (H eq_refl), String.eqb_refl. reflexivity.
Qed.

(** A consultation that is neither completed nor cancelled is cancelled
    and its slot is set to available. *)
Lemma cancelConsultation_success (env : CancelEnv) (actor : AuthUser) (w : World)
    (c : Consultation) :
  no_cancel_faults env ->
  filter (fun x => consultation_id x =? consultation_id c) (aconsultations w) = [c] ->
  may_cancel actor c ->
  is_terminal (consultation_status c) = false ->
  cancelConsultation env (Some actor) (consultation_id c) w
  = (Returned (mkResponse 200 (Some "Consultation cancelled successfully") tt),
     after_cancel c w).
Proof.
  intros (Hsf & Huf & Hslf) Hrow Hmay Hterm.
  unfold cancelConsultation, bind at 1, select_single.
  rewrite Hsf. change (rows from_aconsultations w) with (aconsultations w).
  rewrite Hrow. cbn [single data].
  rewrite (may_cancel_check actor c Hmay), Hterm.
  unfold bind at 1, update. rewrite Huf.
  change "cancelled" with (ConsultationStatus_to_string cancelled).
  cbv iota. rewrite (patch_consultation_status cancelled). simpl error. cbv iota.
  unfold after_cancel, mark_consultation.
  destruct (consultation_slot_id c) as [s|]; [|reflexivity].
  destruct (truthy (Some s)); [|reflexivity].
  unfold bind, update, ret. rewrite Hslf.
  change "available" with (AvailabilityStatus_to_string available).
  cbv iota. rewrite (patch_slot_status available). reflexivity.
Qed.

(** A completed or cancelled consultation is not cancelled by
    [cancelConsultation]: 400, and the store is left as it was. *)
Lemma cancelConsultation_terminal_rejected (env : CancelEnv) (actor : AuthUser)
    (w : World) (c : Consultation) :
  cc_select_fault env = None ->
  filter (fun x => consultation_id x =? consultation_id c) (aconsultations w) = [c] ->
  may_cancel actor c ->
  is_terminal (consultation_status c) = true ->
  cancelConsultation env (Some actor) (consultation_id c) w
  = (Thrown (AppError ("Cannot cancel a "
                       ++ ConsultationStatus_to_string (consultation_status c)
                       ++ " consultation") 400), w).
Proof.
  intros Hsf Hrow Hmay Hterm.
  unfold cancelConsultation, bind at 1, select_single.
  rewrite Hsf. change (rows from_aconsultations w) with (aconsultations w).
  rewrite Hrow. cbn [single data].
  rewrite (may_cancel_check actor c Hmay), Hterm. reflexivity.
Qed.

End Cancelling.

Section RoundTrip.
Import consultationController.

Variable Date_parse : string -> option Z.

Lemma mark_slot_round_trip (id : string) (slot : AvailabilitySlot)
    (l : list AvailabilitySlot) :
  filter (fun r => slot_id r =? id) l = [slot] ->
  slot_status slot = available ->
  mark_slot available id (mark_slot booked id l) = l.
Proof.
  intros Hrow Hav. unfold mark_slot.
  rewrite (map_update_twice (fun r => slot_id r =? id)); [|reflexivity].
  apply map_update_id. intros r Hr Hp.
  rewrite (filter_singleton_In _ l slot r Hrow Hr Hp).
  destruct slot; simpl in *. rewrite Hav. reflexivity.
Qed.

Lemma after_booking_consultations (env : BookEnv) (u : AuthUser)
    (d : BookConsultationData) (slot : AvailabilitySlot) (doctorInfo : Doctor) (w : World) :
  aconsultations (after_booking env u d slot doctorInfo w)
  = aconsultations w ++ [new_consultation env u d slot].
Proof. unfold after_booking, after_payment. destruct (bk_payment_fault env); reflexivity. Qed.

Lemma after_booking_slots (env : BookEnv) (u : AuthUser)
    (d : BookConsultationData) (slot : AvailabilitySlot) (doctorInfo : Doctor) (w : World) :
  aavailability_slots (after_booking env u d slot doctorInfo w)
  = mark_slot booked (slotId d) (aavailability_slots w).
Proof. unfold after_booking, after_payment. destruct (bk_payment_fault env); reflexivity. Qed.

(** C2: booking an available slot answers 201 with the one new
    consultation, scheduled and referencing the slot, and the slot is
    booked; cancelling that consultation then answers 200, the
    consultation is cancelled and the slot table is what it was before
    the booking, the slot available again. *)
Theorem book_then_cancel_round_trip (env : BookEnv) (u : AuthUser)
    (d : BookConsultationData) (w : World) (slot : AvailabilitySlot)
    (doctorInfo : Doctor) (cenv : CancelEnv) (actor : AuthUser) :
  guards_pass Date_parse env d w slot ->
  store_accepts_booking env w ->
  find (fun x => doctor_id x =? slot_doctor_id slot) (adoctors w) = Some doctorInfo ->
  slotId d <> "" ->
  no_cancel_faults cenv ->
  (auth_role actor = role_user -> auth_id actor = auth_id u) ->
  exists (c : Consultation) (w1 w2 : World),
    bookConsultation Date_parse env (Some u) d w
    = (Returned (mkResponse 201 (Some "Consultation booked successfully") c), w1)
    /\ consultation_status c = scheduled
    /\ consultation_slot_id c = Some (slotId d)
    /\ aconsultations w1 = aconsultations w ++ [c]
    /\ filter (fun r => slot_id r =? slotId d) (aavailability_slots w1)
       = [set_slot_status booked slot]
    /\ cancelConsultation cenv (Some actor) (consultation_id c) w1
       = (Returned (mkResponse 200 (Some "Consultation cancelled successfully") tt), w2)
    /\ aconsultations w2 = aconsultations w ++ [set_consultation_status cancelled c]
    /\ aavailability_slots w2 = aavailability_slots w
    /\ filter (fun r => slot_id r =? slotId d) (aavailability_slots w2) = [slot].
Proof.
  intros Hg Hstore Hfk Hid Hcf Hactor.
  pose proof Hg as (Hl & Hav & Hdoc & Hpast).
  pose proof Hstore as (Hif & Hfresh & Huf).
  destruct (slot_lookup_rows env d w slot Hl) as (_ & Hrow).
  set (c := new_consultation env u d slot).
  set (w1 := after_booking env u d slot doctorInfo w).
  assert (Hc1 : aconsultations w1 = aconsultations w ++ [c])
    by apply after_booking_consultations.
  assert (Hs1 : aavailability_slots w1 = mark_slot booked (slotId d) (aavailability_slots w))
    by apply after_booking_slots.
  assert (Hcrow : filter (fun x => consultation_id x =? consultation_id c) (aconsultations w1)
                  = [c]).
  { rewrite Hc1. apply (filter_key_fresh consultation_id). exact Hfresh. }
  assert (Htruthy : truthy (Some (slotId d)) = true).
  { simpl. destruct (String.eqb_spec (slotId d) ""); [contradiction | reflexivity]. }
  exists c, w1, (after_cancel c w1).
  split; [apply bookConsultation_success; assumption|].
  split; [reflexivity|]. split; [reflexivity|]. split; [exact Hc1|].
  split.
  { rewrite Hs1. unfold mark_slot.
    apply (filter_map_update (fun r => slot_id r =? slotId d)); [reflexivity | exact Hrow]. }
  split.
  { apply cancelConsultation_success; try assumption; try reflexivity.
    unfold may_cancel. intro Hr. simpl. symmetry. apply Hactor. exact Hr. }
  assert (Hs2 : aavailability_slots (after_cancel c w1) = aavailability_slots w).
  { unfold after_cancel. change (consultation_slot_id c) with (Some (slotId d)).
    cbv iota. rewrite Htruthy. simpl aavailability_slots. rewrite Hs1.
    apply (mark_slot_round_trip (slotId d) slot); assumption. }
  split.
  { unfold after_cancel. change (consultation_slot_id c) with (Some (slotId d)).
    cbv iota. rewrite Htruthy. simpl aconsultations. rewrite Hc1.
    unfold mark_consultation. rewrite map_app. simpl.
    rewrite String.eqb_refl. f_equal.
    apply map_update_fresh. exact Hfresh. }
  split; [exact Hs2|].
  rewrite Hs2. exact Hrow.
Qed.

End RoundTrip.

Section BookingGuards.
Import consultationController.

Variable Date_parse : string -> option Z.

Lemma bookConsultation_not_found (env : BookEnv) (u : AuthUser)
    (d : BookConsultationData) (w : World) :
  slot_lookup env d w = None ->
  bookConsultation Date_parse env (Some u) d w
  = (Thrown (AppError "Slot not found" 404), w).
Proof.
  intro Hl. unfold bookConsultation, slot_lookup in *.
  unfold bind at 1. rewrite slot_lookup_run.
  destruct (bk_slot_fault env); [reflexivity|].
  destruct (single _); simpl in Hl; [discriminate Hl | reflexivity].
Qed.

(** Runs the slot query of [bookConsultation] on a lookup known to
    succeed, up to the first guard. *)
Ltac book_loaded Hl :=
  unfold bookConsultation, slot_lookup in *;
  unfold bind at 1; rewrite slot_lookup_run;
  destruct (bk_slot_fault _); [discriminate Hl|];
  destruct (single _); simpl in Hl; [|discriminate Hl];
  injection Hl as ->; cbn [data];
  unfold bind at 1, embed_adoctors at 1.

(** The run of [bookConsultation] once the slot is loaded, guard by
    guard. *)
Lemma bookConsultation_found (env : BookEnv) (u : AuthUser)
    (d : BookConsultationData) (w : World) (slot : AvailabilitySlot) :
  slot_lookup env d w = Some slot ->
  (slot_status slot <> available ->
   bookConsultation Date_parse env (Some u) d w
   = (Thrown (AppError "This slot is not available for booking" 400), w))
  /\ (slot_status slot = available -> slot_doctor_id slot <> doctorId d ->
      bookConsultation Date_parse env (Some u) d w
      = (Thrown (AppError "Slot does not belong to the specified doctor" 400), w))
  /\ (slot_status slot = available -> slot_doctor_id slot = doctorId d ->
      in_the_past Date_parse slot (bk_now env) = true ->
      bookConsultation Date_parse env (Some u) d w
      = (Thrown (AppError "Cannot book a slot in the past" 400), w)).
Proof.
  intro Hl. repeat split.
  - intro Hst. book_loaded Hl.
    destruct (AvailabilityStatus_eqb (slot_status slot) available) eqn:E;
      [apply AvailabilityStatus_eqb_eq in E; contradiction | reflexivity].
  - intros Hav Hdoc. book_loaded Hl. rewrite Hav. simpl.
    destruct (String.eqb_spec (slot_doctor_id slot) (doctorId d));
      [contradiction | reflexivity].
  - intros Hav Hdoc Hpast. book_loaded Hl.
    rewrite Hav, Hdoc, String.eqb_refl, Hpast. reflexivity.
Qed.

(** A refused insert ends the booking before the slot is touched. *)
Lemma bookConsultation_insert_refused (env : BookEnv) (u : AuthUser)
    (d : BookConsultationData) (w : World) (slot : AvailabilitySlot) :
  guards_pass Date_parse env d w slot ->
  bk_insert_fault env <> None
  \/ existsb (fun c => consultation_id c =? bk_new_id env) (aconsultations w) = true ->
  bookConsultation Date_parse env (Some u) d w
  = (Thrown (AppError "Failed to book consultation" 500), w).
Proof.
  intros Hg Hins.
  rewrite (bookConsultation_past_guards Date_parse env u d w slot Hg).
  unfold bind at 1, insert_keyed.
  destruct (bk_insert_fault env) as [m|]; [reflexivity|].
  destruct Hins as [Hins|Hins]; [contradiction|].
  change (rows from_aconsultations w) with (aconsultations w).
  unfold new_consultation at 1. cbn [consultation_id]. rewrite Hins. reflexivity.
Qed.

(** With the guards passed and both checked writes accepted, the
    consultation is in the table and the slot is booked, whatever the
    payment step does afterwards. *)
Lemma bookConsultation_writes (env : BookEnv) (u : AuthUser)
    (d : BookConsultationData) (w : World) (slot : AvailabilitySlot) :
  guards_pass Date_parse env d w slot ->
  store_accepts_booking env w ->
  exists r w',
    bookConsultation Date_parse env (Some u) d w = (r, w')
    /\ aconsultations w' = aconsultations w ++ [new_consultation env u d slot]
    /\ aavailability_slots w' = mark_slot booked (slotId d) (aavailability_slots w).
Proof.
  intros Hg Hstore.
  destruct (find (fun x => doctor_id x =? slot_doctor_id slot) (adoctors w))
    as [doctorInfo|] eqn:Hfk.
  - eexists. eexists. split.
    + apply bookConsultation_success; eassumption.
    + split; [apply after_booking_consultations | apply after_booking_slots].
  - destruct Hstore as (Hif & Hfresh & Huf).
    rewrite (bookConsultation_past_guards Date_parse env u d w slot Hg).
    unfold bind at 1, insert_keyed. rewrite Hif.
    change (rows from_aconsultations w) with (aconsultations w).
    unfold new_consultation at 1. cbn [consultation_id]. rewrite Hfresh.
    cbn [data]. unfold bind at 1, update. rewrite Huf.
    change "booked" with (AvailabilityStatus_to_string booked).
    cbv iota. rewrite (patch_slot_status booked). cbn [error].
    rewrite Hfk. eexists. eexists. split; [reflexivity|].
    split; reflexivity.
Qed.

(** C3: the guards of [bookConsultation] in their order.  No slot: 404.
    A slot that is not available: 400, whatever its doctor and time.
    An available slot of another doctor: 400; of the requested doctor
    but in the past: 400.  Each refusal leaves the store as it was.
    With all guards passed the consultation is inserted first (a refused
    insert ends the request with the slot untouched) and the slot is
    booked next; and a run that wrote to either table passed all
    guards. *)
Theorem bookConsultation_guard_order (env : BookEnv) (u : AuthUser)
    (d : BookConsultationData) (w : World) :
  (slot_lookup env d w = None ->
   bookConsultation Date_parse env (Some u) d w
   = (Thrown (AppError "Slot not found" 404), w))
  /\ (forall slot, slot_lookup env d w = Some slot ->
      slot_status slot <> available ->
      bookConsultation Date_parse env (Some u) d w
      = (Thrown (AppError "This slot is not available for booking" 400), w))
  /\ (forall slot, slot_lookup env d w = Some slot ->
      slot_status slot = available -> slot_doctor_id slot <> doctorId d ->
      bookConsultation Date_parse env (Some u) d w
      = (Thrown (AppError "Slot does not belong to the specified doctor" 400), w))
  /\ (forall slot, slot_lookup env d w = Some slot ->
      slot_status slot = available -> slot_doctor_id slot = doctorId d ->
      in_the_past Date_parse slot (bk_now env) = true ->
      bookConsultation Date_parse env (Some u) d w
      = (Thrown (AppError "Cannot book a slot in the past" 400), w))
  /\ (forall slot, guards_pass Date_parse env d w slot ->
      bk_insert_fault env <> None
      \/ existsb (fun c => consultation_id c =? bk_new_id env) (aconsultations w) = true ->
      bookConsultation Date_parse env (Some u) d w
      = (Thrown (AppError "Failed to book consultation" 500), w))
  /\ (forall slot, guards_pass Date_parse env d w slot ->
      store_accepts_booking env w ->
      exists r w',
        bookConsultation Date_parse env (Some u) d w = (r, w')
        /\ aconsultations w' = aconsultations w ++ [new_consultation env u d slot]
        /\ consultation_status (new_consultation env u d slot) = scheduled
        /\ aavailability_slots w' = mark_slot booked (slotId d) (aavailability_slots w))
  /\ (forall r w', bookConsultation Date_parse env (Some u) d w = (r, w') ->
      aconsultations w' <> aconsultations w
      \/ aavailability_slots w' <> aavailability_slots w ->
      exists slot, guards_pass Date_parse env d w slot).
Proof.
  split; [apply bookConsultation_not_found|].
  split; [intros slot Hl; apply (bookConsultation_found env u d w slot Hl)|].
  split; [intros slot Hl; apply (bookConsultation_found env u d w slot Hl)|].
  split; [intros slot Hl; apply (bookConsultation_found env u d w slot Hl)|].
  split; [intros slot; apply bookConsultation_insert_refused|].
  split.
  { intros slot Hg Hstore.
    destruct (bookConsultation_writes env u d w slot Hg Hstore) as (r & w' & Hrun & Hc & Hs).
    exists r, w'. repeat split; assumption. }
  intros r w' Hrun Hchanged.
  destruct (slot_lookup env d w) as [slot|] eqn:Hl.
  - destruct (bookConsultation_found env u d w slot Hl) as (Hst & Hdoc & Hpast).
    assert (Hsame : forall e, bookConsultation Date_parse env (Some u) d w = (Thrown e, w) ->
                              False).
    { intros e He. rewrite He in Hrun. injection Hrun as _ <-.
      destruct Hchanged as [H|H]; apply H; reflexivity. }
    destruct (AvailabilityStatus_eqb (slot_status slot) available) eqn:Eav.
    + apply AvailabilityStatus_eqb_eq in Eav.
      destruct (String.eqb_spec (slot_doctor_id slot) (doctorId d)) as [Ed|Ed].
      * destruct (in_the_past Date_parse slot (bk_now env)) eqn:Ep.
        -- exfalso. eapply Hsame. apply Hpast; auto.
        -- exists slot. unfold guards_pass. auto.
      * exfalso. eapply Hsame. apply Hdoc; auto.
    + exfalso. eapply Hsame. apply Hst. intro Hav. rewrite Hav in Eav. discriminate Eav.
  - exfalso. rewrite (bookConsultation_not_found env u d w Hl) in Hrun.
    injection Hrun as _ <-. destruct Hchanged as [H|H]; apply H; reflexivity.
Qed.

(** C4: past the guards and with the consultation inserted, a failed
    slot update makes the handler delete the consultation it created
    and fail with 500, and the store is as it was before the request;
    a failed payment insert alone is written to the console and the
    booking answers 201 with the consultation, which is in the table,
    the slot booked and no payment row added. *)
Theorem bookConsultation_compensation (env : BookEnv) (u : AuthUser)
    (d : BookConsultationData) (w : World) (slot : AvailabilitySlot) :
  guards_pass Date_parse env d w slot ->
  bk_insert_fault env = None ->
  existsb (fun c => consultation_id c =? bk_new_id env) (aconsultations w) = false ->
  (bk_slot_update_fault env <> None -> bk_rollback_fault env = None ->
   bookConsultation Date_parse env (Some u) d w
   = (Thrown (AppError "Failed to book slot" 500), w))
  /\ (forall m doctorInfo,
      bk_slot_update_fault env = None ->
      find (fun x => doctor_id x =? slot_doctor_id slot) (adoctors w) = Some doctorInfo ->
      bk_payment_fault env = Some m ->
      exists w',
        bookConsultation Date_parse env (Some u) d w
        = (Returned (mkResponse 201 (Some "Consultation booked successfully")
                       (new_consultation env u d slot)), w')
        /\ console w' = console w ++ [("Failed to create payment record: " ++ m)%string]
        /\ apayments w' = apayments w
        /\ aconsultations w' = aconsultations w ++ [new_consultation env u d slot]
        /\ aavailability_slots w' = mark_slot booked (slotId d) (aavailability_slots w)).
Proof.
  intros Hg Hif Hfresh. split.
  - intros Huf Hrf.
    rewrite (bookConsultation_past_guards Date_parse env u d w slot Hg).
    unfold bind at 1, insert_keyed. rewrite Hif.
    change (rows from_aconsultations w) with (aconsultations w).
    unfold new_consultation at 1. cbn [consultation_id]. rewrite Hfresh.
    cbn [data]. unfold bind at 1, update.
    destruct (bk_slot_update_fault env) as [m|]; [|contradiction Huf; reflexivity].
    cbn [error]. unfold bind, delete, throw. rewrite Hrf.
    cbn [rows put from_aconsultations aconsultations set_aconsultations].
    f_equal.
    pose proof (filter_out_fresh consultation_id (aconsultations w)
                  (new_consultation env u d slot)) as Hdel.
    cbn [consultation_id new_consultation] in Hdel.
    cbn [consultation_id new_consultation].
    rewrite (Hdel Hfresh). unfold set_aconsultations. cbn. apply world_eta.
  - intros m doctorInfo Huf Hfk Hpf.
    exists (after_booking env u d slot doctorInfo w).
    split; [apply bookConsultation_success;
            [exact Hg | unfold store_accepts_booking; auto | exact Hfk]|].
    split; [unfold after_booking, after_payment; rewrite Hpf; reflexivity|].
    split; [unfold after_booking, after_payment; rewrite Hpf; reflexivity|].
    split; [apply after_booking_consultations | apply after_booking_slots].
Qed.

End BookingGuards.

Lemma book_then_cancel_round_trip_witness :
  exists (c : Consultation) (w1 w2 : World),
    consultationController.bookConsultation Scenario.Date_parse
      (Scenario.book_env None None) (Some Scenario.patientP) Scenario.book_request Scenario.w1
    = (Returned (mkResponse 201 (Some "Consultation booked successfully") c), w1)
    /\ consultation_status c = scheduled
    /\ consultation_slot_id c = Some "slot-1"
    /\ aconsultations w1 = aconsultations Scenario.w1 ++ [c]
    /\ filter (fun r => slot_id r =? "slot-1") (aavailability_slots w1)
       = [set_slot_status booked Scenario.slot_0900]
    /\ consultationController.cancelConsultation Scenario.cancel_env
         (Some Scenario.patientP) (consultation_id c) w1
       = (Returned (mkResponse 200 (Some "Consultation cancelled successfully") tt), w2)
    /\ aconsultations w2
       = aconsultations Scenario.w1 ++ [set_consultation_status cancelled c]
    /\ aavailability_slots w2 = aavailability_slots Scenario.w1
    /\ filter (fun r => slot_id r =? "slot-1") (aavailability_slots w2)
       = [Scenario.slot_0900].
Proof.
  apply (book_then_cancel_round_trip Scenario.Date_parse (Scenario.book_env None None)
           Scenario.patientP Scenario.book_request Scenario.w1 Scenario.slot_0900
           Scenario.doctorX Scenario.cancel_env Scenario.patientP).
  - unfold guards_pass. repeat split; reflexivity.
  - unfold store_accepts_booking. repeat split; reflexivity.
  - reflexivity.
  - simpl. discriminate.
  - unfold no_cancel_faults. repeat split; reflexivity.
  - intros _. reflexivity.
Defined.

Lemma bookConsultation_compensation_witness :
  (Scenario.book_env (Some "connection lost") None).(consultationController.bk_slot_update_fault)
  <> None
  /\ consultationController.bookConsultation Scenario.Date_parse
       (Scenario.book_env (Some "connection lost") None) (Some Scenario.patientP)
       Scenario.book_request Scenario.w1
     = (Thrown (AppError "Failed to book slot" 500), Scenario.w1).
Proof.
  split; [simpl; discriminate|].
  apply (bookConsultation_compensation Scenario.Date_parse
           (Scenario.book_env (Some "connection lost") None) Scenario.patientP
           Scenario.book_request Scenario.w1 Scenario.slot_0900).
  - unfold guards_pass. repeat split; reflexivity.
  - reflexivity.
  - reflexivity.
  - simpl. discriminate.
  - reflexivity.
Defined.

(** The booking of the scenario with the payment insert failing: 201,
    the failure on the console, no payment row. *)
Lemma bookConsultation_payment_failure_example :
  consultationController.bookConsultation Scenario.Date_parse
    (Scenario.book_env None (Some "timeout")) (Some Scenario.patientP)
    Scenario.book_request Scenario.w1
  = (Returned (mkResponse 201 (Some "Consultation booked successfully")
                 (Scenario.cons_1 scheduled)),
     mkWorld [] [] [Scenario.doctorX] [set_slot_status booked Scenario.slot_0900]
             [Scenario.cons_1 scheduled] [] [] [] []
             ["Failed to create payment record: timeout"]).
Proof. vm_compute. reflexivity. Qed.

(** The guards on the scenario: an unknown slot, a booked slot, the
    slot of another doctor, a slot in the past. *)
Lemma bookConsultation_guard_examples :
  consultationController.bookConsultation Scenario.Date_parse
    (Scenario.book_env None None) (Some Scenario.patientP)
    (consultationController.mkBookConsultationData "doc-X" "slot-9" "headache") Scenario.w1
  = (Thrown (AppError "Slot not found" 404), Scenario.w1)
  /\ consultationController.bookConsultation Scenario.Date_parse
       (Scenario.book_env None None) (Some Scenario.patientP)
       (consultationController.mkBookConsultationData "doc-Y" "slot-1" "headache")
       (Scenario.w_consultation scheduled booked)
     = (Thrown (AppError "This slot is not available for booking" 400),
        Scenario.w_consultation scheduled booked)
  /\ consultationController.bookConsultation Scenario.Date_parse
       (Scenario.book_env None None) (Some Scenario.patientP)
       (consultationController.mkBookConsultationData "doc-Y" "slot-1" "headache") Scenario.w1
     = (Thrown (AppError "Slot does not belong to the specified doctor" 400), Scenario.w1)
  /\ consultationController.bookConsultation Scenario.Date_parse
       (consultationController.mkBookEnv None None "cons-1" None None None 1750000000000%Z)
       (Some Scenario.patientP) Scenario.book_request Scenario.w1
     = (Thrown (AppError "Cannot book a slot in the past" 400), Scenario.w1).
Proof. repeat split; vm_compute; reflexivity. Qed.

(* ================================================================== *)
(** ** updateConsultation: no guard on the current status *)
(* ================================================================== *)

Section UpdateConsultation.
Import consultationController.

(** [updateConsultation] with [{ status: 'cancelled' }] cancels the
    consultation and frees its slot whatever the status was: it does
    what a successful [cancelConsultation] does. *)
Lemma updateConsultation_cancels (env : UpdateConsultationEnv) (actor : AuthUser)
    (w : World) (c : Consultation) :
  uc_select_fault env = None -> uc_update_fault env = None ->
  uc_slot_update_fault env = None ->
  filter (fun x => consultation_id x =? consultation_id c) (aconsultations w) = [c] ->
  may_update actor c w ->
  updateConsultation env (Some actor) (consultation_id c)
    (mkUpdateConsultationData (Some cancelled) None None None) w
  = (Returned (mkResponse 200 (Some "Consultation updated successfully")
                 (set_consultation_status cancelled c)),
     after_cancel c w).
Proof.
  intros Hsf Huf Hslf Hrow Hmay.
  unfold updateConsultation, bind at 1, select_single.
  rewrite Hsf. change (rows from_aconsultations w) with (aconsultations w).
  rewrite Hrow. cbn [single data].
  unfold bind at 1, embed_adoctors at 1.
  unfold may_update in Hmay. rewrite Hmay.
  unfold bind at 1, update. rewrite Huf.
  change (UpdateConsultationData_object (mkUpdateConsultationData (Some cancelled) None None None))
    with [("status", ConsultationStatus_to_string cancelled)].
  cbv iota. rewrite (patch_consultation_status cancelled).
  change (rows from_aconsultations w) with (aconsultations w).
  rewrite Hrow. cbn [map and_single single data upd_status].
  unfold after_cancel, mark_consultation.
  destruct (consultation_slot_id c) as [s|]; [|reflexivity].
  destruct (truthy (Some s)); [|reflexivity].
  unfold bind, update, ret. rewrite Hslf.
  change "available" with (AvailabilityStatus_to_string available).
  cbv iota. rewrite (patch_slot_status available). reflexivity.
Qed.

End UpdateConsultation.

(** C5: on a completed consultation [cancelConsultation] answers 400
    and leaves the store as it is, but [updateConsultation] with
    [{ status: 'cancelled' }], sent by the doctor of the consultation,
    answers 200, moves the completed consultation to cancelled and sets
    its slot to available; the same on a cancelled one. *)
Theorem updateConsultation_cancels_terminal :
  consultationController.cancelConsultation Scenario.cancel_env (Some Scenario.userX)
    "cons-1" (Scenario.w_consultation completed booked)
  = (Thrown (AppError "Cannot cancel a completed consultation" 400),
     Scenario.w_consultation completed booked)
  /\ consultationController.updateConsultation Scenario.update_env (Some Scenario.userX)
       "cons-1" Scenario.cancel_request (Scenario.w_consultation completed booked)
     = (Returned (mkResponse 200 (Some "Consultation updated successfully")
                    (Scenario.cons_1 cancelled)),
        Scenario.w_consultation cancelled available)
  /\ consultationController.updateConsultation Scenario.update_env (Some Scenario.userX)
       "cons-1" Scenario.cancel_request (Scenario.w_consultation cancelled booked)
     = (Returned (mkResponse 200 (Some "Consultation updated successfully")
                    (Scenario.cons_1 cancelled)),
        Scenario.w_consultation cancelled available).
Proof. repeat split; vm_compute; reflexivity. Qed.

(* ================================================================== *)
(** ** createPrescription *)
(* ================================================================== *)

Section MedicineCounting.
Import prescriptionController.

(** Rows with distinct keys keep distinct keys under any filter. *)
Lemma filter_keeps_keys_distinct {R} (key : R -> string) (keep : R -> bool)
    (table : list R) :
  NoDup (map key table) -> NoDup (map key (filter keep table)).
Proof.
  induction table as [|row table IH]; simpl; intro Hkeys; [constructor|].
  inversion Hkeys as [|k ks Hnew Hrest]; subst.
  destruct (keep row); [|apply IH; exact Hrest].
  simpl. constructor; [|apply IH; exact Hrest].
  intro Hin. apply Hnew.
  apply in_map_iff in Hin. destruct Hin as (other & Hk & Hother).
  apply filter_In in Hother. apply in_map_iff. exists other.
  split; [exact Hk | apply Hother].
Qed.

Lemma id_in_In (ids : list string) (m : Medicine) :
  id_in ids m = true <-> In (medicine_id m) ids.
Proof.
  unfold id_in. rewrite existsb_exists. split.
  - intros (i & Hi & He). apply String.eqb_eq in He. rewrite He. exact Hi.
  - intro H. exists (medicine_id m). split; [exact H | apply String.eqb_refl].
Qed.

Lemma returned_ids_incl (ids : list string) (l : list Medicine) :
  incl (map medicine_id (filter (id_in ids) l)) ids.
Proof.
  intros i Hi. apply in_map_iff in Hi. destruct Hi as (m & <- & Hm).
  apply filter_In in Hm. apply id_in_In. apply Hm.
Qed.

(** An id without a row makes the query return fewer rows than ids. *)
Lemma missing_id_fewer_rows (ids : list string) (l : list Medicine) (x : string) :
  NoDup (map medicine_id l) ->
  In x ids ->
  (forall m, In m l -> medicine_id m <> x) ->
  length (filter (id_in ids) l) < length ids.
Proof.
  intros Hnd Hx Hmiss.
  rewrite <- (length_map medicine_id).
  apply Nat.le_lt_trans with (length (remove string_dec x ids));
    [|apply remove_length_lt; exact Hx].
  apply NoDup_incl_length; [apply filter_keeps_keys_distinct; exact Hnd|].
  intros i Hi.
  apply in_in_remove; [|apply (returned_ids_incl ids l); exact Hi].
  apply in_map_iff in Hi. destruct Hi as (m & <- & Hm).
  apply filter_In in Hm. apply Hmiss. apply Hm.
Qed.

Lemma nodup_length_le (ids : list string) :
  length (nodup string_dec ids) <= length ids.
Proof.
  induction ids as [|a ids IH]; simpl; [lia|].
  destruct (in_dec string_dec a ids); simpl; lia.
Qed.

Lemma repeated_id_shorter (ids : list string) :
  ~ NoDup ids -> length (nodup string_dec ids) < length ids.
Proof.
  induction ids as [|a ids IH]; intro H; [exfalso; apply H; constructor|].
  simpl. destruct (in_dec string_dec a ids) as [Hin|Hnotin].
  - pose proof (nodup_length_le ids). lia.
  - simpl. apply -> Nat.succ_lt_mono. apply IH.
    intro Hnd. apply H. constructor; assumption.
Qed.

(** An id listed twice makes the query return fewer rows than ids:
    it returns one row for each distinct id at most. *)
Lemma repeated_id_fewer_rows (ids : list string) (l : list Medicine) :
  NoDup (map medicine_id l) ->
  ~ NoDup ids ->
  length (filter (id_in ids) l) < length ids.
Proof.
  intros Hnd Hrep.
  rewrite <- (length_map medicine_id).
  apply Nat.le_lt_trans with (length (nodup string_dec ids));
    [|apply repeated_id_shorter; exact Hrep].
  apply NoDup_incl_length; [apply filter_keeps_keys_distinct; exact Hnd|].
  apply nodup_incl. apply returned_ids_incl.
Qed.

End MedicineCounting.

(** Case analysis on a test of [H] that has no test inside it. *)
Ltac has_no_test t :=
  lazymatch t with
  | context [match _ with _ => _ end] => fail
  | _ => idtac
  end.

Ltac destruct_innermost H :=
  match type of H with
  | context [match ?scrutinee with _ => _ end] =>
      has_no_test scrutinee; destruct scrutinee eqn:?
  end.

Section Prescribing.
Import prescriptionController.

Lemma status_check_passes (st : ConsultationStatus) :
  st = completed \/ st = ongoing ->
  negb (ConsultationStatus_eqb st completed) && negb (ConsultationStatus_eqb st ongoing)
  = false.
Proof. intros [-> | ->]; reflexivity. Qed.

(** Runs [createPrescription] through the checks that [may_prescribe]
    settles, up to the prescription query. *)
Ltac prescribe_loaded H :=
  let Hdf := fresh "Hdf" in let Hdoc := fresh "Hdoc" in
  let Hcf := fresh "Hcf" in let Hc := fresh "Hc" in
  let Hown := fresh "Hown" in let Hst := fresh "Hst" in
  pose proof H as (Hdf & Hdoc & Hcf & Hc & Hown & Hst);
  unfold createPrescription;
  unfold bind at 1, select_single at 1; rewrite Hdf;
  change (rows from_adoctors ?w) with (adoctors w); rewrite Hdoc; cbn [single data];
  unfold bind at 1, select_single at 1; rewrite Hcf;
  change (rows from_aconsultations ?w) with (aconsultations w); rewrite Hc;
  cbn [single data];
  rewrite Hown, String.eqb_refl, (status_check_passes _ Hst); cbn [negb];
  unfold bind at 1, select_single at 1;
  change (rows from_aprescriptions ?w) with (aprescriptions w).

Ltac no_existing Hex :=
  unfold existing_prescription in Hex;
  destruct (cp_existing_fault _); [cbn [data] | rewrite Hex].

Lemma createPrescription_conflict (env : CreatePrescriptionEnv) (u : AuthUser)
    (d : CreatePrescriptionData) (w : World) (doctor : Doctor) (c : Consultation)
    (p : Prescription) :
  may_prescribe env u d w doctor c ->
  existing_prescription env d w = Some p ->
  createPrescription env (Some u) d w
  = (Thrown (AppError "Prescription already exists for this consultation" 409), w).
Proof.
  intros H Hex. prescribe_loaded H.
  unfold existing_prescription in Hex.
  destruct (cp_existing_fault env); [discriminate Hex|].
  destruct (single _); [reflexivity | discriminate Hex].
Qed.

Lemma createPrescription_count_mismatch (env : CreatePrescriptionEnv) (u : AuthUser)
    (d : CreatePrescriptionData) (w : World) (doctor : Doctor) (c : Consultation) :
  may_prescribe env u d w doctor c ->
  existing_prescription env d w = None ->
  cp_medicines_fault env <> None
  \/ length (referenced_medicines d w) <> length (items d) ->
  createPrescription env (Some u) d w
  = (Thrown (AppError "One or more medicines not found" 404), w).
Proof.
  intros H Hex Hcount. prescribe_loaded H. no_existing Hex;
    (unfold bind at 1, select;
     destruct (cp_medicines_fault env) as [m'|]; [reflexivity|];
     destruct Hcount as [Hf|Hlen]; [contradiction Hf; reflexivity|];
     cbn [data]; change (rows from_amedicines w) with (amedicines w);
     fold (referenced_medicines d w); rewrite length_map;
     destruct (Nat.eqb_spec (length (referenced_medicines d w)) (length (items d)));
     [contradiction | reflexivity]).
Qed.

(** Runs the medicine query when it is answered with as many rows as
    there are items. *)
Ltac medicines_found Hmf Hlen :=
  unfold bind at 1, select; rewrite Hmf; cbn [data];
  change (rows from_amedicines ?w) with (amedicines w);
  match goal with
  | |- context [filter (id_in (map medicineId (items ?d))) (amedicines ?w)] =>
      fold (referenced_medicines d w)
  end;
  rewrite length_map, Hlen, Nat.eqb_refl; cbn [negb].

Lemma createPrescription_out_of_stock (env : CreatePrescriptionEnv) (u : AuthUser)
    (d : CreatePrescriptionData) (w : World) (doctor : Doctor) (c : Consultation) :
  may_prescribe env u d w doctor c ->
  existing_prescription env d w = None ->
  cp_medicines_fault env = None ->
  length (referenced_medicines d w) = length (items d) ->
  filter (fun m => negb (medicine_in_stock m)) (referenced_medicines d w) <> [] ->
  createPrescription env (Some u) d w
  = (Thrown (AppError (out_of_stock_message
                         (filter (fun m => negb (medicine_in_stock m))
                                 (referenced_medicines d w))) 400), w).
Proof.
  intros H Hex Hmf Hlen Hout. prescribe_loaded H. no_existing Hex;
    (medicines_found Hmf Hlen;
     destruct (filter (fun m => negb (medicine_in_stock m)) (referenced_medicines d w));
     [contradiction Hout; reflexivity | reflexivity]).
Qed.

Lemma createPrescription_items_refused (env : CreatePrescriptionEnv) (u : AuthUser)
    (d : CreatePrescriptionData) (w : World) (doctor : Doctor) (c : Consultation) :
  may_prescribe env u d w doctor c ->
  existing_prescription env d w = None ->
  cp_medicines_fault env = None ->
  length (referenced_medicines d w) = length (items d) ->
  filter (fun m => negb (medicine_in_stock m)) (referenced_medicines d w) = [] ->
  cp_insert_fault env = None ->
  existsb (fun p => prescription_id p =? cp_new_id env) (aprescriptions w) = false ->
  cp_items_fault env <> None ->
  cp_rollback_fault env = None ->
  createPrescription env (Some u) d w
  = (Thrown (AppError "Failed to create prescription items" 500), w).
Proof.
  intros H Hex Hmf Hlen Hout Hif Hfresh Hitf Hrf. prescribe_loaded H. no_existing Hex;
    (medicines_found Hmf Hlen; rewrite Hout; cbn [length Nat.ltb Nat.leb];
     unfold bind at 1, insert_keyed; rewrite Hif;
     change (rows from_aprescriptions w) with (aprescriptions w);
     cbn [prescription_id]; rewrite Hfresh; cbn [data];
     unfold bind at 1, insert;
     destruct (cp_items_fault env) as [m'|]; [|contradiction Hitf; reflexivity];
     cbn [error]; unfold bind, delete, throw; rewrite Hrf;
     cbn [rows put from_aprescriptions aprescriptions set_aprescriptions prescription_id];
     pose proof (filter_out_fresh prescription_id (aprescriptions w)
                   (mkPrescription (cp_new_id env) (consultationId d) (doctor_id doctor)
                      (consultation_patient_id c) (notes d))) as Hdel;
     cbn [prescription_id] in Hdel; rewrite (Hdel Hfresh);
     unfold set_aprescriptions; cbn; rewrite world_eta; reflexivity).
Qed.

(** Whatever makes [createPrescription] throw, and wherever, the
    prescription and item tables are afterwards what they were before,
    provided the store carries out the compensating delete. *)
Lemma createPrescription_failure_leaves_no_rows (env : CreatePrescriptionEnv)
    (user : option AuthUser) (d : CreatePrescriptionData) (w w' : World) (e : Exn) :
  cp_rollback_fault env = None ->
  createPrescription env user d w = (Thrown e, w') ->
  aprescriptions w' = aprescriptions w
  /\ aprescription_items w' = aprescription_items w.
Proof.
  intros Hrf Hrun.
  unfold createPrescription in Hrun.
  destruct user as [u|]; [|injection Hrun as _ <-; split; reflexivity].
  unfold bind, select_single, select, insert_keyed, insert, delete, throw, ret,
    embed_aprescription_items in Hrun.
  rewrite Hrf in Hrun.
  repeat (destruct_innermost Hrun; cbn [data error] in Hrun);
    try discriminate Hrun;
    try (injection Hrun as _ <-; split; reflexivity).
  all: injection Hrun as _ <-.
  all: cbn [rows put from_aprescriptions from_aprescription_items aprescriptions
            aprescription_items set_aprescriptions set_aprescription_items prescription_id].
  all: split; [|reflexivity].
  all: match goal with
       | Hfresh : existsb _ _ = false |- _ =>
           apply (filter_out_fresh prescription_id) in Hfresh; exact Hfresh
       end.
Qed.

(** C6: once the request is past the ownership and status checks, an
    existing prescription of the consultation gives 409; a referenced
    medicine id without a row gives 404; with every row found, a
    referenced medicine out of stock gives 400 with the names of the
    medicines out of stock; a refused item insert gives 500 after the
    prescription just inserted is deleted.  Each of these leaves the
    store as it was, and after any failure at all the prescription and
    item tables are what they were before the request. *)
Theorem createPrescription_failures (env : CreatePrescriptionEnv) (u : AuthUser)
    (d : CreatePrescriptionData) (w : World) (doctor : Doctor) (c : Consultation) :
  may_prescribe env u d w doctor c ->
  (forall p, existing_prescription env d w = Some p ->
   createPrescription env (Some u) d w
   = (Thrown (AppError "Prescription already exists for this consultation" 409), w))
  /\ (existing_prescription env d w = None ->
      medicine_ids_unique w ->
      (exists x, In x (map medicineId (items d))
                 /\ forall m, In m (amedicines w) -> medicine_id m <> x) ->
      createPrescription env (Some u) d w
      = (Thrown (AppError "One or more medicines not found" 404), w))
  /\ (existing_prescription env d w = None ->
      cp_medicines_fault env = None ->
      length (referenced_medicines d w) = length (items d) ->
      filter (fun m => negb (medicine_in_stock m)) (referenced_medicines d w) <> [] ->
      createPrescription env (Some u) d w
      = (Thrown (AppError
                   ("Following medicines are out of stock: "
                    ++ String.concat ", "
                         (map medicine_name
                              (filter (fun m => negb (medicine_in_stock m))
                                      (referenced_medicines d w)))) 400), w))
  /\ (existing_prescription env d w = None ->
      cp_medicines_fault env = None ->
      length (referenced_medicines d w) = length (items d) ->
      filter (fun m => negb (medicine_in_stock m)) (referenced_medicines d w) = [] ->
      cp_insert_fault env = None ->
      existsb (fun p => prescription_id p =? cp_new_id env) (aprescriptions w) = false ->
      cp_items_fault env <> None ->
      cp_rollback_fault env = None ->
      createPrescription env (Some u) d w
      = (Thrown (AppError "Failed to create prescription items" 500), w))
  /\ (forall e w',
      cp_rollback_fault env = None ->
      createPrescription env (Some u) d w = (Thrown e, w') ->
      aprescriptions w' = aprescriptions w
      /\ aprescription_items w' = aprescription_items w).
Proof.
  intro H.
  split; [intros p; apply createPrescription_conflict with (1 := H)|].
  split.
  { intros Hex Hpk (x & Hx & Hmiss).
    apply createPrescription_count_mismatch with (1 := H); [exact Hex|].
    right. unfold referenced_medicines.
    pose proof (missing_id_fewer_rows (map medicineId (items d)) (amedicines w) x
                  Hpk Hx Hmiss) as Hlt.
    rewrite length_map in Hlt. lia. }
  split; [apply createPrescription_out_of_stock with (1 := H)|].
  split; [apply createPrescription_items_refused with (1 := H)|].
  intros e w' Hrf Hrun.
  apply (createPrescription_failure_leaves_no_rows env (Some u) d w w' e Hrf Hrun).
Qed.

(** C9: a request whose items name the same medicine more than once
    is refused with 404 "One or more medicines not found", whether or
    not the medicines exist and are in stock: the query returns one row
    for each distinct id at most, and the rows are counted against the
    items. *)
Theorem createPrescription_repeated_medicine (env : CreatePrescriptionEnv) (u : AuthUser)
    (d : CreatePrescriptionData) (w : World) (doctor : Doctor) (c : Consultation) :
  may_prescribe env u d w doctor c ->
  existing_prescription env d w = None ->
  medicine_ids_unique w ->
  ~ NoDup (map medicineId (items d)) ->
  createPrescription env (Some u) d w
  = (Thrown (AppError "One or more medicines not found" 404), w).
Proof.
  intros H Hex Hpk Hrep.
  apply createPrescription_count_mismatch with (1 := H); [exact Hex|].
  right. unfold referenced_medicines.
  pose proof (repeated_id_fewer_rows (map medicineId (items d)) (amedicines w) Hpk Hrep)
    as Hlt.
  rewrite length_map in Hlt. lia.
Qed.

End Prescribing.

Lemma createPrescription_failures_witness :
  prescriptionController.createPrescription (Scenario.prescribe_env None)
    (Some Scenario.userX) (Scenario.prescribe ["med-A"; "med-B"]) Scenario.w_ongoing
  = (Thrown (AppError "Following medicines are out of stock: Ibuprofen" 400),
     Scenario.w_ongoing)
  /\ prescriptionController.createPrescription (Scenario.prescribe_env None)
       (Some Scenario.userX) (Scenario.prescribe ["med-A"; "med-C"]) Scenario.w_ongoing
     = (Thrown (AppError "One or more medicines not found" 404), Scenario.w_ongoing)
  /\ prescriptionController.createPrescription (Scenario.prescribe_env (Some "timeout"))
       (Some Scenario.userX) (Scenario.prescribe ["med-A"]) Scenario.w_ongoing
     = (Thrown (AppError "Failed to create prescription items" 500), Scenario.w_ongoing).
Proof.
  assert (Hmay : forall items_fault medicines,
             may_prescribe (Scenario.prescribe_env items_fault) Scenario.userX
               (Scenario.prescribe medicines) Scenario.w_ongoing Scenario.doctorX
               (Scenario.cons_1 ongoing)).
  { intros. unfold may_prescribe. repeat split; try reflexivity. right. reflexivity. }
  split; [|split].
  - destruct (createPrescription_failures (Scenario.prescribe_env None) Scenario.userX
                (Scenario.prescribe ["med-A"; "med-B"]) Scenario.w_ongoing Scenario.doctorX
                (Scenario.cons_1 ongoing) (Hmay None ["med-A"; "med-B"]))
      as (_ & _ & Hstock & _).
    apply Hstock; try reflexivity. simpl. discriminate.
  - destruct (createPrescription_failures (Scenario.prescribe_env None) Scenario.userX
                (Scenario.prescribe ["med-A"; "med-C"]) Scenario.w_ongoing Scenario.doctorX
                (Scenario.cons_1 ongoing) (Hmay None ["med-A"; "med-C"]))
      as (_ & Hmissing & _).
    apply Hmissing; try reflexivity.
    + unfold medicine_ids_unique. simpl.
      repeat constructor; simpl; intuition discriminate.
    + exists "med-C". split; [simpl; auto|].
      simpl. intros m [<- | [<- | []]]; simpl; discriminate.
  - destruct (createPrescription_failures (Scenario.prescribe_env (Some "timeout"))
                Scenario.userX (Scenario.prescribe ["med-A"]) Scenario.w_ongoing
                Scenario.doctorX (Scenario.cons_1 ongoing) (Hmay (Some "timeout") ["med-A"]))
      as (_ & _ & _ & Hitems & _).
    apply Hitems; try reflexivity. simpl. discriminate.
Defined.

Lemma createPrescription_repeated_medicine_witness :
  prescriptionController.createPrescription (Scenario.prescribe_env None)
    (Some Scenario.userX) (Scenario.prescribe ["med-A"; "med-A"]) Scenario.w_ongoing
  = (Thrown (AppError "One or more medicines not found" 404), Scenario.w_ongoing).
Proof.
  apply (createPrescription_repeated_medicine (Scenario.prescribe_env None) Scenario.userX
           (Scenario.prescribe ["med-A"; "med-A"]) Scenario.w_ongoing Scenario.doctorX
           (Scenario.cons_1 ongoing)).
  - unfold may_prescribe. repeat split; try reflexivity. right. reflexivity.
  - reflexivity.
  - unfold medicine_ids_unique. simpl.
    repeat constructor; simpl; intuition discriminate.
  - simpl. intro Hnd. inversion Hnd as [|x l Hnotin _]; subst.
    apply Hnotin. left. reflexivity.
Defined.

(** The scenario of the specification for prescriptions: two medicines
    in stock are prescribed with 201, and the repeated call is refused
    with 409. *)
Lemma createPrescription_scenario :
  let w := mkWorld [] [] [Scenario.doctorX] [] [Scenario.cons_1 ongoing] [] [] []
                   [Scenario.med_A; mkMedicine "med-B" "Ibuprofen" true] [] in
  exists r w',
    prescriptionController.createPrescription (Scenario.prescribe_env None)
      (Some Scenario.userX) (Scenario.prescribe ["med-A"; "med-B"]) w
    = (Returned r, w')
    /\ res_status r = 201
    /\ aprescriptions w' = [Scenario.presc_1]
    /\ length (aprescription_items w') = 2
    /\ prescriptionController.createPrescription (Scenario.prescribe_env None)
         (Some Scenario.userX) (Scenario.prescribe ["med-A"; "med-B"]) w'
       = (Thrown (AppError "Prescription already exists for this consultation" 409), w').
Proof.
  eexists. eexists. split; [vm_compute; reflexivity|].
  repeat split; vm_compute; reflexivity.
Qed.

(* ================================================================== *)
(** ** register and login *)
(* ================================================================== *)

Section Accounts.
Import authController.

Variable bcrypt_hash : string -> nat -> string.
Variable bcrypt_compare : string -> string -> bool.
Variable jwt_sign : AuthUser -> string -> string -> string.
Variable JWT_SECRET : string.
Variable env_JWT_EXPIRES_IN : option string.

Abbreviation register := (register bcrypt_hash jwt_sign JWT_SECRET env_JWT_EXPIRES_IN).
Abbreviation login := (login bcrypt_compare jwt_sign JWT_SECRET env_JWT_EXPIRES_IN).
Abbreviation generateToken := (generateToken jwt_sign JWT_SECRET env_JWT_EXPIRES_IN).

Lemma register_conflict (env : RegisterEnv) (d : RegisterData) (w : World) (x : User) :
  existing_user env d w = Some x ->
  register env d w = (Thrown (AppError "User with this email already exists" 409), w).
Proof.
  unfold existing_user, authController.register, bind, select_single.
  destruct (rg_existing_fault env); intro H; [discriminate H|].
  change (rows from_ausers w) with (ausers w).
  destruct (single _); [reflexivity | discriminate H].
Qed.

Lemma register_profile_refused (env : RegisterEnv) (d : RegisterData) (w : World) :
  existing_user env d w = None ->
  rg_user_fault env = None ->
  existsb (fun r => user_id r =? rg_new_id env) (ausers w) = false ->
  rg_profile_fault env <> None ->
  rg_rollback_fault env = None ->
  register env d w = (Thrown (AppError "Failed to create user profile" 500), w).
Proof.
  intros Hex Huf Hfresh Hpf Hrf.
  unfold authController.register.
  unfold bind at 1, select_single.
  assert (Hnone : data (match rg_existing_fault env with
                        | Some m => PgError m
                        | None => single (filter (fun r => user_email r =? reg_email d)
                                                 (rows from_ausers w))
                        end) = None).
  { unfold existing_user in Hex. destruct (rg_existing_fault env); [reflexivity | exact Hex]. }
  destruct (rg_existing_fault env); cbn [data] in *; try rewrite Hnone.
  all: unfold bind at 1, insert_keyed; rewrite Huf;
    change (rows from_ausers w) with (ausers w); cbn [user_id]; rewrite Hfresh;
    unfold bind at 1, insert;
    destruct (rg_profile_fault env) as [m|]; [|contradiction Hpf; reflexivity];
    cbn [error]; unfold bind, delete, throw; rewrite Hrf;
    cbn [rows put from_ausers ausers set_ausers user_id];
    pose proof (filter_out_fresh user_id (ausers w)
                  (mkUser (rg_new_id env) (reg_email d) (reg_phone d)
                          (bcrypt_hash (reg_password d) 10) (reg_role d)
                          (rg_is_active env) None)) as Hdel;
    cbn [user_id] in Hdel; rewrite (Hdel Hfresh);
    unfold set_ausers; cbn; rewrite world_eta; reflexivity.
Qed.

(** Whatever makes [register] throw, the user and profile tables are
    afterwards what they were before, provided the store carries out
    the compensating delete. *)
Lemma register_failure_leaves_no_rows (env : RegisterEnv) (d : RegisterData)
    (w w' : World) (e : Exn) :
  rg_rollback_fault env = None ->
  register env d w = (Thrown e, w') ->
  ausers w' = ausers w /\ aprofiles w' = aprofiles w.
Proof.
  intros Hrf Hrun.
  unfold authController.register, bind, select_single, insert_keyed, insert, delete,
    throw, ret, console_error in Hrun.
  rewrite Hrf in Hrun.
  repeat (destruct_innermost Hrun; cbn [data error] in Hrun);
    try discriminate Hrun;
    try (injection Hrun as _ <-; split; reflexivity).
  all: injection Hrun as _ <-.
  all: cbn [rows put from_ausers from_aprofiles ausers aprofiles set_ausers set_aprofiles
            user_id].
  all: split; [|reflexivity].
  all: match goal with
       | Hfresh : existsb _ _ = false |- _ =>
           apply (filter_out_fresh user_id) in Hfresh; exact Hfresh
       end.
Qed.

Lemma In_filter_other {A} (key : A -> string) (l : list A) (x r : A) :
  In r l -> existsb (fun y => key y =? key x) l = false ->
  In r (filter (fun y => negb (key y =? key x)) (l ++ [x])).
Proof.
  intros Hr Hfresh. apply filter_In. split; [apply in_or_app; left; exact Hr|].
  rewrite (existsb_false_forall _ l Hfresh r Hr). reflexivity.
Qed.

(** [register] keeps every profile row with its user row, on every
    path and whatever the store does. *)
Lemma register_no_orphan (env : RegisterEnv) (d : RegisterData) (w w' : World)
    (r : Completion (Response AuthData)) :
  no_orphan_profile w ->
  register env d w = (r, w') ->
  no_orphan_profile w'.
Proof.
  intros Hinv Hrun.
  unfold authController.register, bind, select_single, insert_keyed, insert, delete,
    throw, ret, console_error in Hrun.
  repeat (destruct_innermost Hrun; cbn [data error] in Hrun);
    try discriminate Hrun;
    injection Hrun as _ <-; try exact Hinv.
  all: cbn [rows from_ausers user_id] in *.
  all: unfold no_orphan_profile in *;
    cbn [rows put from_ausers from_aprofiles ausers aprofiles set_ausers set_aprofiles
         set_console user_id];
    intros p Hp.
  all: try (apply in_app_or in Hp; destruct Hp as [Hp | [<- | []]];
            [destruct (Hinv p Hp) as (usr & Hu & Hid); exists usr;
             split; [apply in_or_app; left; exact Hu | exact Hid]
            |eexists; split; [apply in_or_app; right; left; reflexivity | reflexivity]]).
  all: try (destruct (Hinv p Hp) as (usr & Hu & Hid); exists usr; split; [|exact Hid];
            first [ exact Hu
                  | apply in_or_app; left; exact Hu
                  | match goal with
                    | |- In _ (filter _ (_ ++ [?x])) =>
                        apply (In_filter_other user_id _ x); assumption
                    end ]).
Qed.

(** C7: with a user of that email found, [register] fails with 409
    and writes nothing.  When the user insert succeeded and the profile
    insert fails, the handler deletes the user it created and fails
    with 500, and the store is as it was.  On every path a store where
    each profile has its user stays so, and after any failure the user
    and profile tables are what they were before the request. *)
Theorem register_failures (env : RegisterEnv) (d : RegisterData) (w : World) :
  (forall x, existing_user env d w = Some x ->
   register env d w = (Thrown (AppError "User with this email already exists" 409), w))
  /\ (existing_user env d w = None ->
      rg_user_fault env = None ->
      existsb (fun r => user_id r =? rg_new_id env) (ausers w) = false ->
      rg_profile_fault env <> None ->
      rg_rollback_fault env = None ->
      register env d w = (Thrown (AppError "Failed to create user profile" 500), w))
  /\ (forall r w', no_orphan_profile w -> register env d w = (r, w') ->
      no_orphan_profile w')
  /\ (forall e w', rg_rollback_fault env = None -> register env d w = (Thrown e, w') ->
      ausers w' = ausers w /\ aprofiles w' = aprofiles w).
Proof.
  split; [apply register_conflict|].
  split; [apply register_profile_refused|].
  split.
  - intros r w' Hinv Hrun. apply (register_no_orphan env d w w' r Hinv Hrun).
  - intros e w' Hrf Hrun. apply (register_failure_leaves_no_rows env d w w' e Hrf Hrun).
Qed.

Lemma login_lookup_run (env : LoginEnv) (d : LoginData) (w : World) :
  select_single from_ausers (lg_select_fault env)
    (fun r => user_email r =? login_email d) w
  = (Returned (match lg_select_fault env with
               | Some m => PgError m
               | None => single (filter (fun r => user_email r =? login_email d) (ausers w))
               end), w).
Proof. unfold select_single. destruct (lg_select_fault env); reflexivity. Qed.

(** Runs the user query of [login] on a lookup known to succeed. *)
Ltac login_loaded Hl :=
  unfold authController.login, login_lookup in *;
  unfold bind at 1; rewrite login_lookup_run;
  destruct (lg_select_fault _); [discriminate Hl|];
  destruct (single _); simpl in Hl; [|discriminate Hl];
  injection Hl as ->; cbn [data].

Lemma login_unknown (env : LoginEnv) (d : LoginData) (w : World) :
  login_lookup env d w = None ->
  login env d w = (Thrown (AppError "Invalid email or password" 401), w).
Proof.
  intro Hl. unfold authController.login, login_lookup in *.
  unfold bind at 1. rewrite login_lookup_run.
  destruct (lg_select_fault env); [reflexivity|].
  destruct (single _); simpl in Hl; [discriminate Hl | reflexivity].
Qed.

Lemma login_deactivated (env : LoginEnv) (d : LoginData) (w : World) (u : User) :
  login_lookup env d w = Some u ->
  user_is_active u = false ->
  login env d w = (Thrown (AppError "Account is deactivated" 403), w).
Proof. intros Hl Hact. login_loaded Hl. rewrite Hact. reflexivity. Qed.

Lemma login_wrong_password (env : LoginEnv) (d : LoginData) (w : World) (u : User) :
  login_lookup env d w = Some u ->
  user_is_active u = true ->
  bcrypt_compare (login_password d) (user_password_hash u) = false ->
  login env d w = (Thrown (AppError "Invalid email or password" 401), w).
Proof. intros Hl Hact Hpw. login_loaded Hl. rewrite Hact, Hpw. reflexivity. Qed.

Lemma login_success (env : LoginEnv) (d : LoginData) (w : World) (u : User) :
  login_lookup env d w = Some u ->
  user_is_active u = true ->
  bcrypt_compare (login_password d) (user_password_hash u) = true ->
  login env d w
  = (Returned (mkResponse 200 (Some "Login successful")
                 (mkAuthData (mkAuthUser (user_id u) (user_email u) (user_role u))
                             (generateToken (user_id u) (user_email u) (user_role u)))),
     after_login env u w).
Proof.
  intros Hl Hact Hpw. login_loaded Hl. rewrite Hact, Hpw. cbn [negb].
  unfold bind, update, ret, after_login.
  destruct (lg_update_fault env); reflexivity.
Qed.

(** C8, as the code has it: an unknown email and a wrong password on an
    active account both give 401 with the one message "Invalid email or
    password"; an account that is found and deactivated gives 403
    before the password is looked at, so also with a wrong password;
    403 is given in no other case; a successful login answers 200 with
    the signed token and, when the store accepts the update, sets the
    last-login time of the user.  No refusal writes to the store. *)
Theorem login_outcomes (env : LoginEnv) (d : LoginData) (w : World) :
  (login_lookup env d w = None ->
   login env d w = (Thrown (AppError "Invalid email or password" 401), w))
  /\ (forall u, login_lookup env d w = Some u -> user_is_active u = false ->
      login env d w = (Thrown (AppError "Account is deactivated" 403), w))
  /\ (forall u, login_lookup env d w = Some u -> user_is_active u = true ->
      bcrypt_compare (login_password d) (user_password_hash u) = false ->
      login env d w = (Thrown (AppError "Invalid email or password" 401), w))
  /\ (forall u, login_lookup env d w = Some u -> user_is_active u = true ->
      bcrypt_compare (login_password d) (user_password_hash u) = true ->
      login env d w
      = (Returned (mkResponse 200 (Some "Login successful")
                     (mkAuthData (mkAuthUser (user_id u) (user_email u) (user_role u))
                                 (generateToken (user_id u) (user_email u) (user_role u)))),
         after_login env u w)
      /\ (lg_update_fault env = None ->
          forall r, In r (ausers (after_login env u w)) -> user_id r = user_id u ->
                    user_last_login r = Some (lg_now env)))
  /\ (forall m w', login env d w = (Thrown (AppError m 403), w') ->
      exists u, login_lookup env d w = Some u /\ user_is_active u = false).
Proof.
  split; [apply login_unknown|].
  split; [apply login_deactivated|].
  split; [apply login_wrong_password|].
  split.
  - intros u Hl Hact Hpw. split; [apply login_success; assumption|].
    intros Huf r Hr Hid. unfold after_login in Hr. rewrite Huf in Hr.
    cbn [ausers set_ausers] in Hr. apply in_map_iff in Hr.
    destruct Hr as (r0 & Hr0 & _).
    destruct (String.eqb_spec (user_id r0) (user_id u)) as [E|E].
    + rewrite <- Hr0. reflexivity.
    + exfalso. apply E. rewrite Hr0. exact Hid.
  - intros m w' Hrun.
    destruct (login_lookup env d w) as [u|] eqn:Hl.
    + exists u. split; [reflexivity|].
      destruct (user_is_active u) eqn:Hact; [exfalso | reflexivity].
      destruct (bcrypt_compare (login_password d) (user_password_hash u)) eqn:Hpw.
      * rewrite (login_success env d w u Hl Hact Hpw) in Hrun. discriminate Hrun.
      * rewrite (login_wrong_password env d w u Hl Hact Hpw) in Hrun. discriminate Hrun.
    + rewrite (login_unknown env d w Hl) in Hrun. discriminate Hrun.
Qed.

End Accounts.

Lemma register_failures_witness :
  authController.register Scenario.bcrypt_hash Scenario.jwt_sign "secret" None
    (Scenario.register_env None) (Scenario.register_request "a@mail.example")
    Scenario.w_accounts
  = (Thrown (AppError "User with this email already exists" 409), Scenario.w_accounts)
  /\ authController.register Scenario.bcrypt_hash Scenario.jwt_sign "secret" None
       (Scenario.register_env (Some "timeout")) (Scenario.register_request "n@mail.example")
       Scenario.w_accounts
     = (Thrown (AppError "Failed to create user profile" 500), Scenario.w_accounts).
Proof.
  split.
  - destruct (register_failures Scenario.bcrypt_hash Scenario.jwt_sign "secret" None
                (Scenario.register_env None) (Scenario.register_request "a@mail.example")
                Scenario.w_accounts) as (Hconflict & _).
    apply (Hconflict (Scenario.account "user-A" "a@mail.example" true)). reflexivity.
  - destruct (register_failures Scenario.bcrypt_hash Scenario.jwt_sign "secret" None
                (Scenario.register_env (Some "timeout"))
                (Scenario.register_request "n@mail.example") Scenario.w_accounts)
      as (_ & Hprofile & _).
    apply Hprofile; try reflexivity. simpl. discriminate.
Defined.

(** A registration that goes through: one user row, one profile row
    for it, 201 and the token. *)
Lemma register_success_example :
  authController.register Scenario.bcrypt_hash Scenario.jwt_sign "secret" None
    (Scenario.register_env None) (Scenario.register_request "n@mail.example")
    Scenario.w_accounts
  = (Returned (mkResponse 201 (Some "User registered successfully")
                 (authController.mkAuthData
                    (mkAuthUser "user-N" "n@mail.example" role_user) "jwt:user-N:7d")),
     mkWorld (ausers Scenario.w_accounts
              ++ [mkUser "user-N" "n@mail.example" None "bcrypt:correct-horse"
                         role_user true None])
             [mkProfile "user-N" "Nora" "Novak" None None] [] [] [] [] [] [] [] []).
Proof. vm_compute. reflexivity. Qed.

(** C8 as stated fails on the code: a wrong password sent to the
    deactivated account of the scenario is answered 403 "Account is
    deactivated", while the same wrong password is answered 401 for an
    email without account and for the active account: the answer tells
    a deactivated account from the other two. *)
Lemma login_wrong_password_reveals_deactivated :
  Scenario.bcrypt_compare "wrong" "bcrypt:correct-horse" = false
  /\ authController.login Scenario.bcrypt_compare Scenario.jwt_sign "secret" None
       Scenario.login_env (authController.mkLoginData "d@mail.example" "wrong")
       Scenario.w_accounts
     = (Thrown (AppError "Account is deactivated" 403), Scenario.w_accounts)
  /\ authController.login Scenario.bcrypt_compare Scenario.jwt_sign "secret" None
       Scenario.login_env (authController.mkLoginData "nobody@mail.example" "wrong")
       Scenario.w_accounts
     = (Thrown (AppError "Invalid email or password" 401), Scenario.w_accounts)
  /\ authController.login Scenario.bcrypt_compare Scenario.jwt_sign "secret" None
       Scenario.login_env (authController.mkLoginData "a@mail.example" "wrong")
       Scenario.w_accounts
     = (Thrown (AppError "Invalid email or password" 401), Scenario.w_accounts).
Proof. repeat split; vm_compute; reflexivity. Qed.

Lemma login_outcomes_witness :
  authController.login Scenario.bcrypt_compare Scenario.jwt_sign "secret" None
    Scenario.login_env (authController.mkLoginData "a@mail.example" "correct-horse")
    Scenario.w_accounts
  = (Returned (mkResponse 200 (Some "Login successful")
                 (authController.mkAuthData
                    (mkAuthUser "user-A" "a@mail.example" role_user) "jwt:user-A:7d")),
     after_login Scenario.login_env (Scenario.account "user-A" "a@mail.example" true)
       Scenario.w_accounts)
  /\ authController.login Scenario.bcrypt_compare Scenario.jwt_sign "secret" None
       Scenario.login_env (authController.mkLoginData "d@mail.example" "correct-horse")
       Scenario.w_accounts
     = (Thrown (AppError "Account is deactivated" 403), Scenario.w_accounts).
Proof.
  split.
  - destruct (login_outcomes Scenario.bcrypt_compare Scenario.jwt_sign "secret" None
                Scenario.login_env (authController.mkLoginData "a@mail.example" "correct-horse")
                Scenario.w_accounts) as (_ & _ & _ & Hok & _).
    apply (Hok (Scenario.account "user-A" "a@mail.example" true)); reflexivity.
  - destruct (login_outcomes Scenario.bcrypt_compare Scenario.jwt_sign "secret" None
                Scenario.login_env (authController.mkLoginData "d@mail.example" "correct-horse")
                Scenario.w_accounts) as (_ & Hdeact & _).
    apply (Hdeact (Scenario.account "user-D" "d@mail.example" false)); reflexivity.
Defined.

(* ================================================================== *)
(** ** updateSlot *)
(* ================================================================== *)

Section UpdateSlot.
Import slotController.

Lemma may_update_slot_check (actor : AuthUser) (slot : AvailabilitySlot) (w : World) :
  may_update_slot actor slot w ->
  UserRole_eqb (auth_role actor) role_doctor
  && negb (option_string_eqb
             (option_map doctor_user_id
                (find (fun x => doctor_id x =? slot_doctor_id slot) (adoctors w)))
             (auth_id actor)) = false.
Proof.
  intros [Hadmin | (Hdoc & doc & Hfind & Hown)].
  - rewrite Hadmin. reflexivity.
  - rewrite Hdoc, Hfind. simpl. rewrite Hown, String.eqb_refl. reflexivity.
Qed.

(** Runs [updateSlot] up to the update itself. *)
Ltac update_slot_loaded Hparse Hsf Hrow Hmay :=
  unfold updateSlot; rewrite Hparse;
  unfold bind at 1, select_single; rewrite Hsf;
  change (rows from_aavailability_slots ?w) with (aavailability_slots w);
  rewrite Hrow; cbn [single data];
  unfold bind at 1, embed_adoctors at 1;
  rewrite (may_update_slot_check _ _ _ Hmay);
  unfold bind at 1, update.

(** The object of a request that carries a date or a time names a key
    the slot table has no column for. *)
Lemma date_time_keys_refused (d : UpdateSlotData) :
  upd_slotDate d <> None \/ upd_startTime d <> None \/ upd_endTime d <> None ->
  UpdateSlotData_object d <> []
  /\ exists m, patch_of aavailability_slots_set (UpdateSlotData_object d) = PgError m.
Proof.
  destruct d as [[a|] [b|] [c|] [st|]]; intro H; cbn;
    try (split; [discriminate | eexists; reflexivity]);
    try destruct st; cbn;
    try (split; [discriminate | eexists; reflexivity]);
    exfalso; destruct H as [H | [H | H]]; apply H; reflexivity.
Qed.

(** A valid request that carries a date or a time is answered 500 by
    [updateSlot] and changes nothing, for every slot and for every
    actor who may update it. *)
Lemma updateSlot_date_time_refused (env : UpdateSlotEnv) (actor : AuthUser)
    (id : string) (body : UpdateSlotData) (w : World) (slot : AvailabilitySlot) :
  updateSlotSchema_parse body = Some body ->
  us_select_fault env = None ->
  filter (fun r => slot_id r =? id) (aavailability_slots w) = [slot] ->
  may_update_slot actor slot w ->
  upd_slotDate body <> None \/ upd_startTime body <> None \/ upd_endTime body <> None ->
  updateSlot env (Some actor) id body w
  = (Thrown (AppError "Failed to update slot" 500), w).
Proof.
  intros Hparse Hsf Hrow Hmay Hkeys.
  update_slot_loaded Hparse Hsf Hrow Hmay.
  destruct (us_update_fault env); [reflexivity|].
  destruct (date_time_keys_refused body Hkeys) as (Hne & m & Hm).
  destruct (UpdateSlotData_object body) eqn:E; [contradiction Hne; reflexivity|].
  rewrite Hm. reflexivity.
Qed.

(** The status half of C10 holds on the code: [updateSlot] looks at the
    owner of the slot and never at its status.  For a slot of any status, booked
    included, the doctor who owns it or an admin sets the status to any
    of the three values with a request that carries the status alone;
    the answer is 200 with the updated row, and no other table is
    touched, so a booked slot becomes available while the consultation
    that references it stays as it is. *)
Theorem updateSlot_sets_any_status (env : UpdateSlotEnv) (actor : AuthUser)
    (id : string) (st : AvailabilityStatus) (w : World) (slot : AvailabilitySlot) :
  us_select_fault env = None ->
  us_update_fault env = None ->
  filter (fun r => slot_id r =? id) (aavailability_slots w) = [slot] ->
  may_update_slot actor slot w ->
  updateSlot env (Some actor) id (status_only st) w
  = (Returned (mkResponse 200 (Some "Slot updated successfully") (set_slot_status st slot)),
     set_aavailability_slots (mark_slot st id (aavailability_slots w)) w)
  /\ filter (fun r => slot_id r =? id)
            (aavailability_slots
               (set_aavailability_slots (mark_slot st id (aavailability_slots w)) w))
     = [set_slot_status st slot]
  /\ aconsultations (set_aavailability_slots (mark_slot st id (aavailability_slots w)) w)
     = aconsultations w.
Proof.
  intros Hsf Huf Hrow Hmay.
  split; [|split; [|reflexivity]].
  - assert (Hparse : updateSlotSchema_parse (status_only st) = Some (status_only st))
      by reflexivity.
    update_slot_loaded Hparse Hsf Hrow Hmay.
    rewrite Huf.
    change (UpdateSlotData_object (status_only st))
      with [("status", AvailabilityStatus_to_string st)].
    cbv iota. rewrite (patch_slot_status st).
    change (rows from_aavailability_slots w) with (aavailability_slots w).
    rewrite Hrow. reflexivity.
  - cbn [aavailability_slots set_aavailability_slots]. unfold mark_slot.
    apply (filter_map_update (fun r => slot_id r =? id)); [reflexivity | exact Hrow].
Qed.

End UpdateSlot.

Lemma updateSlot_sets_any_status_witness :
  slotController.updateSlot (slotController.mkUpdateSlotEnv None None) (Some Scenario.userX)
    "slot-1" (status_only available) (Scenario.w_consultation scheduled booked)
  = (Returned (mkResponse 200 (Some "Slot updated successfully") Scenario.slot_0900),
     Scenario.w_consultation scheduled available).
Proof.
  apply (updateSlot_sets_any_status (slotController.mkUpdateSlotEnv None None)
           Scenario.userX "slot-1" available (Scenario.w_consultation scheduled booked)
           (set_slot_status booked Scenario.slot_0900)).
  - reflexivity.
  - reflexivity.
  - reflexivity.
  - right. split; [reflexivity|]. exists Scenario.doctorX. split; reflexivity.
Defined.

(** C10: the code misses what the claim says in its parenthesis.  A
    request of the owning doctor that carries a new start and end time
    (or a new date with a status) passes [updateSlotSchema], which has
    the keys [slotDate], [startTime] and [endTime] for this, and is
    answered 500 "Failed to update slot": the handler hands the parsed
    object to the store under those keys, and the columns are
    [slot_date], [start_time] and [end_time].  The slot keeps its date,
    its times and its status. *)
Lemma updateSlot_cannot_change_times :
  updateSlotSchema_parse (mkUpdateSlotData None (Some "10:00:00") (Some "10:30:00") None)
  = Some (mkUpdateSlotData None (Some "10:00:00") (Some "10:30:00") None)
  /\ slotController.updateSlot (slotController.mkUpdateSlotEnv None None)
       (Some Scenario.userX) "slot-1"
       (mkUpdateSlotData None (Some "10:00:00") (Some "10:30:00") None)
       (Scenario.w_consultation scheduled booked)
     = (Thrown (AppError "Failed to update slot" 500),
        Scenario.w_consultation scheduled booked)
  /\ slotController.updateSlot (slotController.mkUpdateSlotEnv None None)
       (Some Scenario.userX) "slot-1"
       (mkUpdateSlotData (Some "2025-03-02") None None (Some available))
       (Scenario.w_consultation scheduled booked)
     = (Thrown (AppError "Failed to update slot" 500),
        Scenario.w_consultation scheduled booked).
Proof. repeat split; vm_compute; reflexivity. Qed.

Lemma bookConsultation_guard_order_witness :
  consultationController.bookConsultation Scenario.Date_parse
    (Scenario.book_env None None) (Some Scenario.patientP) Scenario.book_request
    (Scenario.w_consultation scheduled booked)
  = (Thrown (AppError "This slot is not available for booking" 400),
     Scenario.w_consultation scheduled booked).
Proof.
  destruct (bookConsultation_guard_order Scenario.Date_parse (Scenario.book_env None None)
              Scenario.patientP Scenario.book_request
              (Scenario.w_consultation scheduled booked)) as (_ & Hstate & _).
  apply (Hstate (set_slot_status booked Scenario.slot_0900)).
  - reflexivity.
  - simpl. discriminate.
Defined.

(* ================================================================== *)
(** ** Store calls whose outcome the handlers do not look at *)
(* ================================================================== *)

(** The overlap query of [createSlot]: when it fails, the check is
    skipped and the overlapping slot is inserted. *)
Lemma createSlot_overlap_query_unchecked :
  exists w',
    slotController.createSlot
      (slotController.mkCreateSlotEnv None (Some "timeout") None "slot-2")
      (Some Scenario.userX) (mkCreateSlotData "2025-03-01" "09:15:00" "09:45:00")
      Scenario.w1
    = (Returned (mkResponse 201 (Some "Availability slot created successfully")
                   (mkSlot "slot-2" "doc-X" "2025-03-01" "09:15:00" "09:45:00" available
                           (Some "user-X"))), w')
    /\ length (aavailability_slots w') = 2.
Proof. eexists. split; vm_compute; reflexivity. Qed.

(** The slot update of [cancelConsultation]: when it fails, the answer
    is still 200 and the slot stays booked. *)
Lemma cancelConsultation_slot_update_unchecked :
  consultationController.cancelConsultation
    (consultationController.mkCancelEnv None None (Some "timeout"))
    (Some Scenario.patientP) "cons-1" (Scenario.w_consultation scheduled booked)
  = (Returned (mkResponse 200 (Some "Consultation cancelled successfully") tt),
     Scenario.w_consultation cancelled booked).
Proof. vm_compute. reflexivity. Qed.

(** The compensating delete of [bookConsultation]: when it fails as
    well, the scheduled consultation stays on a slot that is still
    available. *)
Lemma bookConsultation_rollback_unchecked :
  consultationController.bookConsultation Scenario.Date_parse
    (consultationController.mkBookEnv None None "cons-1" (Some "timeout") (Some "timeout")
       None Scenario.now)
    (Some Scenario.patientP) Scenario.book_request Scenario.w1
  = (Thrown (AppError "Failed to book slot" 500),
     Scenario.w_consultation scheduled available).
Proof. vm_compute. reflexivity. Qed.

(* ================================================================== *)
(** ** Tables with a key *)
(* ================================================================== *)

(** With distinct keys, the first row under a key is the row. *)
Lemma find_row_of_key {R} (key : R -> string) (table : list R) (row : R) :
  NoDup (map key table) -> In row table ->
  find (fun other => key other =? key row) table = Some row.
Proof.
  induction table as [|first table IH]; simpl; intros Hkeys Hin; [destruct Hin|].
  inversion Hkeys as [|k ks Hnew Hrest]; subst.
  destruct Hin as [-> | Hin].
  - rewrite String.eqb_refl. reflexivity.
  - destruct (String.eqb_spec (key first) (key row)) as [E|E].
    + exfalso. apply Hnew. rewrite E. apply in_map. exact Hin.
    + apply IH; assumption.
Qed.

(** With distinct keys, a key selects one row at most. *)
Lemma rows_of_key_at_most_one {R} (key : R -> string) (table : list R) (k : string) :
  NoDup (map key table) ->
  filter (fun row => key row =? k) table = []
  \/ exists row, filter (fun row => key row =? k) table = [row].
Proof.
  induction table as [|first table IH]; simpl; intro Hkeys; [left; reflexivity|].
  inversion Hkeys as [|k0 ks Hnew Hrest]; subst.
  destruct (String.eqb_spec (key first) k) as [E|E].
  - right. exists first. f_equal.
    destruct (filter (fun row => key row =? k) table) as [|other rest] eqn:F;
      [reflexivity|].
    exfalso. apply Hnew.
    assert (Hin : In other (filter (fun row => key row =? k) table))
      by (rewrite F; left; reflexivity).
    apply filter_In in Hin. destruct Hin as (Hin & Hk).
    apply String.eqb_eq in Hk. rewrite E, <- Hk. apply in_map. exact Hin.
  - apply IH. exact Hrest.
Qed.

(** With distinct keys, a [.single()] that finds nothing means that no
    row has the key. *)
Lemma single_none_absent {R} (key : R -> string) (table : list R) (k : string) :
  NoDup (map key table) ->
  data (single (filter (fun row => key row =? k) table)) = None ->
  ~ In k (map key table).
Proof.
  intros Hkeys Hnone Hin.
  destruct (rows_of_key_at_most_one key table k Hkeys) as [F | (row & F)].
  - apply in_map_iff in Hin. destruct Hin as (row & Hk & Hrow).
    assert (H : In row (filter (fun r => key r =? k) table)).
    { apply filter_In. split; [exact Hrow | rewrite Hk; apply String.eqb_refl]. }
    rewrite F in H. destruct H.
  - rewrite F in Hnone. discriminate Hnone.
Qed.

Lemma keys_stay_distinct {R} (key : R -> string) (table : list R) (row : R) :
  NoDup (map key table) -> ~ In (key row) (map key table) ->
  NoDup (map key (table ++ [row])).
Proof.
  intros Hkeys Hnew. rewrite map_app. simpl.
  apply NoDup_app; [exact Hkeys | repeat constructor; intros [] | ].
  intros k Hk [<- | []]. exact (Hnew Hk).
Qed.

(* ================================================================== *)
(** ** deleteSlot *)
(* ================================================================== *)

Section DeleteSlot.
Import slotController slotController_rest.

(** X1: [deleteSlot] never removes a booked slot, whoever asks and
    whatever the store does, and a request it refuses leaves the store
    as it was. *)
Theorem deleteSlot_keeps_booked (env : DeleteSlotEnv) (user : option AuthUser)
    (slotId : string) (w w' : World) (r : Completion (Response unit)) :
  deleteSlot env user slotId w = (r, w') ->
  (forall e, r = Thrown e -> w' = w)
  /\ (forall s, In s (aavailability_slots w) -> slot_status s = booked ->
                In s (aavailability_slots w')).
Proof.
  intro Hrun. unfold deleteSlot in Hrun.
  destruct user as [u|]; [|injection Hrun as <- <-; split; [reflexivity | auto]].
  unfold bind, select_single, embed_adoctors, delete, throw, ret in Hrun.
  repeat (destruct_innermost Hrun; cbn [data error] in Hrun);
    try discriminate Hrun;
    try (injection Hrun as <- <-; split; [reflexivity | auto]).
  injection Hrun as <- <-. split; [intros e He; discriminate He|].
  intros s Hs Hbooked.
  cbn [rows put from_aavailability_slots aavailability_slots set_aavailability_slots] in *.
  apply filter_In. split; [exact Hs|].
  destruct (String.eqb_spec (slot_id s) slotId) as [E|E]; [exfalso | reflexivity].
  match goal with
  | Hone : data (single _) = Some ?found, Hst : AvailabilityStatus_eqb _ booked = false |- _ =>
      apply single_data_inv in Hone;
      assert (Hsame : s = found)
        by (apply (filter_singleton_In _ _ _ _ Hone Hs); rewrite E; apply String.eqb_refl);
      rewrite <- Hsame, Hbooked in Hst; discriminate Hst
  end.
Qed.

(** X2: a slot that [createSlot] created is deleted again by
    [deleteSlot] on request of the same user, and the store is then
    what it was before the slot was created. *)
Theorem createSlot_deleteSlot_round_trip (env : CreateSlotEnv) (denv : DeleteSlotEnv)
    (u : AuthUser) (body : CreateSlotData) (w w1 : World)
    (created : Response AvailabilitySlot) :
  NoDup (map doctor_id (adoctors w)) ->
  dl_select_fault denv = None -> dl_delete_fault denv = None ->
  createSlot env (Some u) body w = (Returned created, w1) ->
  deleteSlot denv (Some u) (slot_id (res_data created)) w1
  = (Returned (mkResponse 200 (Some "Slot deleted successfully") tt), w).
Proof.
  intros Hkeys Hsf Hdf Hrun. unfold createSlot in Hrun.
  unfold bind, select_single, select, insert_keyed, throw, ret in Hrun.
  repeat (destruct_innermost Hrun; cbn [data error] in Hrun); try discriminate Hrun.
  all: injection Hrun as <- <-.
  all: cbn [rows put from_aavailability_slots from_adoctors aavailability_slots adoctors
            set_aavailability_slots slot_id res_data] in *.
  all: lazymatch goal with
       | Hone : data (single (filter ?mine (adoctors ?store))) = Some ?doctor,
         Hfresh : existsb _ _ = false |- _ =>
           apply single_data_inv in Hone;
           assert (Hin : In doctor (filter mine (adoctors store)))
             by (rewrite Hone; left; reflexivity);
           apply filter_In in Hin; destruct Hin as (Hin & Howner);
           apply String.eqb_eq in Howner;
           unfold deleteSlot, bind, select_single, embed_adoctors, delete, throw, ret;
           rewrite Hsf, Hdf;
           cbn [rows put from_aavailability_slots aavailability_slots adoctors
                set_aavailability_slots];
           lazymatch goal with
           | |- context [_ ++ [?created]] =>
               pose proof (filter_key_fresh slot_id _ created Hfresh) as Hfound;
               pose proof (filter_out_fresh slot_id _ created Hfresh) as Hgone
           end;
           cbn [slot_id] in Hfound, Hgone;
           rewrite Hfound; cbn [single data slot_status slot_doctor_id
                                AvailabilityStatus_eqb adoctors aavailability_slots
                                set_aavailability_slots];
           rewrite (find_row_of_key doctor_id _ _ Hkeys Hin); cbn [option_map];
           rewrite Howner; cbn [option_string_eqb]; rewrite String.eqb_refl;
           rewrite andb_false_r; cbn [error negb];
           cbn [rows put from_aavailability_slots aavailability_slots
                set_aavailability_slots];
           rewrite Hgone;
           unfold set_aavailability_slots; cbn; rewrite world_eta; reflexivity
       end.
Qed.

End DeleteSlot.

(* ================================================================== *)
(** ** Bookings, one after another *)
(* ================================================================== *)

Section BookingSequences.
Import consultationController slotController_rest.

Variable Date_parse : string -> option Z.

(** A booking that returned went through every guard and both checked
    writes. *)
Lemma bookConsultation_returned (env : BookEnv) (u : AuthUser)
    (d : BookConsultationData) (w w1 : World) (booked_as : Response Consultation) :
  bookConsultation Date_parse env (Some u) d w = (Returned booked_as, w1) ->
  exists slot doctorInfo,
    guards_pass Date_parse env d w slot
    /\ store_accepts_booking env w
    /\ find (fun x => doctor_id x =? slot_doctor_id slot) (adoctors w) = Some doctorInfo
    /\ booked_as = mkResponse 201 (Some "Consultation booked successfully")
                     (new_consultation env u d slot)
    /\ w1 = after_booking env u d slot doctorInfo w.
Proof.
  intro Hrun.
  destruct (slot_lookup env d w) as [slot|] eqn:Hl;
    [|rewrite (bookConsultation_not_found Date_parse env u d w Hl) in Hrun;
      discriminate Hrun].
  destruct (bookConsultation_found Date_parse env u d w slot Hl) as (Hst & Hdoc & Hpast).
  destruct (AvailabilityStatus_eqb (slot_status slot) available) eqn:Eav;
    [apply AvailabilityStatus_eqb_eq in Eav
    |rewrite Hst in Hrun; [discriminate Hrun | intro E; rewrite E in Eav; discriminate Eav]].
  destruct (String.eqb_spec (slot_doctor_id slot) (doctorId d)) as [Ed|Ed];
    [|rewrite (Hdoc Eav Ed) in Hrun; discriminate Hrun].
  destruct (in_the_past Date_parse slot (bk_now env)) eqn:Ep;
    [rewrite (Hpast Eav Ed eq_refl) in Hrun; discriminate Hrun|].
  assert (Hg : guards_pass Date_parse env d w slot) by (unfold guards_pass; auto).
  destruct (bk_insert_fault env) as [m|] eqn:Hif.
  { rewrite (bookConsultation_insert_refused Date_parse env u d w slot Hg) in Hrun;
      [discriminate Hrun | left; rewrite Hif; discriminate]. }
  destruct (existsb (fun c => consultation_id c =? bk_new_id env) (aconsultations w))
    eqn:Hfresh.
  { rewrite (bookConsultation_insert_refused Date_parse env u d w slot Hg) in Hrun;
      [discriminate Hrun | right; exact Hfresh]. }
  destruct (bk_slot_update_fault env) as [m|] eqn:Huf;
    [|destruct (find (fun x => doctor_id x =? slot_doctor_id slot) (adoctors w))
        as [doctorInfo|] eqn:Hfk].
  2:{ exists slot, doctorInfo.
      assert (Hstore : store_accepts_booking env w)
        by (unfold store_accepts_booking; auto).
      rewrite (bookConsultation_success Date_parse env u d w slot doctorInfo Hg Hstore Hfk)
        in Hrun.
      injection Hrun as <- <-. auto. }
  all: exfalso.
  all: rewrite (bookConsultation_past_guards Date_parse env u d w slot Hg) in Hrun.
  all: unfold bind at 1, insert_keyed in Hrun; rewrite Hif in Hrun;
    change (rows from_aconsultations w) with (aconsultations w) in Hrun;
    unfold new_consultation at 1 in Hrun; cbn [consultation_id] in Hrun;
    rewrite Hfresh in Hrun; cbn [data] in Hrun;
    unfold bind at 1, update in Hrun; rewrite Huf in Hrun.
  - cbn [error] in Hrun. unfold bind, delete, throw in Hrun.
    destruct (bk_rollback_fault env); discriminate Hrun.
  - change "booked" with (AvailabilityStatus_to_string booked) in Hrun.
    cbv iota in Hrun. rewrite (patch_slot_status booked) in Hrun. cbn [error] in Hrun.
    rewrite Hfk in Hrun. discriminate Hrun.
Qed.

Lemma In_insert_by {R} (leb : R -> R -> bool) (x y : R) (l : list R) :
  In y (insert_by leb x l) <-> y = x \/ In y l.
Proof.
  induction l as [|z l IH]; simpl; [intuition|].
  destruct (leb x z); simpl; [intuition|].
  rewrite IH. intuition.
Qed.

(** Ordering neither drops nor invents rows. *)
Lemma In_order {R} (leb : R -> R -> bool) (y : R) (l : list R) :
  In y (order leb l) <-> In y l.
Proof.
  induction l as [|x l IH]; simpl; [reflexivity|].
  rewrite In_insert_by, IH. intuition.
Qed.

Lemma after_booking_slot_row (env : BookEnv) (u : AuthUser) (d : BookConsultationData)
    (w : World) (slot : AvailabilitySlot) (doctorInfo : Doctor) :
  guards_pass Date_parse env d w slot ->
  filter (fun r => slot_id r =? slotId d)
         (aavailability_slots (after_booking env u d slot doctorInfo w))
  = [set_slot_status booked slot].
Proof.
  intros (Hl & _). destruct (slot_lookup_rows env d w slot Hl) as (_ & Hrow).
  rewrite after_booking_slots. unfold mark_slot.
  apply (filter_map_update (fun r => slot_id r =? slotId d)); [reflexivity | exact Hrow].
Qed.


(** X4: a slot whose booking has returned is not among the slots
    [getAvailableSlots] offers, for any doctor and any dates asked. *)
Theorem booked_slot_not_offered (env : BookEnv) (aenv : AvailableSlotsEnv)
    (u : AuthUser) (d : BookConsultationData) (w w1 w2 : World)
    (first : Response Consultation) (doctor : string) (startDate endDate : option string)
    (offered : Response (list AvailabilitySlot)) :
  bookConsultation Date_parse env (Some u) d w = (Returned first, w1) ->
  getAvailableSlots aenv doctor startDate endDate w1 = (Returned offered, w2) ->
  forall s, In s (res_data offered) -> slot_id s <> slotId d.
Proof.
  intros Hrun Hlist s Hs Hid.
  destruct (bookConsultation_returned env u d w w1 first Hrun)
    as (slot & doctorInfo & Hg & _ & _ & _ & ->).
  pose proof (after_booking_slot_row env u d w slot doctorInfo Hg) as Hrow.
  unfold getAvailableSlots, bind, select, throw, ret in Hlist.
  destruct (av_fault aenv); [discriminate Hlist|].
  injection Hlist as <- _. cbn [res_data] in Hs.
  apply In_order in Hs. apply filter_In in Hs. destruct Hs as (Hin & Hkeep).
  change (rows from_aavailability_slots ?x) with (aavailability_slots x) in Hin.
  assert (Hs : s = set_slot_status booked slot).
  { apply (filter_singleton_In _ _ _ _ Hrow Hin). rewrite Hid. apply String.eqb_refl. }
  unfold available_filter in Hkeep. rewrite Hs in Hkeep. cbn in Hkeep.
  rewrite andb_false_r in Hkeep. discriminate Hkeep.
Qed.

(** What [getAvailableSlots] answers depends on the slot table alone. *)
Lemma getAvailableSlots_reads_slots (aenv : AvailableSlotsEnv) (doctor : string)
    (startDate endDate : option string) (w w' : World) :
  aavailability_slots w = aavailability_slots w' ->
  fst (getAvailableSlots aenv doctor startDate endDate w)
  = fst (getAvailableSlots aenv doctor startDate endDate w').
Proof.
  intro H. unfold getAvailableSlots, bind, select, throw, ret.
  destruct (av_fault aenv); [reflexivity|].
  change (rows from_aavailability_slots ?x) with (aavailability_slots x).
  rewrite H. reflexivity.
Qed.

(** X5: when a booking has returned and the cancellation of its
    consultation has returned with the slot update carried out,
    [getAvailableSlots] answers what it answered before the booking. *)
Theorem cancelled_booking_offered_again (env : BookEnv) (cenv : CancelEnv)
    (aenv : AvailableSlotsEnv) (u actor : AuthUser) (d : BookConsultationData)
    (w w1 w2 : World) (first : Response Consultation) (done : Response unit)
    (doctor : string) (startDate endDate : option string) :
  bookConsultation Date_parse env (Some u) d w = (Returned first, w1) ->
  cancelConsultation cenv (Some actor) (consultation_id (res_data first)) w1
  = (Returned done, w2) ->
  cc_slot_update_fault cenv = None ->
  slotId d <> "" ->
  fst (getAvailableSlots aenv doctor startDate endDate w2)
  = fst (getAvailableSlots aenv doctor startDate endDate w).
Proof.
  intros Hrun Hcancel Hslf Hid.
  destruct (bookConsultation_returned env u d w w1 first Hrun)
    as (slot & doctorInfo & Hg & (_ & Hfresh & _) & _ & -> & ->).
  apply getAvailableSlots_reads_slots.
  pose proof Hg as (Hl & Hav & _).
  destruct (slot_lookup_rows env d w slot Hl) as (_ & Hrow).
  cbn [res_data] in Hcancel.
  assert (Hc : filter (fun x => consultation_id x
                                =? consultation_id (new_consultation env u d slot))
                      (aconsultations (after_booking env u d slot doctorInfo w))
               = [new_consultation env u d slot]).
  { rewrite after_booking_consultations.
    apply (filter_key_fresh consultation_id). exact Hfresh. }
  unfold cancelConsultation, bind at 1, select_single in Hcancel.
  destruct (cc_select_fault cenv); [discriminate Hcancel|].
  change (rows from_aconsultations ?x) with (aconsultations x) in Hcancel.
  rewrite Hc in Hcancel. cbn [single data] in Hcancel.
  destruct (UserRole_eqb (auth_role actor) role_user && _); [discriminate Hcancel|].
  cbn [new_consultation consultation_status is_terminal ConsultationStatus_eqb orb]
    in Hcancel.
  unfold bind at 1, update in Hcancel.
  destruct (cc_update_fault cenv); [discriminate Hcancel|].
  change "cancelled" with (ConsultationStatus_to_string cancelled) in Hcancel.
  cbv iota in Hcancel. rewrite (patch_consultation_status cancelled) in Hcancel.
  cbn [error consultation_slot_id new_consultation] in Hcancel.
  assert (Htruthy : truthy (Some (slotId d)) = true).
  { simpl. destruct (String.eqb_spec (slotId d) ""); [contradiction | reflexivity]. }
  rewrite Htruthy in Hcancel.
  unfold bind, update, ret in Hcancel. rewrite Hslf in Hcancel.
  change "available" with (AvailabilityStatus_to_string available) in Hcancel.
  cbv iota in Hcancel. rewrite (patch_slot_status available) in Hcancel.
  injection Hcancel as _ <-.
  cbn [rows put from_aavailability_slots from_aconsultations aavailability_slots
       set_aavailability_slots set_aconsultations].
  rewrite after_booking_slots.
  apply (mark_slot_round_trip (slotId d) slot); assumption.
Qed.

End BookingSequences.

(* ================================================================== *)
(** ** createSlot keeps slots apart *)
(* ================================================================== *)

Section SlotsApart.
Import slotController.

Lemma pairs_with_one_more {R} (apart : R -> R -> Prop) (table : list R) (row : R) :
  ForallOrdPairs apart table ->
  (forall other, In other table -> apart other row) ->
  ForallOrdPairs apart (table ++ [row]).
Proof.
  intros Hpairs Hrow.
  induction Hpairs as [|first table Hfirst Hpairs IH]; simpl.
  - constructor; [constructor | constructor].
  - constructor.
    + apply Forall_app. split; [exact Hfirst|].
      constructor; [apply Hrow; left; reflexivity | constructor].
    + apply IH. intros other Hother. apply Hrow. right. exact Hother.
Qed.

Lemma filter_nil_none {R} (keep : R -> bool) (table : list R) :
  filter keep table = [] -> forall row, In row table -> keep row = false.
Proof.
  intros Hnone row Hrow. destruct (keep row) eqn:E; [|reflexivity].
  assert (H : In row (filter keep table)) by (apply filter_In; split; assumption).
  rewrite Hnone in H. destruct H.
Qed.

(** X6: when no two slots in the table overlap or touch, the same holds
    after [createSlot], on every path on which the overlap query was
    answered: the handler adds a slot only when it stays clear of every
    slot of that doctor on that date. *)
Theorem createSlot_keeps_slots_apart (env : CreateSlotEnv) (user : option AuthUser)
    (body : CreateSlotData) (w w' : World) (r : Completion (Response AvailabilitySlot)) :
  cs_overlap_fault env = None ->
  no_two_touch (aavailability_slots w) ->
  createSlot env user body w = (r, w') ->
  no_two_touch (aavailability_slots w').
Proof.
  intros Hof Hinv Hrun. unfold createSlot in Hrun.
  unfold bind, select_single, select, insert_keyed, throw, ret in Hrun.
  rewrite Hof in Hrun.
  repeat (destruct_innermost Hrun; cbn [data error] in Hrun);
    try discriminate Hrun;
    injection Hrun as _ <-; try exact Hinv.
  cbn [rows put from_aavailability_slots aavailability_slots set_aavailability_slots] in *.
  apply pairs_with_one_more; [exact Hinv|].
  intros other Hother.
  match goal with
  | Hnone : filter ?keep _ = [] |- _ =>
      exact (filter_nil_none keep _ Hnone other Hother)
  end.
Qed.

End SlotsApart.

(* ================================================================== *)
(** ** updateConsultation: what it writes *)
(* ================================================================== *)

Section UpdateConsultationWrites.
Import consultationController.

(** X7: [updateConsultation] writes to the slot table only when the
    request sets the status to cancelled, and a request it refuses
    leaves the store as it was. *)
Theorem updateConsultation_writes (env : UpdateConsultationEnv) (user : option AuthUser)
    (id : string) (d : UpdateConsultationData) (w w' : World)
    (r : Completion (Response Consultation)) :
  updateConsultation env user id d w = (r, w') ->
  (upd_status d <> Some cancelled -> aavailability_slots w' = aavailability_slots w)
  /\ (forall e, r = Thrown e -> w' = w).
Proof.
  intro Hrun. unfold updateConsultation in Hrun.
  destruct user as [u|]; [|injection Hrun as <- <-; split; reflexivity].
  unfold bind, select_single, embed_adoctors, update, throw, ret in Hrun.
  repeat (destruct_innermost Hrun; cbn [data error] in Hrun);
    try discriminate Hrun;
    try (injection Hrun as <- <-; split; [reflexivity | reflexivity || discriminate]).
  all: try (injection Hrun as <- <-; split;
            [intro Hnot; try (exfalso; apply Hnot; reflexivity); reflexivity
            |intros e He; discriminate He]).
  all: exfalso.
  all: match goal with
       | Hone : data (single (filter ?p ?rows)) = Some _,
         Hnone : data (and_single (PgData (map _ (filter ?p ?rows)))) = None |- _ =>
           apply single_data_inv in Hone; rewrite Hone in Hnone; discriminate Hnone
       end.
Qed.

Lemma meetingLink_key_refused (d : UpdateConsultationData) (link : string) :
  upd_meetingLink d = Some link ->
  UpdateConsultationData_object d <> []
  /\ exists m, patch_of aconsultations_set (UpdateConsultationData_object d) = PgError m.
Proof.
  destruct d as [[st|] [a|] [b|] [c|]]; intro H; try discriminate H;
    try destruct st; cbn;
    (split; [discriminate | eexists; reflexivity]).
Qed.

(** X8: a request to [updateConsultation] that carries a meeting link
    never returns and changes nothing: the link reaches the store under
    the key [meetingLink], and the column is [meeting_link]. *)
Theorem updateConsultation_meetingLink_refused (env : UpdateConsultationEnv)
    (user : option AuthUser) (id link : string) (d : UpdateConsultationData)
    (w w' : World) (r : Completion (Response Consultation)) :
  upd_meetingLink d = Some link ->
  updateConsultation env user id d w = (r, w') ->
  (exists e, r = Thrown e) /\ w' = w.
Proof.
  intros Hlink Hrun.
  destruct (meetingLink_key_refused d link Hlink) as (Hkeys & m & Hpatch).
  unfold updateConsultation in Hrun.
  destruct user as [u|]; [|injection Hrun as <- <-; split; [eexists|]; reflexivity].
  unfold bind, select_single, embed_adoctors, update, throw, ret in Hrun.
  rewrite Hpatch in Hrun.
  repeat (destruct_innermost Hrun; cbn [data error] in Hrun);
    try discriminate Hrun;
    try contradiction;
    try (injection Hrun as <- <-; split; [eexists|]; reflexivity).
  all: cbn [and_single data] in *; congruence.
Qed.

End UpdateConsultationWrites.

(* ================================================================== *)
(** ** Uniqueness that the handlers keep *)
(* ================================================================== *)

(** Closes the cases of a run that appended one row under a key that
    [.single()] had not found, or took such a row out again. *)
Ltac key_stays_unique key Hinv :=
  first
    [ exact Hinv
    | match goal with
      | Hnone : data (single (filter _ ?table)) = None
        |- NoDup (map _ (?table ++ [?row])) =>
          apply (keys_stay_distinct key table row Hinv);
          exact (single_none_absent key table (key row) Hinv Hnone)
      end
    | match goal with
      | Hfresh : existsb _ ?table = false
        |- NoDup (map _ (filter _ (?table ++ [?row]))) =>
          let Hgone := fresh "Hgone" in
          first [ pose proof (filter_out_fresh user_id table row Hfresh) as Hgone
                | pose proof (filter_out_fresh prescription_id table row Hfresh) as Hgone
                | pose proof (filter_out_fresh medicine_id table row Hfresh) as Hgone ];
          cbn [user_id prescription_id medicine_id] in Hgone;
          rewrite Hgone; exact Hinv
      end ].

Section EmailsDistinct.
Import authController.

Variable bcrypt_hash : string -> nat -> string.
Variable bcrypt_compare : string -> string -> bool.
Variable jwt_sign : AuthUser -> string -> string -> string.
Variable JWT_SECRET : string.
Variable env_JWT_EXPIRES_IN : option string.

Abbreviation register' := (register bcrypt_hash jwt_sign JWT_SECRET env_JWT_EXPIRES_IN).
Abbreviation login' := (login bcrypt_compare jwt_sign JWT_SECRET env_JWT_EXPIRES_IN).

(** X9: when no two users share an email, no two do after [register],
    on every path on which the user query was answered. *)
Theorem register_keeps_emails_distinct (env : RegisterEnv) (d : RegisterData)
    (w w' : World) (r : Completion (Response AuthData)) :
  rg_existing_fault env = None ->
  NoDup (map user_email (ausers w)) ->
  register' env d w = (r, w') ->
  NoDup (map user_email (ausers w')).
Proof.
  intros Hef Hinv Hrun.
  unfold authController.register, bind, select_single, insert_keyed, insert, delete,
    throw, ret, console_error in Hrun.
  rewrite Hef in Hrun.
  repeat (destruct_innermost Hrun; cbn [data error] in Hrun);
    try discriminate Hrun;
    injection Hrun as _ <-.
  all: cbn [rows put from_ausers from_aprofiles ausers aprofiles set_ausers set_aprofiles
            set_console user_id user_email] in *.
  all: try exact Hinv.
  all: key_stays_unique user_email Hinv.
Qed.

Lemma nothing_selected {R} (keep : R -> bool) (table : list R) :
  existsb keep table = false -> filter keep table = [].
Proof.
  induction table as [|row table IH]; simpl; intro H; [reflexivity|].
  apply orb_false_elim in H. destruct H as (Hrow & Hrest).
  rewrite Hrow. apply IH. exact Hrest.
Qed.

(** X10: after a registration that returned, for an email no user had
    and with the account created active, a login with the same email
    and password returns 200 for the same user, provided the password
    library accepts the hash it made of that password. *)
Theorem register_then_login (env : RegisterEnv) (lenv : LoginEnv) (d : RegisterData)
    (w w1 : World) (registered : Response AuthData) :
  bcrypt_compare (reg_password d) (bcrypt_hash (reg_password d) 10) = true ->
  rg_is_active env = true ->
  existsb (fun r => user_email r =? reg_email d) (ausers w) = false ->
  lg_select_fault lenv = None ->
  register' env d w = (Returned registered, w1) ->
  exists answer w2,
    login' lenv (mkLoginData (reg_email d) (reg_password d)) w1 = (Returned answer, w2)
    /\ res_status answer = 200
    /\ data_user (res_data answer) = data_user (res_data registered).
Proof.
  intros Hlib Hactive Habsent Hsf Hrun.
  unfold authController.register, bind, select_single, insert_keyed, insert, delete,
    throw, ret, console_error in Hrun.
  repeat (destruct_innermost Hrun; cbn [data error] in Hrun);
    try discriminate Hrun;
    injection Hrun as <- <-.
  all: cbn [rows put from_ausers from_aprofiles ausers aprofiles set_ausers set_aprofiles
            user_id user_email user_role res_data data_user] in *.
  all: match goal with
       | |- context [set_ausers (_ ++ [?created]) _] =>
           eexists; eexists; split;
           [apply (login_success bcrypt_compare jwt_sign JWT_SECRET env_JWT_EXPIRES_IN
                     lenv _ _ created);
            [unfold login_lookup; rewrite Hsf;
             cbn [ausers set_ausers set_aprofiles login_email];
             rewrite filter_app, (nothing_selected _ _ Habsent);
             cbn [filter user_email app]; rewrite String.eqb_refl; reflexivity
            |exact Hactive
            |exact Hlib]
           |split; reflexivity]
       end.
Qed.

End EmailsDistinct.

Section NamesDistinct.
Import medicineController.

(** X11: when no two medicines share a name, no two do after
    [createMedicine], on every path on which the name query was
    answered. *)
Theorem createMedicine_keeps_names_distinct (env : CreateMedicineEnv)
    (user : option AuthUser) (d : CreateMedicineData) (w w' : World)
    (r : Completion (Response Medicine)) :
  cm_existing_fault env = None ->
  NoDup (map medicine_name (amedicines w)) ->
  createMedicine env user d w = (r, w') ->
  NoDup (map medicine_name (amedicines w')).
Proof.
  intros Hef Hinv Hrun. unfold createMedicine in Hrun.
  destruct user as [u|]; [|injection Hrun as _ <-; exact Hinv].
  unfold bind, select_single, insert_keyed, throw, ret in Hrun.
  rewrite Hef in Hrun.
  repeat (destruct_innermost Hrun; cbn [data error] in Hrun);
    try discriminate Hrun;
    injection Hrun as _ <-.
  all: cbn [rows put from_amedicines amedicines set_amedicines medicine_id medicine_name]
         in *.
  all: try exact Hinv.
  all: key_stays_unique medicine_name Hinv.
Qed.

End NamesDistinct.

Section OnePrescription.
Import prescriptionController.

(** X12: when no consultation has two prescriptions, none has after
    [createPrescription], on every path on which the prescription query
    was answered. *)
Theorem createPrescription_one_per_consultation (env : CreatePrescriptionEnv)
    (user : option AuthUser) (d : CreatePrescriptionData) (w w' : World)
    (r : Completion (Response (option CompletePrescription))) :
  cp_existing_fault env = None ->
  NoDup (map prescription_consultation_id (aprescriptions w)) ->
  createPrescription env user d w = (r, w') ->
  NoDup (map prescription_consultation_id (aprescriptions w')).
Proof.
  intros Hef Hinv Hrun. unfold createPrescription in Hrun.
  destruct user as [u|]; [|injection Hrun as _ <-; exact Hinv].
  unfold bind, select_single, select, insert_keyed, insert, delete, throw, ret,
    embed_aprescription_items in Hrun.
  rewrite Hef in Hrun.
  repeat (destruct_innermost Hrun; cbn [data error] in Hrun);
    try discriminate Hrun;
    injection Hrun as _ <-.
  all: cbn [rows put from_aprescriptions from_aprescription_items aprescriptions
            aprescription_items set_aprescriptions set_aprescription_items
            prescription_id prescription_consultation_id] in *.
  all: try exact Hinv.
  all: key_stays_unique prescription_consultation_id Hinv.
Qed.

End OnePrescription.

(* ================================================================== *)
(** ** authenticate, authorize and the routes *)
(* ================================================================== *)

Lemma UserRole_eqb_eq (a b : UserRole) : UserRole_eqb a b = true <-> a = b.
Proof. destruct a, b; simpl; split; intro H; try reflexivity; discriminate H. Qed.

Lemma allowed_role (role : UserRole) (allowedRoles : list UserRole) :
  existsb (UserRole_eqb role) allowedRoles = true -> In role allowedRoles.
Proof.
  intro H. apply existsb_exists in H. destruct H as (x & Hx & E).
  apply UserRole_eqb_eq in E. rewrite E. exact Hx.
Qed.

Section Authenticate.
Import auth.

Variable Thrown_by_verify : Type.
Variable jwt_verify : string -> string -> AuthUser + Thrown_by_verify.
Variable instanceof_JsonWebTokenError : Thrown_by_verify -> bool.
Variable instanceof_TokenExpiredError : Thrown_by_verify -> bool.
Variable JWT_SECRET : string.

Abbreviation authenticate' :=
  (authenticate Thrown_by_verify jwt_verify instanceof_JsonWebTokenError
                instanceof_TokenExpiredError JWT_SECRET).

Lemma authenticate_run (env : AuthenticateEnv) (authorization : option string)
    (w w' : World) (r : Completion Passed) :
  authenticate' env authorization w = (r, w') ->
  w' = w
  /\ exists passed, r = Returned passed
     /\ forall user, passed = next user ->
          exists token u,
            user = Some u
            /\ header_token authorization token
            /\ from_store jwt_verify JWT_SECRET w token u.
Proof.
  intro Hrun. unfold authenticate in Hrun.
  unfold bind, select_single, ret in Hrun.
  repeat (destruct_innermost Hrun; cbn [data error] in Hrun);
    try discriminate Hrun;
    injection Hrun as <- <-; (split; [reflexivity|]);
    eexists; (split; [reflexivity|]); intros user Hnext; try discriminate Hnext.
  injection Hnext as <-.
  match goal with
  | Hone : data (single (filter _ _)) = Some ?row, Htoken : nth_error _ 1 = Some ?token,
    Hheader : negb (truthy (Some ?header)) || negb (String.prefix _ ?header) = false,
    Hfilled : negb (truthy (Some ?token)) = false,
    Hdecoded : jwt_verify _ _ = inl ?decoded, Hactive : negb (user_is_active _) = false
    |- _ =>
      apply single_data_inv in Hone;
      change (rows from_ausers w) with (ausers w) in Hone;
      apply negb_false_iff in Hactive;
      apply orb_false_iff in Hheader; destruct Hheader as (_ & Hheader);
      apply negb_false_iff in Hheader;
      apply negb_false_iff in Hfilled; cbn [truthy] in Hfilled;
      apply negb_true_iff, String.eqb_neq in Hfilled;
      exists token; eexists; split; [reflexivity|]; split;
      [exists header; repeat split; assumption
      |exists decoded, row; repeat split; assumption]
  end.
Qed.

(** A request with a token for which the store has the one active row
    is let through as that user. *)
Lemma authenticate_next (env : AuthenticateEnv) (authorization : option string)
    (w : World) (token : string) (u : AuthUser) :
  an_select_fault env = None ->
  header_token authorization token ->
  from_store jwt_verify JWT_SECRET w token u ->
  authenticate' env authorization w = (Returned (next (Some u)), w).
Proof.
  intros Hfault (header & -> & Hprefix & Htoken & Hfilled)
         (decoded & row & Hdecoded & Hrow & Hactive & ->).
  unfold authenticate.
  assert (Hheader : truthy (Some header) = true)
    by (destruct header; [discriminate Hprefix | reflexivity]).
  rewrite Hheader, Hprefix, Htoken. cbn [negb orb truthy].
  apply String.eqb_neq in Hfilled. rewrite Hfilled. cbn [negb].
  rewrite Hdecoded.
  unfold bind, select_single, select, ret. rewrite Hfault.
  change (rows from_ausers w) with (ausers w). rewrite Hrow.
  cbn [single data]. rewrite Hactive. reflexivity.
Qed.

(** X13: [authenticate] never writes to the store and never throws, and
    when it lets a request through, the user it leaves on the request
    is read from the store for the token of that request's own header:
    the id, email and role of the one row of the user table that has
    the id the token carries, which is active.  The role is the one in
    the store, whatever role the token carries.  When the store answers
    the query, every request with such a token is let through as that
    user. *)
Theorem authenticate_user_from_store (env : AuthenticateEnv)
    (authorization : option string) (w w' : World) (r : Completion Passed) :
  authenticate' env authorization w = (r, w') ->
  w' = w
  /\ (exists passed, r = Returned passed)
  /\ (forall user, r = Returned (next user) ->
        exists token u,
          user = Some u
          /\ header_token authorization token
          /\ from_store jwt_verify JWT_SECRET w token u)
  /\ (an_select_fault env = None ->
      forall token u,
        header_token authorization token ->
        from_store jwt_verify JWT_SECRET w token u ->
        r = Returned (next (Some u))).
Proof.
  intro Hrun.
  destruct (authenticate_run env authorization w w' r Hrun) as (Hw & passed & -> & Hnext).
  split; [exact Hw|]. split; [eexists; reflexivity|]. split.
  - intros user Hr. injection Hr as ->. exact (Hnext user eq_refl).
  - intros Hfault token u Hheader Hstore.
    rewrite (authenticate_next env authorization w token u Hfault Hheader Hstore) in Hrun.
    injection Hrun as <- _. reflexivity.
Qed.

Lemma prefix_Bearer (rest : string) :
  String.prefix "Bearer " ("Bearer " ++ rest) = true.
Proof. simpl. destruct rest; reflexivity. Qed.

Lemma split_Bearer (rest : string) :
  split " " ("Bearer " ++ rest) = "Bearer" :: split " " rest.
Proof.
  simpl. destruct (split " " rest); reflexivity.
Qed.

Lemma split_not_empty (s : string) : split " " s <> [].
Proof.
  destruct s as [|c s]; simpl; [discriminate|].
  destruct (c =? " ")%char; [discriminate|].
  destruct (split " " s); discriminate.
Qed.

(** The first piece is the text up to the first space. *)
Lemma first_piece (token junk : string) :
  (forall c, In c (list_ascii_of_string token) -> c <> " "%char) ->
  hd "" (split " " (token ++ String " " junk)) = token.
Proof.
  induction token as [|c token IH]; intro Hclean; simpl.
  - reflexivity.
  - destruct (Ascii.eqb_spec c " ") as [E|E].
    + exfalso. apply (Hclean c); [left; reflexivity | exact E].
    + assert (IH' := IH (fun x Hx => Hclean x (or_intror Hx))).
      destruct (split " " (token ++ String " " junk)) as [|piece pieces] eqn:S.
      * exfalso. exact (split_not_empty _ S).
      * simpl in *. rewrite IH'. reflexivity.
Qed.

Lemma first_piece_alone (token : string) :
  (forall c, In c (list_ascii_of_string token) -> c <> " "%char) ->
  hd "" (split " " token) = token.
Proof.
  induction token as [|c token IH]; intro Hclean; simpl.
  - reflexivity.
  - destruct (Ascii.eqb_spec c " ") as [E|E].
    + exfalso. apply (Hclean c); [left; reflexivity | exact E].
    + assert (IH' := IH (fun x Hx => Hclean x (or_intror Hx))).
      destruct (split " " token) as [|piece pieces] eqn:S.
      * exfalso. exact (split_not_empty _ S).
      * simpl in *. rewrite IH'. reflexivity.
Qed.

Lemma token_of_header (rest : string) :
  nth_error (split " " ("Bearer " ++ rest)) 1 = Some (hd "" (split " " rest)).
Proof.
  rewrite split_Bearer. simpl.
  destruct (split " " rest) eqn:S; [exfalso; exact (split_not_empty _ S) | reflexivity].
Qed.

(** X14: the header of [authenticate].  Without a header, or with one
    that does not begin with "Bearer ", the answer is 401 "No token
    provided"; with nothing or a space right after "Bearer ", it is 401
    "Invalid token format"; and what follows a space after the token is
    ignored: the request is treated as the one with the token alone. *)
Theorem authenticate_header (env : AuthenticateEnv) (w : World) :
  (forall authorization,
     match authorization with
     | None => True
     | Some header => String.prefix "Bearer " header = false
     end ->
     authenticate' env authorization w
     = (Returned (answered 401
          "No token provided. Please provide a valid authorization token."), w))
  /\ (forall rest,
        rest = "" \/ (exists more, rest = String " " more) ->
        authenticate' env (Some ("Bearer " ++ rest)%string) w
        = (Returned (answered 401 "Invalid token format"), w))
  /\ (forall token junk,
        (forall c, In c (list_ascii_of_string token) -> c <> " "%char) ->
        authenticate' env (Some ("Bearer " ++ token ++ String " " junk)%string) w
        = authenticate' env (Some ("Bearer " ++ token)%string) w).
Proof.
  split; [|split].
  - intros [header|] H; [|reflexivity].
    unfold authenticate. rewrite H. rewrite orb_true_r. reflexivity.
  - intros rest Hrest. unfold authenticate.
    rewrite token_of_header, prefix_Bearer.
    change (negb (truthy (Some ("Bearer " ++ rest)%string)) || negb true) with false.
    cbv iota.
    destruct Hrest as [-> | (more & ->)]; reflexivity.
  - intros token junk Hclean. unfold authenticate.
    rewrite !token_of_header, !prefix_Bearer.
    rewrite (first_piece token junk Hclean), (first_piece_alone token Hclean).
    reflexivity.
Qed.

End Authenticate.

Section Routes.
Import auth routes.

Variable Thrown_by_verify : Type.
Variable jwt_verify : string -> string -> AuthUser + Thrown_by_verify.
Variable instanceof_JsonWebTokenError : Thrown_by_verify -> bool.
Variable instanceof_TokenExpiredError : Thrown_by_verify -> bool.
Variable JWT_SECRET : string.
Variable Date_parse : string -> option Z.

Abbreviation route' :=
  (route Thrown_by_verify jwt_verify instanceof_JsonWebTokenError
         instanceof_TokenExpiredError JWT_SECRET).

(** A request has at most one caller: the header gives the token, the
    token the id, and the id the row. *)
Lemma caller_unique (authorization : option string) (w : World)
    (roles roles' : option (list UserRole)) (u u' : AuthUser) :
  caller jwt_verify JWT_SECRET authorization w roles u ->
  caller jwt_verify JWT_SECRET authorization w roles' u' ->
  u = u'.
Proof.
  intros (token & (header & -> & _ & Htoken & _)
                & (decoded & row & Hdecoded & Hrow & _ & ->) & _)
         (token' & (header' & Hsame & _ & Htoken' & _)
                 & (decoded' & row' & Hdecoded' & Hrow' & _ & ->) & _).
  injection Hsame as <-.
  rewrite Htoken in Htoken'. injection Htoken' as <-.
  rewrite Hdecoded in Hdecoded'. injection Hdecoded' as <-.
  rewrite Hrow in Hrow'. injection Hrow' as <-.
  reflexivity.
Qed.

(** A route either answers from a middleware, leaving the store as it
    was, or runs its handler for the caller of the request. *)
Lemma route_run {A} (roles : option (list UserRole))
    (handler : option AuthUser -> Handler (Response A)) (env : AuthenticateEnv)
    (authorization : option string) (w w' : World) (r : Completion (Outcome A)) :
  route' roles handler env authorization w = (r, w') ->
  (w' = w /\ exists status error, r = Returned (refused status error))
  \/ exists u c,
       caller jwt_verify JWT_SECRET authorization w roles u
       /\ handler (Some u) w = (c, w')
       /\ r = match c with
              | Returned answer => Returned (handled answer)
              | Thrown e => Thrown e
              end.
Proof.
  intro Hrun. unfold route, bind at 1 in Hrun.
  destruct (authenticate _ _ _ _ _ env authorization w) as (p, w0) eqn:Hauth.
  destruct (authenticate_run Thrown_by_verify jwt_verify instanceof_JsonWebTokenError
              instanceof_TokenExpiredError JWT_SECRET env authorization w w0 p Hauth)
    as (-> & passed & -> & Hnext).
  destruct passed as [user|status error];
    [|injection Hrun as <- <-; left; split; [reflexivity | do 2 eexists; reflexivity]].
  destruct (Hnext user eq_refl) as (token & u & -> & Hheader & Hstore).
  assert (Hhandler :
            forall user',
              (handled_by <- handler user' ;; ret (handled handled_by)) w = (r, w') ->
              exists c, handler user' w = (c, w')
                        /\ r = match c with
                               | Returned answer => Returned (handled answer)
                               | Thrown e => Thrown e
                               end).
  { intros user' H. unfold bind, ret in H.
    destruct (handler user' w) as ([answer|e], w1);
      injection H as <- <-; eexists; split; reflexivity. }
  destruct roles as [allowedRoles|]; cbn [authorize] in Hrun.
  - destruct (existsb (UserRole_eqb (auth_role u)) allowedRoles) eqn:Hrole;
      cbn [negb] in Hrun.
    + right. destruct (Hhandler _ Hrun) as (c & Hc & Hr).
      do 2 eexists. split; [|split; eassumption].
      exists token. split; [exact Hheader|]. split; [exact Hstore|].
      apply allowed_role. exact Hrole.
    + injection Hrun as <- <-. left. split; [reflexivity | do 2 eexists; reflexivity].
  - right. destruct (Hhandler _ Hrun) as (c & Hc & Hr).
    do 2 eexists. split; [|split; eassumption].
    exists token. split; [exact Hheader|]. split; [exact Hstore | exact I].
Qed.

(** [updateSlot] changes the slot table only for an admin or the doctor
    who owns the slot, as far as the handler itself checks. *)
Lemma updateSlot_changed (env : slotController.UpdateSlotEnv) (u : AuthUser)
    (slotId : string) (body : UpdateSlotData) (w w' : World)
    (c : Completion (Response AvailabilitySlot)) :
  slotController.updateSlot env (Some u) slotId body w = (c, w') ->
  aavailability_slots w' <> aavailability_slots w ->
  exists slot,
    filter (fun r => slot_id r =? slotId) (aavailability_slots w) = [slot]
    /\ (auth_role u = role_doctor ->
        exists doc, find (fun x => doctor_id x =? slot_doctor_id slot) (adoctors w)
                    = Some doc
                    /\ doctor_user_id doc = auth_id u).
Proof.
  intros Hrun Hchanged. unfold slotController.updateSlot in Hrun.
  unfold bind, select_single, embed_adoctors, update, throw, ret in Hrun.
  repeat (destruct_innermost Hrun; cbn [data error] in Hrun);
    try discriminate Hrun;
    injection Hrun as _ <-;
    try (exfalso; apply Hchanged; reflexivity).
  all: match goal with
       | Hone : data (single _) = Some ?slot |- _ =>
           apply single_data_inv in Hone; exists slot; split; [exact Hone|]
       end.
  all: intro Hrole.
  all: match goal with
       | Hcheck : UserRole_eqb _ role_doctor && negb _ = false |- _ =>
           rewrite Hrole in Hcheck; cbn [UserRole_eqb andb] in Hcheck;
           apply negb_false_iff in Hcheck
       end.
  all: match goal with
       | Hcheck : option_string_eqb (option_map _ ?found) _ = true |- _ =>
           destruct found as [doc|]; [|discriminate Hcheck];
           exists doc; split; [reflexivity | apply String.eqb_eq; exact Hcheck]
       end.
Qed.

(** X15: through [PUT /api/slots/:slotId] the slot table changes only
    when the caller of that request, the active user the store has for
    the token of its own header, is an admin, or a doctor and the owner
    of the slot: a request with a patient's token, with the token of a
    deactivated account or of another doctor never alters a slot. *)
Theorem put_slot_changes_by_owner_or_admin (aenv : AuthenticateEnv)
    (env : slotController.UpdateSlotEnv) (authorization : option string)
    (slotId : string) (body : UpdateSlotData) (w w' : World)
    (r : Completion (Outcome AvailabilitySlot)) :
  put_slot Thrown_by_verify jwt_verify instanceof_JsonWebTokenError
           instanceof_TokenExpiredError JWT_SECRET aenv env authorization slotId body w
  = (r, w') ->
  aavailability_slots w' <> aavailability_slots w ->
  exists u slot,
    caller jwt_verify JWT_SECRET authorization w (Some [role_doctor; role_admin]) u
    /\ filter (fun s => slot_id s =? slotId) (aavailability_slots w) = [slot]
    /\ may_update_slot u slot w.
Proof.
  intros Hrun Hchanged. unfold put_slot in Hrun.
  destruct (route_run _ _ _ _ _ _ _ Hrun) as [(-> & _) | (u & c & Hcaller & Hhandler & _)];
    [exfalso; apply Hchanged; reflexivity|].
  destruct (updateSlot_changed env u slotId body w w' c Hhandler Hchanged)
    as (slot & Hslot & Howner).
  exists u, slot. split; [exact Hcaller|]. split; [exact Hslot|].
  destruct Hcaller as (token & _ & _ & Hrole).
  destruct Hrole as [Hrole | [Hrole | []]].
  - right. split; [symmetry; exact Hrole|]. apply Howner. symmetry. exact Hrole.
  - left. symmetry. exact Hrole.
Qed.

(** X16: a consultation that [POST /api/consultations/book] answers
    with is booked in the name of the caller of that request: its
    patient is the active user the store has for the token of the
    request's own header, whose role in the store is user, whatever
    the token and the body say. *)
Theorem post_book_patient_is_caller (aenv : AuthenticateEnv)
    (env : consultationController.BookEnv) (authorization : option string)
    (body : consultationController.BookConsultationData) (w w' : World)
    (answer : Response Consultation) :
  post_book Thrown_by_verify jwt_verify instanceof_JsonWebTokenError
            instanceof_TokenExpiredError JWT_SECRET Date_parse aenv env authorization body w
  = (Returned (handled answer), w') ->
  exists u,
    caller jwt_verify JWT_SECRET authorization w (Some [role_user]) u
    /\ auth_role u = role_user
    /\ consultation_patient_id (res_data answer) = auth_id u
    /\ In (res_data answer) (aconsultations w').
Proof.
  intro Hrun. unfold post_book in Hrun.
  destruct (route_run _ _ _ _ _ _ _ Hrun)
    as [(_ & status & error & H) | (u & c & Hcaller & Hhandler & Hr)];
    [discriminate H|].
  destruct c as [booked_as|e]; [|discriminate Hr].
  injection Hr as <-.
  destruct (bookConsultation_returned Date_parse env u body w w' answer Hhandler)
    as (slot & doctorInfo & _ & _ & _ & -> & ->).
  exists u. split; [exact Hcaller|].
  destruct Hcaller as (token & _ & _ & Hrole).
  split; [destruct Hrole as [H | []]; symmetry; exact H|].
  split; [reflexivity|].
  cbn [res_data]. rewrite after_booking_consultations.
  apply in_or_app. right. left. reflexivity.
Qed.

(** [deleteSlot] changes the slot table only for a slot that is not
    booked, and only for an admin or the doctor who owns the slot, as
    far as the handler itself checks. *)
Lemma deleteSlot_changed (env : slotController_rest.DeleteSlotEnv) (u : AuthUser)
    (slotId : string) (w w' : World) (c : Completion (Response unit)) :
  slotController_rest.deleteSlot env (Some u) slotId w = (c, w') ->
  aavailability_slots w' <> aavailability_slots w ->
  exists slot,
    filter (fun r => slot_id r =? slotId) (aavailability_slots w) = [slot]
    /\ slot_status slot <> booked
    /\ (auth_role u = role_doctor ->
        exists doc, find (fun x => doctor_id x =? slot_doctor_id slot) (adoctors w)
                    = Some doc
                    /\ doctor_user_id doc = auth_id u).
Proof.
  intros Hrun Hchanged. unfold slotController_rest.deleteSlot in Hrun.
  unfold bind, select_single, embed_adoctors, delete, throw, ret in Hrun.
  repeat (destruct_innermost Hrun; cbn [data error] in Hrun);
    try discriminate Hrun;
    injection Hrun as _ <-;
    try (exfalso; apply Hchanged; reflexivity).
  all: match goal with
       | Hone : data (single _) = Some ?slot |- _ =>
           apply single_data_inv in Hone; exists slot; split; [exact Hone|]
       end.
  all: match goal with
       | Hfree : AvailabilityStatus_eqb (slot_status ?slot) booked = false |- _ =>
           split; [intro Hb; rewrite Hb in Hfree; discriminate Hfree|]
       end.
  all: intro Hrole.
  all: match goal with
       | Hcheck : UserRole_eqb _ role_doctor && negb _ = false |- _ =>
           rewrite Hrole in Hcheck; cbn [UserRole_eqb andb] in Hcheck;
           apply negb_false_iff in Hcheck
       end.
  all: match goal with
       | Hcheck : option_string_eqb (option_map _ ?found) _ = true |- _ =>
           destruct found as [doc|]; [|discriminate Hcheck];
           exists doc; split; [reflexivity | apply String.eqb_eq; exact Hcheck]
       end.
Qed.

(** X25: through [DELETE /api/slots/:slotId] the slot table changes
    only for a slot that is not booked, and only when the caller of
    that request, the active user the store has for the token of its
    own header, is an admin, or a doctor and the owner of the slot. *)
Theorem delete_slot_changes_by_owner_or_admin (aenv : AuthenticateEnv)
    (env : slotController_rest.DeleteSlotEnv) (authorization : option string)
    (slotId : string) (w w' : World) (r : Completion (Outcome unit)) :
  delete_slot Thrown_by_verify jwt_verify instanceof_JsonWebTokenError
              instanceof_TokenExpiredError JWT_SECRET aenv env authorization slotId w
  = (r, w') ->
  aavailability_slots w' <> aavailability_slots w ->
  exists u slot,
    caller jwt_verify JWT_SECRET authorization w (Some [role_doctor; role_admin]) u
    /\ filter (fun s => slot_id s =? slotId) (aavailability_slots w) = [slot]
    /\ slot_status slot <> booked
    /\ may_update_slot u slot w.
Proof.
  intros Hrun Hchanged. unfold delete_slot in Hrun.
  destruct (route_run _ _ _ _ _ _ _ Hrun) as [(-> & _) | (u & c & Hcaller & Hhandler & _)];
    [exfalso; apply Hchanged; reflexivity|].
  destruct (deleteSlot_changed env u slotId w w' c Hhandler Hchanged)
    as (slot & Hslot & Hfree & Howner).
  exists u, slot. split; [exact Hcaller|]. split; [exact Hslot|]. split; [exact Hfree|].
  destruct Hcaller as (token & _ & _ & Hrole).
  destruct Hrole as [Hrole | [Hrole | []]].
  - right. split; [symmetry; exact Hrole|]. apply Howner. symmetry. exact Hrole.
  - left. symmetry. exact Hrole.
Qed.

(** What [createPrescription] has checked when it returns. *)
Lemma createPrescription_returned (env : prescriptionController.CreatePrescriptionEnv)
    (u : AuthUser) (d : prescriptionController.CreatePrescriptionData) (w w' : World)
    (answer : Response (option prescriptionController.CompletePrescription)) :
  prescriptionController.createPrescription env (Some u) d w = (Returned answer, w') ->
  exists doctor c,
    filter (fun x => doctor_user_id x =? auth_id u) (adoctors w) = [doctor]
    /\ filter (fun x => consultation_id x =? prescriptionController.consultationId d)
              (aconsultations w) = [c]
    /\ consultation_doctor_id c = doctor_id doctor
    /\ (consultation_status c = completed \/ consultation_status c = ongoing).
Proof.
  intro Hrun. unfold prescriptionController.createPrescription in Hrun.
  unfold bind, select_single, select, insert_keyed, insert, delete, throw, ret,
    prescriptionController.embed_aprescription_items in Hrun.
  repeat (destruct_innermost Hrun; cbn [data error] in Hrun);
    try discriminate Hrun.
  all: clear Hrun.
  all: repeat match goal with
         | Hone : data (single _) = Some _ |- _ => apply single_data_inv in Hone
         end.
  all: match goal with
       | Hdoc : filter _ (rows from_adoctors _) = [?doctor],
         Hcons : filter _ (rows from_aconsultations _) = [?c] |- _ =>
           exists doctor, c; split; [exact Hdoc|]; split; [exact Hcons|]
       end.
  all: match goal with
       | Hsame : negb (_ =? _) = false |- _ =>
           apply negb_false_iff, String.eqb_eq in Hsame; split; [exact Hsame|]
       end.
  all: match goal with
       | Hst : negb (ConsultationStatus_eqb ?st completed) && _ = false |- _ =>
           destruct st; try discriminate Hst; auto
       end.
Qed.

(** X26: a prescription that [POST /api/prescriptions] answers with was
    requested by the doctor of the consultation: the caller of that
    request, the active user the store has for the token of its own
    header, has the role doctor in the store, the one doctor row of
    that user is the doctor of the one consultation the body names, and
    that consultation is ongoing or completed. *)
Theorem post_prescription_by_consultation_doctor (aenv : AuthenticateEnv)
    (env : prescriptionController.CreatePrescriptionEnv) (authorization : option string)
    (body : prescriptionController.CreatePrescriptionData) (w w' : World)
    (answer : Response (option prescriptionController.CompletePrescription)) :
  post_prescription Thrown_by_verify jwt_verify instanceof_JsonWebTokenError
                    instanceof_TokenExpiredError JWT_SECRET aenv env authorization body w
  = (Returned (handled answer), w') ->
  exists u doctor c,
    caller jwt_verify JWT_SECRET authorization w (Some [role_doctor]) u
    /\ auth_role u = role_doctor
    /\ filter (fun x => doctor_user_id x =? auth_id u) (adoctors w) = [doctor]
    /\ filter (fun x => consultation_id x =? prescriptionController.consultationId body)
              (aconsultations w) = [c]
    /\ consultation_doctor_id c = doctor_id doctor
    /\ (consultation_status c = completed \/ consultation_status c = ongoing).
Proof.
  intro Hrun. unfold post_prescription in Hrun.
  destruct (route_run _ _ _ _ _ _ _ Hrun)
    as [(_ & status & error & H) | (u & c & Hcaller & Hhandler & Hr)];
    [discriminate H|].
  destruct c as [written|e]; [|discriminate Hr].
  destruct (createPrescription_returned env u body w w' written Hhandler)
    as (doctor & cons & Hdoc & Hcons & Hsame & Hst).
  exists u, doctor, cons. split; [exact Hcaller|].
  destruct Hcaller as (token & _ & _ & Hrole).
  split; [destruct Hrole as [H | []]; symmetry; exact H|].
  repeat split; assumption.
Qed.

End Routes.

(* ================================================================== *)
(** ** Reading consultations and prescriptions *)
(* ================================================================== *)

Lemma find_the_row {R} (keep : R -> bool) (table : list R) (row : R) :
  filter keep table = [row] -> find keep table = Some row.
Proof.
  induction table as [|first table IH]; simpl; intro H; [discriminate H|].
  destruct (keep first); [injection H as -> _; reflexivity | apply IH; exact H].
Qed.

Section Visibility.
Import consultationController_rest prescriptionController_rest.


(** X18: [getConsultationById] never writes, and what it returns is the
    consultation with the id asked for, to a patient only when it is
    their own, to a doctor only when it is a consultation of the doctor
    row that is theirs. *)
Theorem getConsultationById_visibility (env : GetConsultationEnv)
    (u : AuthUser) (id : string) (w w' : World)
    (r : Completion (Response ConsultationDetails)) :
  getConsultationById env (Some u) id w = (r, w') ->
  w' = w
  /\ forall answer, r = Returned answer ->
       In (cd_consultation (res_data answer)) (aconsultations w)
       /\ consultation_id (cd_consultation (res_data answer)) = id
       /\ (auth_role u = role_user ->
           consultation_patient_id (cd_consultation (res_data answer)) = auth_id u)
       /\ (auth_role u = role_doctor ->
           exists doc, In doc (adoctors w)
                       /\ doctor_user_id doc = auth_id u
                       /\ consultation_doctor_id (cd_consultation (res_data answer))
                          = doctor_id doc).
Proof.
  intro Hrun. unfold getConsultationById in Hrun.
  unfold bind, select_single, consultationController_rest.embed_details, throw, ret
    in Hrun.
  repeat (destruct_innermost Hrun; cbn [data error] in Hrun);
    try discriminate Hrun;
    injection Hrun as <- <-; (split; [reflexivity|]);
    intros answer Hanswer; try discriminate Hanswer;
    injection Hanswer as <-; cbn [res_data cd_consultation].
  all: match goal with
       | Hone : data (single (filter _ (rows from_aconsultations _))) = Some ?c |- _ =>
           apply single_data_inv in Hone;
           assert (Hc : In c (filter (fun x => consultation_id x =? id)
                                     (aconsultations w)))
             by (change (rows from_aconsultations w) with (aconsultations w) in Hone;
                 rewrite Hone; left; reflexivity);
           apply filter_In in Hc; destruct Hc as (Hin & Hc); apply String.eqb_eq in Hc
       end.
  all: split; [exact Hin|]; split; [exact Hc|].
  all: split; intro Hrole;
    repeat match goal with
      | H : context [UserRole_eqb (auth_role _) _] |- _ =>
          rewrite Hrole in H; cbn [UserRole_eqb andb] in H; try discriminate H
      end.
  all: try (match goal with
            | Hmine : negb (consultation_patient_id _ =? auth_id _) = false |- _ =>
                apply negb_false_iff in Hmine; apply String.eqb_eq; exact Hmine
            end).
  all: match goal with
       | Hdoc : data (single (filter _ (rows from_adoctors _))) = Some ?doc,
         Hmine : negb (consultation_doctor_id _ =? doctor_id ?doc) = false |- _ =>
           apply single_data_inv in Hdoc;
           assert (Hd : In doc (filter (fun x => doctor_user_id x =? auth_id u)
                                       (adoctors w)))
             by (change (rows from_adoctors w) with (adoctors w) in Hdoc;
                 rewrite Hdoc; left; reflexivity);
           apply filter_In in Hd; destruct Hd as (Hd & Howner);
           apply String.eqb_eq in Howner;
           apply negb_false_iff in Hmine; apply String.eqb_eq in Hmine;
           exists doc; repeat split; assumption
       end.
Qed.

End Visibility.

Section ReadBack.
Import consultationController consultationController_rest.

Variable Date_parse : string -> option Z.

(** X19: the consultation a booking answered with is what
    [getConsultationById] returns for its id to the patient who booked
    it (and to an admin), right after the booking. *)
Theorem booked_consultation_read_back (env : BookEnv) (genv : GetConsultationEnv)
    (u : AuthUser) (d : BookConsultationData) (w w1 : World)
    (first : Response Consultation) :
  bookConsultation Date_parse env (Some u) d w = (Returned first, w1) ->
  auth_role u <> role_doctor ->
  gc_select_fault genv = None ->
  exists details,
    getConsultationById genv (Some u) (consultation_id (res_data first)) w1
    = (Returned (mkResponse 200 None details), w1)
    /\ cd_consultation details = res_data first.
Proof.
  intros Hrun Hrole Hsf.
  destruct (bookConsultation_returned Date_parse env u d w w1 first Hrun)
    as (slot & doctorInfo & _ & (_ & Hfresh & _) & _ & -> & ->).
  cbn [res_data].
  assert (Hc : filter (fun x => consultation_id x
                                =? consultation_id (new_consultation env u d slot))
                      (aconsultations (after_booking env u d slot doctorInfo w))
               = [new_consultation env u d slot]).
  { rewrite after_booking_consultations.
    apply (filter_key_fresh consultation_id). exact Hfresh. }
  unfold getConsultationById, bind at 1, select_single. rewrite Hsf.
  change (rows from_aconsultations ?x) with (aconsultations x).
  rewrite Hc. cbn [single data].
  unfold bind at 1, consultationController_rest.embed_details at 1.
  cbn [new_consultation consultation_patient_id]. rewrite String.eqb_refl.
  rewrite andb_false_r.
  destruct (auth_role u); [| exfalso; apply Hrole; reflexivity |];
    (eexists; split; [reflexivity | reflexivity]).
Qed.

End ReadBack.

Section PrescriptionReadBack.
Import prescriptionController prescriptionController_rest.

Lemma all_selected {R} (keep : R -> bool) (table : list R) :
  (forall row, In row table -> keep row = true) -> filter keep table = table.
Proof.
  induction table as [|row table IH]; simpl; intro H; [reflexivity|].
  rewrite (H row (or_introl eq_refl)). f_equal. apply IH.
  intros other Hother. apply H. right. exact Hother.
Qed.

(** X20: the prescription [createPrescription] made is what
    [getPrescriptionByConsultation] returns for that consultation to
    its patient right afterwards: the new prescription with its notes
    and one item for each item of the request, of the same medicine,
    in whatever order the store returns them. *)
Theorem created_prescription_read_back (env : CreatePrescriptionEnv)
    (genv : GetPrescriptionEnv) (u patient : AuthUser) (d : CreatePrescriptionData)
    (w w1 : World) (created : Response (option CompletePrescription)) :
  cp_existing_fault env = None ->
  NoDup (map prescription_consultation_id (aprescriptions w)) ->
  existsb (fun i => item_prescription_id i =? cp_new_id env) (aprescription_items w)
  = false ->
  gp_select_fault genv = None ->
  auth_role patient = role_user ->
  (forall c, In c (aconsultations w) -> consultation_id c = consultationId d ->
             consultation_patient_id c = auth_id patient) ->
  createPrescription env (Some u) d w = (Returned created, w1) ->
  exists details,
    getPrescriptionByConsultation genv (Some patient) (consultationId d) w1
    = (Returned (mkResponse 200 None details), w1)
    /\ prescription_id (pd_prescription details) = cp_new_id env
    /\ prescription_notes (pd_prescription details) = notes d
    /\ Permutation (map (fun x => item_medicine_id (fst x))
                        (pd_aprescription_items details))
                   (map medicineId (items d)).
Proof.
  intros Hef Hone Hitems Hsf Hrole Hpatient Hrun.
  unfold createPrescription in Hrun.
  unfold bind, select_single, select, insert_keyed, insert, delete, throw, ret,
    embed_aprescription_items in Hrun.
  rewrite Hef in Hrun.
  repeat (destruct_innermost Hrun; cbn [data error] in Hrun);
    try discriminate Hrun;
    injection Hrun as _ <-.
  all: cbn [rows put from_aprescriptions from_aprescription_items from_aconsultations
            aprescriptions aprescription_items aconsultations
            set_aprescriptions set_aprescription_items prescription_id] in *.
  all: match goal with
       | Hnone : data (single (filter _ (aprescriptions _))) = None,
         Hc : data (single (filter _ (aconsultations _))) = Some ?c |- _ =>
           pose proof (single_none_absent prescription_consultation_id _
                         (consultationId d) Hone Hnone) as Habsent;
           apply single_data_inv in Hc
       end.
  all: assert (Hold : filter (fun p => prescription_consultation_id p =? consultationId d)
                             (aprescriptions w) = [])
         by (destruct (filter (fun p => prescription_consultation_id p =? consultationId d)
                              (aprescriptions w)) as [|earlier others] eqn:F;
             [reflexivity|];
             exfalso; apply Habsent;
             assert (Hp : In earlier
                            (filter (fun p => prescription_consultation_id p
                                              =? consultationId d) (aprescriptions w)))
               by (rewrite F; left; reflexivity);
             apply filter_In in Hp; destruct Hp as (Hp & E);
             apply String.eqb_eq in E; rewrite <- E; apply in_map; exact Hp).
  all: unfold getPrescriptionByConsultation, bind at 1, select_single; rewrite Hsf;
    cbn [rows from_aprescriptions aprescriptions set_aprescriptions
         set_aprescription_items];
    rewrite filter_app, Hold;
    cbn [filter app prescription_consultation_id]; rewrite String.eqb_refl;
    cbn [single data];
    unfold bind at 1, prescriptionController_rest.embed_details at 1;
    cbn [pd_aconsultations prescription_consultation_id aconsultations
         set_aprescriptions set_aprescription_items];
    match goal with
    | Hc : filter _ (aconsultations _) = [?c] |- _ =>
        rewrite (find_the_row _ _ _ Hc);
        assert (Hin : In c (filter (fun x => consultation_id x =? consultationId d)
                                   (aconsultations w)))
          by (rewrite Hc; left; reflexivity);
        apply filter_In in Hin; destruct Hin as (Hin & Hid);
        apply String.eqb_eq in Hid;
        rewrite Hrole, (Hpatient c Hin Hid)
    end;
    cbn [UserRole_eqb]; rewrite String.eqb_refl; cbn [negb];
    eexists; (split; [reflexivity|]); cbn [pd_prescription pd_aprescription_items
      prescription_id prescription_notes];
    (split; [reflexivity|]); (split; [reflexivity|]);
    unfold embed_aprescription_items;
    cbn [aprescription_items set_aprescription_items set_aprescriptions prescription_id];
    rewrite filter_app, (nothing_selected _ _ Hitems); cbn [app];
    rewrite all_selected
      by (intros row Hrow; apply in_map_iff in Hrow; destruct Hrow as (x & <- & _);
          apply String.eqb_refl);
    rewrite !map_map; apply Permutation_refl.
Qed.

End PrescriptionReadBack.

(* ================================================================== *)
(** ** getMyDoctorStats *)
(* ================================================================== *)

Section DoctorStats.
Import doctorController.

Lemma counted_by_status (l : list Consultation) :
  length l
  = count_status (Some l) completed + count_status (Some l) scheduled
    + count_status (Some l) ongoing + count_status (Some l) cancelled
    + count_status (Some l) no_show.
Proof.
  unfold count_status. induction l as [|c l IH]; simpl; [reflexivity|].
  destruct (consultation_status c); simpl; lia.
Qed.

(** X21: in the statistics [getMyDoctorStats] returns, the total is the
    four counts it reports (completed, scheduled, ongoing, cancelled)
    plus the doctor's consultations marked no_show, which it counts in
    the total and reports nowhere; the handler writes nothing. *)
Theorem getMyDoctorStats_total (env : StatsEnv) (u : AuthUser) (w w' : World)
    (answer : Response DoctorStats) :
  st_consultations_fault env = None ->
  getMyDoctorStats env (Some u) w = (Returned answer, w') ->
  w' = w
  /\ exists doctor,
       In doctor (adoctors w) /\ doctor_user_id doctor = auth_id u
       /\ totalConsultations (stats (res_data answer))
          = stats_completed (stats (res_data answer))
            + stats_scheduled (stats (res_data answer))
            + stats_ongoing (stats (res_data answer))
            + stats_cancelled (stats (res_data answer))
            + length (filter (fun c => ConsultationStatus_eqb (consultation_status c) no_show)
                             (filter (fun c => consultation_doctor_id c =? doctor_id doctor)
                                     (aconsultations w))).
Proof.
  intros Hcf Hrun. unfold getMyDoctorStats in Hrun.
  unfold bind, select_single, select, throw, ret in Hrun.
  rewrite Hcf in Hrun.
  repeat (destruct_innermost Hrun; cbn [data error] in Hrun);
    try discriminate Hrun;
    injection Hrun as <- <-; (split; [reflexivity|]).
  all: match goal with
       | Hone : data (single (filter _ (rows from_adoctors _))) = Some ?doc |- _ =>
           apply single_data_inv in Hone;
           assert (Hd : In doc (filter (fun x => doctor_user_id x =? auth_id u)
                                       (adoctors w)))
             by (change (rows from_adoctors w) with (adoctors w) in Hone;
                 rewrite Hone; left; reflexivity);
           apply filter_In in Hd; destruct Hd as (Hd & Howner);
           apply String.eqb_eq in Howner;
           exists doc; split; [exact Hd|]; split; [exact Howner|]
       end.
  all: cbn [res_data stats totalConsultations stats_completed stats_scheduled
            stats_ongoing stats_cancelled].
  all: apply counted_by_status.
Qed.

End DoctorStats.

(* ================================================================== *)
(** ** Medicines *)
(* ================================================================== *)

Section Medicines.
Import medicineController prescriptionController.

Lemma firstn_one_nil {R} (l : list R) : firstn 1 l = [] -> l = [].
Proof. destruct l; simpl; [reflexivity | discriminate]. Qed.

(** X22: on every path on which the reference query was answered,
    [deleteMedicine] removes no medicine that a prescription item
    refers to, and never touches the items: a prescription item that
    had its medicine row before the request has it afterwards. *)
Theorem deleteMedicine_keeps_referenced (env : DeleteMedicineEnv)
    (user : option AuthUser) (id : string) (w w' : World)
    (r : Completion (Response unit)) :
  dm_items_fault env = None ->
  deleteMedicine env user id w = (r, w') ->
  aprescription_items w' = aprescription_items w
  /\ forall i m, In i (aprescription_items w) -> In m (amedicines w) ->
                 medicine_id m = item_medicine_id i -> In m (amedicines w').
Proof.
  intros Hif Hrun. unfold deleteMedicine in Hrun.
  destruct user as [u|]; [|injection Hrun as _ <-; split; [reflexivity | auto]].
  unfold bind, select, delete, throw, ret in Hrun. rewrite Hif in Hrun.
  cbn [data option_map] in Hrun.
  repeat (destruct_innermost Hrun; cbn [data error option_map] in Hrun);
    try discriminate Hrun;
    injection Hrun as _ <-; (split; [reflexivity|]); auto.
  all: intros i m Hi Hm Hsame.
  all: cbn [rows put from_amedicines from_aprescription_items amedicines
            aprescription_items set_amedicines] in *.
  all: apply filter_In; split; [exact Hm|].
  all: match goal with
       | Hnone : firstn 1 (filter ?keep _) = [] |- _ =>
           apply firstn_one_nil in Hnone;
           pose proof (filter_nil_none keep _ Hnone i Hi) as Hclear
       end.
  all: cbn beta in Hclear; rewrite <- Hsame in Hclear; rewrite Hclear; reflexivity.
Qed.

(** X23: for an id that no medicine has and no item refers to,
    [deleteMedicine] answers 200 "Medicine deleted successfully" while
    [updateMedicineStock] answers 404; neither changes the store. *)
Theorem medicine_without_row (denv : DeleteMedicineEnv) (senv : StockEnv)
    (u : AuthUser) (id : string) (inStock : bool) (w : World) :
  existsb (fun m => medicine_id m =? id) (amedicines w) = false ->
  existsb (fun i => item_medicine_id i =? id) (aprescription_items w) = false ->
  dm_items_fault denv = None -> dm_delete_fault denv = None ->
  deleteMedicine denv (Some u) id w
  = (Returned (mkResponse 200 (Some "Medicine deleted successfully") tt), w)
  /\ updateMedicineStock senv (Some u) id (Some inStock) w
     = (Thrown (AppError "Medicine not found or failed to update" 404), w).
Proof.
  intros Hrow Hitem Hif Hdf. split.
  - unfold deleteMedicine, bind, select, delete, throw, ret. rewrite Hif, Hdf.
    cbn [rows put from_amedicines from_aprescription_items data option_map error].
    rewrite (nothing_selected _ _ Hitem). cbn [firstn].
    rewrite all_selected
      by (intros m Hm; rewrite (existsb_false_forall _ _ Hrow m Hm); reflexivity).
    unfold set_amedicines. cbn. rewrite world_eta. reflexivity.
  - unfold updateMedicineStock, bind, update, throw, ret.
    destruct (sk_update_fault senv); [reflexivity|].
    cbn [rows put from_amedicines].
    rewrite (nothing_selected _ _ Hrow).
    destruct inStock; cbn; rewrite map_update_fresh by exact Hrow;
      unfold set_amedicines; cbn; rewrite world_eta; reflexivity.
Qed.

(** X24: after [updateMedicineStock] has marked a medicine out of
    stock, no [createPrescription] whose items name that medicine
    returns, whoever sends it, and none writes anything. *)
Theorem out_of_stock_not_prescribed (senv : StockEnv) (penv : CreatePrescriptionEnv)
    (admin : AuthUser) (user : option AuthUser) (id : string) (w w1 : World)
    (marked : Response Medicine) (d : CreatePrescriptionData) :
  updateMedicineStock senv (Some admin) id (Some false) w = (Returned marked, w1) ->
  In id (map medicineId (items d)) ->
  exists e, createPrescription penv user d w1 = (Thrown e, w1).
Proof.
  intros Hmark Hnamed.
  assert (Hrow : exists m, In m (amedicines w1) /\ medicine_id m = id
                           /\ medicine_in_stock m = false).
  { unfold updateMedicineStock, bind, update, throw, ret in Hmark.
    destruct (sk_update_fault senv); [discriminate Hmark|].
    cbn in Hmark.
    destruct (filter (fun m => medicine_id m =? id) (amedicines w))
      as [|m [|m' ms]] eqn:F; cbn in Hmark; try discriminate Hmark.
    injection Hmark as _ <-. cbn [amedicines].
    exists (set_medicine_in_stock false m).
    assert (Hm : In m (filter (fun m => medicine_id m =? id) (amedicines w)))
      by (rewrite F; left; reflexivity).
    apply filter_In in Hm. destruct Hm as (Hm & Hid).
    split; [|split; [apply String.eqb_eq; exact Hid | reflexivity]].
    apply in_map_iff. exists m. rewrite Hid. split; [reflexivity | exact Hm]. }
  destruct Hrow as (m & Hm & Hid & Hout).
  destruct (createPrescription penv user d w1) as (r, w2) eqn:Hrun.
  unfold createPrescription in Hrun.
  destruct user as [u|]; [|injection Hrun as <- <-; eexists; reflexivity].
  unfold bind, select_single, select, insert_keyed, insert, delete, throw, ret,
    embed_aprescription_items in Hrun.
  repeat (destruct_innermost Hrun; cbn [data error] in Hrun);
    try discriminate Hrun;
    try (injection Hrun as <- <-; eexists; reflexivity).
  all: exfalso.
  all: match goal with
       | Hstock : (0 <? length (filter ?out (filter ?named _)))%nat = false |- _ =>
           assert (Hin : In m (filter out (filter named (amedicines w1))))
             by (apply filter_In; split;
                 [apply filter_In; split;
                  [exact Hm | apply id_in_In; rewrite Hid; exact Hnamed]
                 |cbn beta; rewrite Hout; reflexivity]);
           change (rows from_amedicines w1) with (amedicines w1) in Hstock;
           destruct (filter out (filter named (amedicines w1)));
           [destruct Hin | discriminate Hstock]
       end.
Qed.

End Medicines.

(* ================================================================== *)
(** ** The further statements on the stores of the scenario *)
(* ================================================================== *)

(** Doctor X asks to delete slot-1 while it is booked. *)
Lemma deleteSlot_keeps_booked_witness :
  exists r w',
    slotController_rest.deleteSlot Clinic.delete_env (Some Scenario.userX) "slot-1"
      (Scenario.w_consultation scheduled booked) = (r, w')
    /\ (forall e, r = Thrown e -> w' = Scenario.w_consultation scheduled booked)
    /\ (forall s, In s (aavailability_slots (Scenario.w_consultation scheduled booked)) ->
                  slot_status s = booked -> In s (aavailability_slots w')).
Proof.
  do 2 eexists. split; [vm_compute; reflexivity|].
  eapply (deleteSlot_keeps_booked Clinic.delete_env (Some Scenario.userX) "slot-1").
  vm_compute; reflexivity.
Defined.

(** Doctor X creates the slot 09:00-09:30 and deletes it again. *)
Lemma createSlot_deleteSlot_round_trip_witness :
  exists created w1,
    slotController.createSlot (Scenario.no_faults "slot-1") (Some Scenario.userX)
      (Clinic.slot_request "09:00:00" "09:30:00") Scenario.w0 = (Returned created, w1)
    /\ slotController_rest.deleteSlot Clinic.delete_env (Some Scenario.userX)
         (slot_id (res_data created)) w1
       = (Returned (mkResponse 200 (Some "Slot deleted successfully") tt), Scenario.w0).
Proof.
  do 2 eexists. split; [vm_compute; reflexivity|].
  eapply (createSlot_deleteSlot_round_trip (Scenario.no_faults "slot-1") Clinic.delete_env
            Scenario.userX (Clinic.slot_request "09:00:00" "09:30:00") Scenario.w0).
  - simpl. repeat constructor. simpl. intuition.
  - reflexivity.
  - reflexivity.
  - vm_compute; reflexivity.
Defined.


(** After the booking of slot-1, the slots offered for doctor X. *)
Lemma booked_slot_not_offered_witness :
  exists first w1 offered w2,
    consultationController.bookConsultation Scenario.Date_parse (Scenario.book_env None None)
      (Some Scenario.patientP) Scenario.book_request Clinic.w_two_slots
    = (Returned first, w1)
    /\ slotController_rest.getAvailableSlots Clinic.available_env "doc-X" None None w1
       = (Returned offered, w2)
    /\ res_data offered = [Clinic.slot_1000]
    /\ forall s, In s (res_data offered) -> slot_id s <> "slot-1".
Proof.
  do 4 eexists. split; [vm_compute; reflexivity|].
  split; [vm_compute; reflexivity|]. split; [reflexivity|].
  eapply (booked_slot_not_offered Scenario.Date_parse (Scenario.book_env None None)
            Clinic.available_env Scenario.patientP Scenario.book_request
            Clinic.w_two_slots _ _ _ "doc-X" None None).
  - vm_compute; reflexivity.
  - vm_compute; reflexivity.
Defined.

(** The booking of slot-1 and its cancellation by the patient. *)
Lemma cancelled_booking_offered_again_witness :
  exists first w1 done w2,
    consultationController.bookConsultation Scenario.Date_parse (Scenario.book_env None None)
      (Some Scenario.patientP) Scenario.book_request Clinic.w_two_slots
    = (Returned first, w1)
    /\ consultationController.cancelConsultation Scenario.cancel_env
         (Some Scenario.patientP) (consultation_id (res_data first)) w1
       = (Returned done, w2)
    /\ fst (slotController_rest.getAvailableSlots Clinic.available_env "doc-X" None None w2)
       = fst (slotController_rest.getAvailableSlots Clinic.available_env "doc-X" None None
                Clinic.w_two_slots).
Proof.
  do 4 eexists. split; [vm_compute; reflexivity|].
  split; [vm_compute; reflexivity|].
  eapply (cancelled_booking_offered_again Scenario.Date_parse (Scenario.book_env None None)
            Scenario.cancel_env Clinic.available_env Scenario.patientP Scenario.patientP
            Scenario.book_request Clinic.w_two_slots).
  - vm_compute; reflexivity.
  - vm_compute; reflexivity.
  - reflexivity.
  - vm_compute; discriminate.
Defined.

(** Doctor X adds the slot 10:00-10:30 beside 09:00-09:30. *)
Lemma createSlot_keeps_slots_apart_witness :
  exists r w',
    slotController.createSlot (Scenario.no_faults "slot-2") (Some Scenario.userX)
      (Clinic.slot_request "10:00:00" "10:30:00") Scenario.w1 = (r, w')
    /\ length (aavailability_slots w') = 2
    /\ no_two_touch (aavailability_slots w').
Proof.
  do 2 eexists. split; [vm_compute; reflexivity|]. split; [reflexivity|].
  eapply (createSlot_keeps_slots_apart (Scenario.no_faults "slot-2") (Some Scenario.userX)
            (Clinic.slot_request "10:00:00" "10:30:00") Scenario.w1).
  - reflexivity.
  - unfold no_two_touch. simpl. repeat constructor.
  - vm_compute; reflexivity.
Defined.

(** Doctor X marks cons-1 completed: the slot stays booked. *)
Lemma updateConsultation_writes_witness :
  exists r w',
    consultationController.updateConsultation Scenario.update_env (Some Scenario.userX)
      "cons-1" (consultationController.mkUpdateConsultationData (Some completed) None None None)
      (Scenario.w_consultation scheduled booked) = (r, w')
    /\ aavailability_slots w'
       = aavailability_slots (Scenario.w_consultation scheduled booked).
Proof.
  do 2 eexists. split; [vm_compute; reflexivity|].
  eapply (updateConsultation_writes Scenario.update_env (Some Scenario.userX) "cons-1"
            (consultationController.mkUpdateConsultationData (Some completed) None None None)
            (Scenario.w_consultation scheduled booked)).
  - vm_compute; reflexivity.
  - simpl. discriminate.
Defined.

(** Doctor X sends a meeting link for cons-1. *)
Lemma updateConsultation_meetingLink_refused_witness :
  exists r w',
    consultationController.updateConsultation Scenario.update_env (Some Scenario.userX)
      "cons-1"
      (consultationController.mkUpdateConsultationData None None None
         (Some "https://meet.example/cons-1"))
      (Scenario.w_consultation scheduled booked) = (r, w')
    /\ (exists e, r = Thrown e) /\ w' = Scenario.w_consultation scheduled booked.
Proof.
  do 2 eexists. split; [vm_compute; reflexivity|].
  eapply (updateConsultation_meetingLink_refused Scenario.update_env (Some Scenario.userX)
            "cons-1" "https://meet.example/cons-1"
            (consultationController.mkUpdateConsultationData None None None
               (Some "https://meet.example/cons-1"))
            (Scenario.w_consultation scheduled booked)).
  - reflexivity.
  - vm_compute; reflexivity.
Defined.

(** A registration with a new email beside the two accounts. *)
Lemma register_keeps_emails_distinct_witness :
  exists r w',
    authController.register Scenario.bcrypt_hash Scenario.jwt_sign "secret" None
      (Scenario.register_env None) (Scenario.register_request "n@mail.example")
      Scenario.w_accounts = (r, w')
    /\ length (ausers w') = 3
    /\ NoDup (map user_email (ausers w')).
Proof.
  do 2 eexists. split; [vm_compute; reflexivity|]. split; [reflexivity|].
  eapply (register_keeps_emails_distinct Scenario.bcrypt_hash Scenario.jwt_sign "secret" None
            (Scenario.register_env None) (Scenario.register_request "n@mail.example")
            Scenario.w_accounts).
  - reflexivity.
  - simpl. repeat constructor; simpl; intuition discriminate.
  - vm_compute; reflexivity.
Defined.

(** The same registration, and the login that follows it. *)
Lemma register_then_login_witness :
  exists registered w1,
    authController.register Scenario.bcrypt_hash Scenario.jwt_sign "secret" None
      (Scenario.register_env None) (Scenario.register_request "n@mail.example")
      Scenario.w_accounts = (Returned registered, w1)
    /\ exists answer w2,
         authController.login Scenario.bcrypt_compare Scenario.jwt_sign "secret" None
           Scenario.login_env (authController.mkLoginData "n@mail.example" "correct-horse") w1
         = (Returned answer, w2)
         /\ res_status answer = 200
         /\ authController.data_user (res_data answer)
            = authController.data_user (res_data registered).
Proof.
  do 2 eexists. split; [vm_compute; reflexivity|].
  eapply (register_then_login Scenario.bcrypt_hash Scenario.bcrypt_compare Scenario.jwt_sign
            "secret" None (Scenario.register_env None) Scenario.login_env
            (Scenario.register_request "n@mail.example") Scenario.w_accounts).
  - reflexivity.
  - reflexivity.
  - reflexivity.
  - reflexivity.
  - vm_compute; reflexivity.
Defined.

(** An admin adds Aspirin beside Paracetamol and Ibuprofen. *)
Lemma createMedicine_keeps_names_distinct_witness :
  exists r w',
    medicineController.createMedicine (medicineController.mkCreateMedicineEnv None None "med-C")
      (Some Clinic.adminA) (medicineController.mkCreateMedicineData "Aspirin" true)
      Scenario.w_ongoing = (r, w')
    /\ length (amedicines w') = 3
    /\ NoDup (map medicine_name (amedicines w')).
Proof.
  do 2 eexists. split; [vm_compute; reflexivity|]. split; [reflexivity|].
  eapply (createMedicine_keeps_names_distinct
            (medicineController.mkCreateMedicineEnv None None "med-C") (Some Clinic.adminA)
            (medicineController.mkCreateMedicineData "Aspirin" true) Scenario.w_ongoing).
  - reflexivity.
  - simpl. repeat constructor; simpl; intuition discriminate.
  - vm_compute; reflexivity.
Defined.

(** Doctor X prescribes Paracetamol for cons-1. *)
Lemma createPrescription_one_per_consultation_witness :
  exists r w',
    prescriptionController.createPrescription (Scenario.prescribe_env None)
      (Some Scenario.userX) (Scenario.prescribe ["med-A"]) Scenario.w_ongoing = (r, w')
    /\ length (aprescriptions w') = 1
    /\ NoDup (map prescription_consultation_id (aprescriptions w')).
Proof.
  do 2 eexists. split; [vm_compute; reflexivity|]. split; [reflexivity|].
  eapply (createPrescription_one_per_consultation (Scenario.prescribe_env None)
            (Some Scenario.userX) (Scenario.prescribe ["med-A"]) Scenario.w_ongoing).
  - reflexivity.
  - simpl. constructor.
  - vm_compute; reflexivity.
Defined.

(** The token of the patient, which carries the role admin. *)
Lemma authenticate_user_from_store_witness :
  exists r w',
    auth.authenticate string Clinic.jwt_verify Clinic.instanceof_JsonWebTokenError
      Clinic.instanceof_TokenExpiredError "secret" Clinic.auth_env (Some "Bearer tok-P")
      Clinic.w_two_slots = (r, w')
    /\ r = Returned (auth.next (Some Scenario.patientP))
    /\ w' = Clinic.w_two_slots
    /\ (exists passed, r = Returned passed)
    /\ (forall user, r = Returned (auth.next user) ->
          exists token u,
            user = Some u
            /\ header_token (Some "Bearer tok-P") token
            /\ from_store Clinic.jwt_verify "secret" Clinic.w_two_slots token u)
    /\ (auth.an_select_fault Clinic.auth_env = None ->
        forall token u,
          header_token (Some "Bearer tok-P") token ->
          from_store Clinic.jwt_verify "secret" Clinic.w_two_slots token u ->
          r = Returned (auth.next (Some u))).
Proof.
  do 2 eexists. split; [vm_compute; reflexivity|]. split; [reflexivity|].
  eapply (authenticate_user_from_store string Clinic.jwt_verify
            Clinic.instanceof_JsonWebTokenError Clinic.instanceof_TokenExpiredError "secret"
            Clinic.auth_env (Some "Bearer tok-P") Clinic.w_two_slots).
  vm_compute; reflexivity.
Defined.

(** Doctor X blocks slot-1 through the route. *)
Lemma put_slot_changes_by_owner_or_admin_witness :
  exists r w',
    routes.put_slot string Clinic.jwt_verify Clinic.instanceof_JsonWebTokenError
      Clinic.instanceof_TokenExpiredError "secret" Clinic.auth_env
      (slotController.mkUpdateSlotEnv None None) (Some "Bearer tok-X") "slot-1"
      (status_only blocked) Clinic.w_two_slots = (r, w')
    /\ aavailability_slots w' <> aavailability_slots Clinic.w_two_slots
    /\ exists u slot,
         caller Clinic.jwt_verify "secret" (Some "Bearer tok-X") Clinic.w_two_slots
           (Some [role_doctor; role_admin]) u
         /\ filter (fun s => slot_id s =? "slot-1") (aavailability_slots Clinic.w_two_slots)
            = [slot]
         /\ may_update_slot u slot Clinic.w_two_slots.
Proof.
  do 2 eexists. split; [vm_compute; reflexivity|].
  split; [vm_compute; discriminate|].
  eapply (put_slot_changes_by_owner_or_admin string Clinic.jwt_verify
            Clinic.instanceof_JsonWebTokenError Clinic.instanceof_TokenExpiredError "secret"
            Clinic.auth_env (slotController.mkUpdateSlotEnv None None) (Some "Bearer tok-X")
            "slot-1" (status_only blocked) Clinic.w_two_slots).
  - vm_compute; reflexivity.
  - vm_compute; discriminate.
Defined.

(** Doctor X deletes the free slot-2 through the route. *)
Lemma delete_slot_changes_by_owner_or_admin_witness :
  exists r w',
    routes.delete_slot string Clinic.jwt_verify Clinic.instanceof_JsonWebTokenError
      Clinic.instanceof_TokenExpiredError "secret" Clinic.auth_env Clinic.delete_env
      (Some "Bearer tok-X") "slot-2" Clinic.w_two_slots = (r, w')
    /\ aavailability_slots w' <> aavailability_slots Clinic.w_two_slots
    /\ exists u slot,
         caller Clinic.jwt_verify "secret" (Some "Bearer tok-X") Clinic.w_two_slots
           (Some [role_doctor; role_admin]) u
         /\ filter (fun s => slot_id s =? "slot-2") (aavailability_slots Clinic.w_two_slots)
            = [slot]
         /\ slot_status slot <> booked
         /\ may_update_slot u slot Clinic.w_two_slots.
Proof.
  do 2 eexists. split; [vm_compute; reflexivity|].
  split; [vm_compute; discriminate|].
  eapply (delete_slot_changes_by_owner_or_admin string Clinic.jwt_verify
            Clinic.instanceof_JsonWebTokenError Clinic.instanceof_TokenExpiredError "secret"
            Clinic.auth_env Clinic.delete_env (Some "Bearer tok-X") "slot-2"
            Clinic.w_two_slots).
  - vm_compute; reflexivity.
  - vm_compute; discriminate.
Defined.

(** The patient books slot-1 through the route, with the token that
    carries the role admin. *)
Lemma post_book_patient_is_caller_witness :
  exists answer w',
    routes.post_book string Clinic.jwt_verify Clinic.instanceof_JsonWebTokenError
      Clinic.instanceof_TokenExpiredError "secret" Scenario.Date_parse Clinic.auth_env
      (Scenario.book_env None None) (Some "Bearer tok-P") Scenario.book_request
      Clinic.w_two_slots = (Returned (routes.handled answer), w')
    /\ exists u,
         caller Clinic.jwt_verify "secret" (Some "Bearer tok-P") Clinic.w_two_slots
           (Some [role_user]) u
         /\ auth_role u = role_user
         /\ consultation_patient_id (res_data answer) = auth_id u
         /\ In (res_data answer) (aconsultations w').
Proof.
  do 2 eexists. split; [vm_compute; reflexivity|].
  eapply (post_book_patient_is_caller string Clinic.jwt_verify
            Clinic.instanceof_JsonWebTokenError Clinic.instanceof_TokenExpiredError "secret"
            Scenario.Date_parse Clinic.auth_env (Scenario.book_env None None)
            (Some "Bearer tok-P") Scenario.book_request Clinic.w_two_slots).
  vm_compute; reflexivity.
Defined.

(** Doctor X prescribes for cons-1 through the route. *)
Lemma post_prescription_by_consultation_doctor_witness :
  exists answer w',
    routes.post_prescription string Clinic.jwt_verify Clinic.instanceof_JsonWebTokenError
      Clinic.instanceof_TokenExpiredError "secret" Clinic.auth_env
      (Scenario.prescribe_env None) (Some "Bearer tok-X") (Scenario.prescribe ["med-A"])
      (Clinic.with_users Scenario.w_ongoing) = (Returned (routes.handled answer), w')
    /\ exists u doctor c,
         caller Clinic.jwt_verify "secret" (Some "Bearer tok-X")
           (Clinic.with_users Scenario.w_ongoing) (Some [role_doctor]) u
         /\ auth_role u = role_doctor
         /\ filter (fun x => doctor_user_id x =? auth_id u)
                   (adoctors (Clinic.with_users Scenario.w_ongoing)) = [doctor]
         /\ filter (fun x => consultation_id x =? "cons-1")
                   (aconsultations (Clinic.with_users Scenario.w_ongoing)) = [c]
         /\ consultation_doctor_id c = doctor_id doctor
         /\ (consultation_status c = completed \/ consultation_status c = ongoing).
Proof.
  do 2 eexists. split; [vm_compute; reflexivity|].
  eapply (post_prescription_by_consultation_doctor string Clinic.jwt_verify
            Clinic.instanceof_JsonWebTokenError Clinic.instanceof_TokenExpiredError "secret"
            Clinic.auth_env (Scenario.prescribe_env None) (Some "Bearer tok-X")
            (Scenario.prescribe ["med-A"]) (Clinic.with_users Scenario.w_ongoing)).
  vm_compute; reflexivity.
Defined.


(** Doctor X reads cons-1. *)
Lemma getConsultationById_visibility_witness :
  exists answer w',
    consultationController_rest.getConsultationById
      (consultationController_rest.mkGetConsultationEnv None None) (Some Scenario.userX)
      "cons-1" Clinic.w_prescribed = (Returned answer, w')
    /\ w' = Clinic.w_prescribed
    /\ consultation_id (consultationController_rest.cd_consultation (res_data answer))
       = "cons-1"
    /\ exists doc, In doc (adoctors Clinic.w_prescribed)
                   /\ doctor_user_id doc = "user-X"
                   /\ consultation_doctor_id
                        (consultationController_rest.cd_consultation (res_data answer))
                      = doctor_id doc.
Proof.
  do 2 eexists. split; [vm_compute; reflexivity|].
  destruct (getConsultationById_visibility
              (consultationController_rest.mkGetConsultationEnv None None) Scenario.userX
              "cons-1" Clinic.w_prescribed _ _ eq_refl) as (Hsame & Hread).
  split; [exact Hsame|].
  destruct (Hread _ eq_refl) as (_ & Hid & _ & Hdoctor).
  split; [exact Hid|]. apply Hdoctor. reflexivity.
Defined.

(** The patient books slot-1 and reads the consultation back. *)
Lemma booked_consultation_read_back_witness :
  exists first w1,
    consultationController.bookConsultation Scenario.Date_parse (Scenario.book_env None None)
      (Some Scenario.patientP) Scenario.book_request Clinic.w_two_slots
    = (Returned first, w1)
    /\ exists details,
         consultationController_rest.getConsultationById
           (consultationController_rest.mkGetConsultationEnv None None)
           (Some Scenario.patientP) (consultation_id (res_data first)) w1
         = (Returned (mkResponse 200 None details), w1)
         /\ consultationController_rest.cd_consultation details = res_data first.
Proof.
  do 2 eexists. split; [vm_compute; reflexivity|].
  eapply (booked_consultation_read_back Scenario.Date_parse (Scenario.book_env None None)
            (consultationController_rest.mkGetConsultationEnv None None) Scenario.patientP
            Scenario.book_request Clinic.w_two_slots).
  - vm_compute; reflexivity.
  - simpl. discriminate.
  - reflexivity.
Defined.

(** Doctor X prescribes Paracetamol for cons-1 and the patient reads
    the prescription. *)
Lemma created_prescription_read_back_witness :
  exists created w1,
    prescriptionController.createPrescription (Scenario.prescribe_env None)
      (Some Scenario.userX) (Scenario.prescribe ["med-A"]) Scenario.w_ongoing
    = (Returned created, w1)
    /\ exists details,
         prescriptionController_rest.getPrescriptionByConsultation
           (prescriptionController_rest.mkGetPrescriptionEnv None None)
           (Some Scenario.patientP) "cons-1" w1
         = (Returned (mkResponse 200 None details), w1)
         /\ prescription_id (prescriptionController_rest.pd_prescription details) = "presc-1"
         /\ prescription_notes (prescriptionController_rest.pd_prescription details) = None
         /\ Permutation
              (map (fun x => item_medicine_id (fst x))
                   (prescriptionController_rest.pd_aprescription_items details))
              ["med-A"].
Proof.
  do 2 eexists. split; [vm_compute; reflexivity|].
  eapply (created_prescription_read_back (Scenario.prescribe_env None)
            (prescriptionController_rest.mkGetPrescriptionEnv None None) Scenario.userX
            Scenario.patientP (Scenario.prescribe ["med-A"]) Scenario.w_ongoing).
  - reflexivity.
  - simpl. constructor.
  - reflexivity.
  - reflexivity.
  - reflexivity.
  - simpl. intros c [<-|[]] _. reflexivity.
  - vm_compute; reflexivity.
Defined.

(** The statistics of doctor X, whose one consultation is completed. *)
Lemma getMyDoctorStats_total_witness :
  exists answer w',
    doctorController.getMyDoctorStats
      (doctorController.mkStatsEnv None None None "2025-03-01") (Some Scenario.userX)
      Clinic.w_prescribed = (Returned answer, w')
    /\ doctorController.totalConsultations (doctorController.stats (res_data answer)) = 1
    /\ w' = Clinic.w_prescribed
    /\ exists doctor,
         In doctor (adoctors Clinic.w_prescribed) /\ doctor_user_id doctor = "user-X"
         /\ doctorController.totalConsultations (doctorController.stats (res_data answer))
            = doctorController.stats_completed (doctorController.stats (res_data answer))
              + doctorController.stats_scheduled (doctorController.stats (res_data answer))
              + doctorController.stats_ongoing (doctorController.stats (res_data answer))
              + doctorController.stats_cancelled (doctorController.stats (res_data answer))
              + length (filter (fun c => ConsultationStatus_eqb (consultation_status c) no_show)
                          (filter (fun c => consultation_doctor_id c =? doctor_id doctor)
                                  (aconsultations Clinic.w_prescribed))).
Proof.
  do 2 eexists. split; [vm_compute; reflexivity|]. split; [reflexivity|].
  eapply (getMyDoctorStats_total (doctorController.mkStatsEnv None None None "2025-03-01")
            Scenario.userX Clinic.w_prescribed).
  - reflexivity.
  - vm_compute; reflexivity.
Defined.

(** An admin deletes Ibuprofen, which no item names: Paracetamol, which
    item_1 names, stays. *)
Lemma deleteMedicine_keeps_referenced_witness :
  exists r w',
    medicineController.deleteMedicine (medicineController.mkDeleteMedicineEnv None None)
      (Some Clinic.adminA) "med-B" Clinic.w_prescribed = (r, w')
    /\ amedicines w' = [Scenario.med_A]
    /\ aprescription_items w' = aprescription_items Clinic.w_prescribed
    /\ forall i m, In i (aprescription_items Clinic.w_prescribed) ->
                   In m (amedicines Clinic.w_prescribed) ->
                   medicine_id m = item_medicine_id i -> In m (amedicines w').
Proof.
  do 2 eexists. split; [vm_compute; reflexivity|]. split; [reflexivity|].
  eapply (deleteMedicine_keeps_referenced (medicineController.mkDeleteMedicineEnv None None)
            (Some Clinic.adminA) "med-B" Clinic.w_prescribed).
  - reflexivity.
  - vm_compute; reflexivity.
Defined.

(** An id that no medicine has. *)
Lemma medicine_without_row_witness :
  medicineController.deleteMedicine (medicineController.mkDeleteMedicineEnv None None)
    (Some Clinic.adminA) "med-Z" Clinic.w_prescribed
  = (Returned (mkResponse 200 (Some "Medicine deleted successfully") tt), Clinic.w_prescribed)
  /\ medicineController.updateMedicineStock (medicineController.mkStockEnv None)
       (Some Clinic.adminA) "med-Z" (Some true) Clinic.w_prescribed
     = (Thrown (AppError "Medicine not found or failed to update" 404), Clinic.w_prescribed).
Proof.
  apply (medicine_without_row (medicineController.mkDeleteMedicineEnv None None)
           (medicineController.mkStockEnv None) Clinic.adminA "med-Z" true
           Clinic.w_prescribed); reflexivity.
Defined.

(** An admin marks Paracetamol out of stock; doctor X then prescribes
    it for cons-1. *)
Lemma out_of_stock_not_prescribed_witness :
  exists marked w1,
    medicineController.updateMedicineStock (medicineController.mkStockEnv None)
      (Some Clinic.adminA) "med-A" (Some false) Scenario.w_ongoing = (Returned marked, w1)
    /\ exists e,
         prescriptionController.createPrescription (Scenario.prescribe_env None)
           (Some Scenario.userX) (Scenario.prescribe ["med-A"]) w1 = (Thrown e, w1).
Proof.
  do 2 eexists. split; [vm_compute; reflexivity|].
  eapply (out_of_stock_not_prescribed (medicineController.mkStockEnv None)
            (Scenario.prescribe_env None) Clinic.adminA (Some Scenario.userX) "med-A"
            Scenario.w_ongoing).
  - vm_compute; reflexivity.
  - simpl. left. reflexivity.
Defined.
